(** * Document-processing pipeline and layered result cache

  A shallow embedding of the Python backend:
  - [backend/app/services/cache_service.py]  (module [Cache]),
  - [backend/app/services/file_processor.py] (module [Processor]),
  - [backend/app/services/openai_service.py] and
    [backend/app/routers/chats.py]           (modules [Chat] and
                                              [Reasoning]),
  - [backend/app/routers/files.py]           (module [Files]),
  - [backend/app/models/user.py]             (module [Users]),
  together with the properties of the specification that concern them
  and further properties read off the code.

  Modelling conventions.
  - A Python [str] is a Rocq [string]; a character is the code point it
    carries (code points below 256).  [bytes] is a list of byte values.
  - [time.time()] returns a float.  A float is carried as the whole
    number of ticks it denotes, a [Z]; the sum that sets a cache deadline
    is rounded to 53 significant bits, as binary64 addition does (module
    [Float]); the differences that measure elapsed time are exact.  The
    tick is one second wherever a constant of the code (a ttl of 600 or
    3600) is added to the clock.  The cache itself ([Cache.set],
    [Cache.get]) uses no constant: its properties hold for any tick that is
    a power of two fraction of a second, hence for fractional readings.
  - A Python dict literal is an association list in insertion order.
  - External collaborators (psutil, Docling, PyPDF2, pandas, json, the LLM
    client) are oracles collected in a record. *)

From Stdlib Require Import ZArith NArith QArith Lqa Lia Ascii String List Bool.
From Stdlib Require Import DecimalString.
From Stdlib Require PrimFloat Uint63 SpecFloat FloatOps.
From stdpp Require Import base gmap strings list.

Local Open Scope string_scope.
Local Open Scope list_scope.
Local Open Scope Z_scope.

(* ===================================================================== *)
(** ** Python string primitives *)
(* ===================================================================== *)

Module Py.

(** [str.isspace] on one character. *)
Definition is_space (c : ascii) : bool :=
  let n := N_of_ascii c in
  (((9 <=? n) && (n <=? 13)) || ((28 <=? n) && (n <=? 32))
   || (n =? 133) || (n =? 160))%N.

(** [str.lower] on one character. *)
Definition lower_char (c : ascii) : ascii :=
  let n := N_of_ascii c in
  if (((65 <=? n) && (n <=? 90))
      || ((192 <=? n) && (n <=? 222) && negb (n =? 215)))%N
  then ascii_of_N (n + 32) else c.

Fixpoint lower (s : string) : string :=
  match s with
  | EmptyString => EmptyString
  | String c s' => String (lower_char c) (lower s')
  end.

Definition upper_char (c : ascii) : ascii :=
  let n := N_of_ascii c in
  if ((97 <=? n) && (n <=? 122))%N then ascii_of_N (n - 32) else c.

(** [str.upper], used on file extensions only (letters a-z). *)
Fixpoint upper (s : string) : string :=
  match s with
  | EmptyString => EmptyString
  | String c s' => String (upper_char c) (upper s')
  end.

Definition is_empty (s : string) : bool :=
  match s with EmptyString => true | _ => false end.

Fixpoint lstrip (s : string) : string :=
  match s with
  | EmptyString => EmptyString
  | String c s' => if is_space c then lstrip s' else s
  end.

Fixpoint rstrip (s : string) : string :=
  match s with
  | EmptyString => EmptyString
  | String c s' =>
      let r := rstrip s' in
      if is_space c && is_empty r then EmptyString else String c r
  end.

(** [s.strip()] *)
Definition strip (s : string) : string := rstrip (lstrip s).

(** [s.split(sep)] for a one-character separator. *)
Fixpoint split (sep : ascii) (s : string) : list string :=
  match s with
  | EmptyString => [EmptyString]
  | String c s' =>
      if Ascii.eqb c sep then EmptyString :: split sep s'
      else match split sep s' with
           | h :: t => String c h :: t
           | [] => [String c EmptyString]
           end
  end.

(** [xs[-1]] of a list of strings known to be non-empty. *)
Definition last_item (xs : list string) : string := List.last xs EmptyString.

(** [s.startswith(p)] *)
Definition startswith (s p : string) : bool := String.prefix p s.

(** [p in s] *)
Fixpoint contains (p s : string) : bool :=
  String.prefix p s ||
  match s with
  | EmptyString => false
  | String _ s' => contains p s'
  end.

(** [s[:n]] *)
Fixpoint take (n : nat) (s : string) : string :=
  match n, s with
  | O, _ => EmptyString
  | S _, EmptyString => EmptyString
  | S n', String c s' => String c (take n' s')
  end.

Arguments take : simpl never.

(** [len(s)] *)
Definition len (s : string) : nat := String.length s.

(** Only whitespace (or nothing). *)
Fixpoint all_space (s : string) : bool :=
  match s with
  | EmptyString => true
  | String c s' => is_space c && all_space s'
  end.

(** [s.split()]: the maximal runs of non-whitespace characters. *)
Fixpoint split_ws (s : string) : list string :=
  match s with
  | EmptyString => []
  | String c s' =>
      if is_space c then split_ws s'
      else match s' with
           | EmptyString => [String c EmptyString]
           | String c' _ =>
               if is_space c' then String c EmptyString :: split_ws s'
               else match split_ws s' with
                    | w :: ws => String c w :: ws
                    | [] => [String c EmptyString]
                    end
           end
  end.

(** Equal up to the case of letters, character by character. *)
Fixpoint same_ignoring_case (s1 s2 : string) : bool :=
  match s1, s2 with
  | EmptyString, EmptyString => true
  | String c1 r1, String c2 r2 =>
      Ascii.eqb (lower_char c1) (lower_char c2) && same_ignoring_case r1 r2
  | _, _ => false
  end.

(** [c * n] for a one-character string. *)
Fixpoint repeat_char (c : ascii) (n : nat) : string :=
  match n with
  | O => EmptyString
  | S n' => String c (repeat_char c n')
  end.

End Py.

(* ===================================================================== *)
(** ** Data model *)
(* ===================================================================== *)

(** Values stored under the keys of a dict literal. *)
Inductive mval :=
| MNone
| MStr (s : string)
| MInt (n : Z)
| MBool (b : bool)
| MStrs (l : list string).

Definition pydict := list (string * mval).

Fixpoint dict_get (k : string) (d : pydict) : option mval :=
  match d with
  | [] => None
  | (k', v) :: d' => if String.eqb k k' then Some v else dict_get k d'
  end.

(** A parsed table ([pandas.DataFrame]). *)
Record DataFrame := {
  df_columns : list string;
  df_rows : list (list string)
}.

(** The [content] payloads built by the processor. *)
Inductive pyobj :=
| ODict (d : pydict)
| OJson (j : string)
| ORecords (columns : list string) (rows : list (list string)).

(** [ProcessingResult] dataclass of file_processor.py. *)
Record ProcessingResult := {
  success : bool;
  content : option pyobj;
  metadata : option pydict;
  error_message : option string;
  processing_time : Z;
  token_estimate : Z;
  chunk_count : Z;
  enhanced_processing : bool
}.

(** Values held by the process-wide cache: extraction results under the
  [partial:] keys, answers under the [faq:] keys. *)
Inductive pyval :=
| PNone
| PStr (s : string)
| PResult (r : ProcessingResult).

(** Python truthiness ([if x:]). *)
Definition truthy (v : pyval) : bool :=
  match v with
  | PNone => false
  | PStr s => negb (Py.is_empty s)
  | PResult _ => true
  end.

(* ===================================================================== *)
(** ** Python floats *)
(* ===================================================================== *)

Module Float.

(** Significant bits of an IEEE 754 binary64. *)
Definition prec : Z := 53.

(** The float nearest to [x] ticks, ties to the even significand: what a
    float operation whose exact result is [x] returns.  A number of at
    most 53 bits is a float; a longer one keeps its 53 leading bits,
    rounded on the rest.  Overflow to infinity (beyond 2**1024) is not
    modelled. *)
Definition round (x : Z) : Z :=
  let m := Z.abs x in
  let k := Z.log2 m + 1 in
  if k <=? prec then x
  else
    let s := k - prec in
    let q := m / 2 ^ s in
    let r := m mod 2 ^ s in
    let half := 2 ^ (s - 1) in
    let q' := if (half <? r) || ((r =? half) && Z.odd q) then q + 1 else q in
    Z.sgn x * (q' * 2 ^ s).

(** [a + b] on floats. *)
Definition add (a b : Z) : Z := round (a + b).

(** [x] is the value of a float. *)
Definition representable (x : Z) : Prop := round x = x.

(** The hardware float of a natural number below 2**63, and the number
    of ticks of 2**-k that a hardware float denotes (for a float that is a
    whole number of them). *)
Definition binary64_of_Z (x : Z) : PrimFloat.float :=
  PrimFloat.of_uint63 (Uint63.of_Z x).

Definition binary64_to_ticks (k : Z) (f : PrimFloat.float) : Z :=
  match FloatOps.Prim2SF f with
  | SpecFloat.S754_finite s m e =>
      (if s then -1 else 1) * Z.shiftl (Z.pos m) (e + k)
  | _ => 0
  end.

(** The floats [0.1] and [0.2]. *)
Definition tenth : PrimFloat.float :=
  PrimFloat.div (binary64_of_Z 1) (binary64_of_Z 10).

Definition fifth : PrimFloat.float :=
  PrimFloat.div (binary64_of_Z 2) (binary64_of_Z 10).

End Float.

(* ===================================================================== *)
(** ** cache_service.py *)
(* ===================================================================== *)

Module Cache.

(** [(value, created_at, expire_at)] *)
Abbreviation entry := (pyval * Z * option Z)%type.

Abbreviation store := (gmap string entry).

(** [InMemoryCache.set]; [t_expire] and [t_created] are the two readings
    of [time.time()], in program order.  [expire_at] is the float sum
    [time.time() + ttl]. *)
Definition set (t_expire t_created : Z) (key : string) (value : pyval)
    (ttl : option Z) (c : store) : store :=
  let expire_at :=
    match ttl with
    | Some d => if d =? 0 then None else Some (Float.add t_expire d)
    | None => None
    end in
  <[key := (value, t_created, expire_at)]> c.

(** [if expire_at and time.time() > expire_at] *)
Definition expired (expire_at : option Z) (t : Z) : bool :=
  match expire_at with
  | Some e => negb (e =? 0) && (t >? e)
  | None => false
  end.

(** [InMemoryCache.get]; [t] is the reading of [time.time()] made when
    the entry carries an expiry. Returns the value and the store left
    behind (an expired entry is deleted). *)
Definition get (t : Z) (key : string) (c : store) : pyval * store :=
  match c !! key with
  | None => (PNone, c)
  | Some (value, created_at, expire_at) =>
      if expired expire_at t then (PNone, delete key c) else (value, c)
  end.

(** [InMemoryCache.invalidate] *)
Definition invalidate (key : string) (c : store) : store :=
  match c !! key with
  | Some _ => delete key c
  | None => c
  end.

(** [InMemoryCache.clear] *)
Definition clear (c : store) : store := ∅.

(** [InMemoryCache.keys]: the keys of the dict, each once. Python lists
    them in insertion order; the order of the list is not modelled. *)
Definition keys (c : store) : list string := (map_to_list c).*1.

(** No [':'] occurs in [s]. *)
Fixpoint colon_free (s : string) : bool :=
  match s with
  | EmptyString => true
  | String c s' => negb (Ascii.eqb c ":") && colon_free s'
  end.

Module QueryCache.
Definition make_key (chat_id query_hash : string) : string :=
  "faq:" +:+ chat_id +:+ ":" +:+ query_hash.
Definition get (t : Z) (chat_id query_hash : string) (c : store) :=
  Cache.get t (make_key chat_id query_hash) c.
Definition set (t1 t2 : Z) (chat_id query_hash : string) (value : pyval)
    (ttl : option Z) (c : store) : store :=
  Cache.set t1 t2 (make_key chat_id query_hash) value ttl c.
Definition invalidate (chat_id query_hash : string) (c : store) : store :=
  Cache.invalidate (make_key chat_id query_hash) c.
End QueryCache.

Module PartialResultCache.
Definition make_key (file_id result_type : string) : string :=
  "partial:" +:+ file_id +:+ ":" +:+ result_type.
Definition get (t : Z) (file_id result_type : string) (c : store) :=
  Cache.get t (make_key file_id result_type) c.
Definition set (t1 t2 : Z) (file_id result_type : string) (value : pyval)
    (ttl : option Z) (c : store) : store :=
  Cache.set t1 t2 (make_key file_id result_type) value ttl c.
Definition invalidate (file_id result_type : string) (c : store) : store :=
  Cache.invalidate (make_key file_id result_type) c.
End PartialResultCache.

(** [get_adaptive_ttl]; the two [float] arguments are rationals (no NaN,
    no infinity). *)
Definition get_adaptive_ttl (document_volatility access_frequency : Q) : Q :=
  let base_ttl := 600%Q in
  if negb (Qle_bool document_volatility (1 # 2)) then (base_ttl / 2)%Q
  else if negb (Qle_bool access_frequency 10) then (base_ttl * 2)%Q
  else base_ttl.

End Cache.

(* ===================================================================== *)
(** ** file_processor.py *)
(* ===================================================================== *)

Module Processor.

Definition bytes := list Byte.byte.

(** [UploadFile]: the name (which may be [None]) and the bytes that
    [await file.read()] returns after [seek(0)]. *)
Record UploadFile := {
  filename : option string;
  data : bytes
}.

(** Exceptions that cross a function boundary of this module. *)
Inductive exn :=
| ValueError (msg : string)
| AttributeError (msg : string)
| TimeoutError (msg : string)
| MemoryError
| HTTPException (status : Z) (detail : string)
| OtherError (msg : string).

(** [str(e)] *)
Definition exn_str (e : exn) : string :=
  match e with
  | ValueError m | AttributeError m | TimeoutError m | OtherError m => m
  | HTTPException _ m => m
  | MemoryError => ""
  end.

Inductive result (A : Type) :=
| Ok (a : A)
| Raise (e : exn).
Arguments Ok {A} a.
Arguments Raise {A} e.

(** What psutil reports; [None] stands for a call that raises. *)
Record probe := {
  available_bytes : option Z;
  cpu_tenths : option Z
}.

(** The Docling conversion followed by [export_to_markdown]. *)
Inductive engine_outcome :=
| Converted (markdown : string) (document_type : string)
| EngineRaises (e : exn).

Inductive pdf_outcome :=
| PdfPages (texts : list string)
| PdfRaises (e : exn).

Inductive json_outcome :=
| JsonValue (j : string)
| JsonNull
| JsonDecodeError (msg : string)
| JsonRaises (e : exn).

(** The collaborators of the processor. [probe_at] and [convert] are
    indexed by the ordinal of the [process_file_enhanced] call that
    consults them; [os_clock] by the ordinal of the [time.time()] reading.
    [json_loads] answers [JsonNull] when the document is [null], which
    Python reads as [None]. *)
Record Env := {
  os_clock : nat -> Z;
  probe_at : nat -> probe;
  convert : nat -> bool -> option (list string) -> bytes -> engine_outcome;
  pypdf2 : bytes -> pdf_outcome;
  json_loads : bytes -> json_outcome;
  read_csv : bytes -> option DataFrame;
  read_excel : bytes -> option DataFrame;
  decode_utf8 : bytes -> string + string;
  b64encode : bytes -> string
}.

(** The [n]-th reading of [time.time()]: the time of the operating
    system as a float. *)
Definition clock (E : Env) (n : nat) : Z := Float.round (os_clock E n).
Arguments clock : simpl never.

(** The fields of [FileProcessor] set by [__init__]. *)
Record FileProcessor := {
  max_memory_mb : Z;
  max_processing_time : Z;
  enhanced_processing_enabled : bool
}.

(** Observable calls, in program order. *)
Inductive event :=
| EvRoute (force_ocr : bool) (decision : bool)
| EvEnhanced (force_ocr : bool) (ocr_language : option (list string))
| EvResources (sufficient : bool)
| EvConvert (force_full_page_ocr : bool) (lang : option (list string))
| EvPdfFallback
| EvBasicPath
| EvBasic (parser : string)
| EvSummarize
| EvReasoning (user_message : string).

Record World := {
  cache : Cache.store;
  ticks : nat;
  calls : nat;
  trace : list event
}.

(** State and exceptions. *)
Definition M (A : Type) : Type := World -> result A * World.

Definition ret {A} (a : A) : M A := fun w => (Ok a, w).

Definition raise {A} (e : exn) : M A := fun w => (Raise e, w).

Definition bind {A B} (m : M A) (k : A -> M B) : M B :=
  fun w =>
    match m w with
    | (Ok a, w') => k a w'
    | (Raise e, w') => (Raise e, w')
    end.

(** [try: m  except Exception as e: h e] *)
Definition try_except {A} (m : M A) (h : exn -> M A) : M A :=
  fun w =>
    match m w with
    | (Ok a, w') => (Ok a, w')
    | (Raise e, w') => h e w'
    end.

Declare Scope py_scope.
Delimit Scope py_scope with py.
Notation "'let*' x ':=' m 'in' k" := (bind m (fun x => k))
  (at level 10, x name, m at level 100, k at level 200) : py_scope.
Notation "m ';;' k" := (bind m (fun _ => k))
  (at level 100, k at level 200, right associativity) : py_scope.
Local Open Scope py_scope.

Definition emit (ev : event) : M unit :=
  fun w => (Ok tt, {| cache := cache w; ticks := ticks w; calls := calls w;
                      trace := trace w ++ [ev] |}).

Definition get_cache : M Cache.store := fun w => (Ok (cache w), w).

Definition put_cache (c : Cache.store) : M unit :=
  fun w => (Ok tt, {| cache := c; ticks := ticks w; calls := calls w;
                      trace := trace w |}).

(** Enter [process_file_enhanced]: the ordinal of this call. *)
Definition next_call : M nat :=
  fun w => (Ok (calls w), {| cache := cache w; ticks := ticks w;
                             calls := S (calls w); trace := trace w |}).

(** [f"{x}"] for an optional string. *)
Definition fmt (o : option string) : string :=
  match o with Some s => s | None => "None" end.

Definition mfilename (o : option string) : mval :=
  match o with Some s => MStr s | None => MNone end.

Definition zlen {A} (l : list A) : Z := Z.of_nat (List.length l).

Definition slen (s : string) : Z := Z.of_nat (Py.len s).

(** [ocr_language or ['en']] and [if ocr_language:] *)
Definition lang_truthy (l : option (list string)) : bool :=
  match l with Some (_ :: _) => true | _ => false end.

Definition lang_or (l : option (list string)) (d : list string) : list string :=
  match l with Some (x :: xs) => x :: xs | _ => d end.

(** [file.filename.split('.')[-1].lower() if file.filename else ''] *)
Definition file_ext (file : UploadFile) : string :=
  match filename file with
  | Some (String c s) => Py.lower (Py.last_item (Py.split "." (String c s)))
  | _ => ""
  end.

Definition str_in (x : string) (l : list string) : bool :=
  existsb (String.eqb x) l.

Definition enhanced_formats : list string :=
  ["pdf"; "docx"; "pptx"; "xlsx";
   "png"; "jpg"; "jpeg"; "tiff"; "tif"; "bmp"; "webp";
   "html"; "htm"].

Definition scanned_marker : string :=
  "This appears to be a scanned PDF. Enhanced OCR processing is required for text extraction.".

Section WithEnv.

Context (E : Env) (self : FileProcessor).

(** [time.time()] *)
Definition time_time : M Z :=
  fun w => (Ok (clock E (ticks w)),
            {| cache := cache w; ticks := S (ticks w); calls := calls w;
               trace := trace w |}).

(** [InMemoryCache.get] on the shared instance: the clock is read only
    when the entry exists and carries a truthy [expire_at]. *)
Definition cache_get (key : string) : M pyval :=
  let* c := get_cache in
  match c !! key with
  | None => ret PNone
  | Some (value, created_at, None) => ret value
  | Some (value, created_at, Some expire_at) =>
      if expire_at =? 0 then ret value
      else
        let* t := time_time in
        if t >? expire_at then (put_cache (delete key c) ;; ret PNone)
        else ret value
  end.

(** [InMemoryCache.set] on the shared instance. *)
Definition cache_set (key : string) (value : pyval) (ttl : option Z) : M unit :=
  let* t1 := match ttl with
             | Some d => if d =? 0 then ret 0 else time_time
             | None => ret 0
             end in
  let* t2 := time_time in
  let* c := get_cache in
  put_cache (Cache.set t1 t2 key value ttl c).

(** [_check_system_resources] applied to a psutil reading. *)
Definition check_system_resources (p : probe) : bool :=
  match available_bytes p with
  | None => true
  | Some avail =>
      if avail <? max_memory_mb self * (1024 * 1024) then false
      else match cpu_tenths p with
           | None => true
           | Some cpu => if cpu >? 900 then false else true
           end
  end.

(** [_estimate_tokens] *)
Definition estimate_tokens (text : string) : Z := slen text / 4.

(** [_should_use_enhanced_processing] *)
Definition should_use_enhanced_processing (file : UploadFile)
    (force_ocr : bool) : bool :=
  if negb (enhanced_processing_enabled self) then false
  else if force_ocr then true
  else str_in (file_ext file) enhanced_formats.

Definition nl : string := String "010"%char EmptyString.

Definition failure (msg : string) (elapsed : Z) (enhanced : bool)
    : ProcessingResult :=
  {| success := false; content := None; metadata := None;
     error_message := Some msg; processing_time := elapsed;
     token_estimate := 0; chunk_count := 1;
     enhanced_processing := enhanced |}.

(** The messages of the three [except] clauses of
    [process_file_enhanced]. *)
Definition engine_failure_message (e : exn) : string :=
  match e with
  | TimeoutError msg => "Enhanced processing timed out: " +:+ msg
  | MemoryError => "Memory error during enhanced processing"
  | _ => "Enhanced processing error: " +:+ exn_str e
  end.

Definition ocr_key (file : UploadFile) : string :=
  Cache.PartialResultCache.make_key (fmt (filename file)) "ocr".

(** The [ProcessingResult] built on the success path of
    [process_file_enhanced]. *)
Definition docling_result (file : UploadFile) (force_ocr : bool)
    (ocr_language : option (list string)) (markdown_content : string)
    (document_type : string) (elapsed : Z) : ProcessingResult :=
  let token_estimate := estimate_tokens markdown_content in
  {| success := true;
     content := Some (ODict
       [("markdown_content", MStr markdown_content);
        ("extraction_method", MStr "docling_ocr");
        ("document_type", MStr document_type);
        ("content_length", MInt (slen markdown_content))]);
     metadata := Some
       [("file_name", mfilename (filename file));
        ("file_size", MInt (zlen (data file)));
        ("format", MStr "enhanced_docling");
        ("token_estimate", MInt token_estimate);
        ("processing_method", MStr "docling_ocr");
        ("document_type", MStr document_type);
        ("ocr_enabled", MBool true);
        ("ocr_language", MStrs (lang_or ocr_language ["en"]));
        ("force_ocr", MBool force_ocr);
        ("extracted_chars", MInt (slen markdown_content))];
     error_message := None;
     processing_time := elapsed;
     token_estimate := token_estimate;
     chunk_count := 1;
     enhanced_processing := true |}.

(** [process_file_enhanced] *)
Definition process_file_enhanced (file : UploadFile) (force_ocr : bool)
    (ocr_language : option (list string)) : M pyval :=
  let* n := next_call in
  emit (EvEnhanced force_ocr ocr_language) ;;
  let* start_time := time_time in
  let* cached_ocr := cache_get (ocr_key file) in
  if truthy cached_ocr then ret cached_ocr
  else if negb (enhanced_processing_enabled self) then
    let* t := time_time in
    ret (PResult (failure "Docling OCR is not available in this environment."
                          (t - start_time) false))
  else
    let sufficient := check_system_resources (probe_at E n) in
    emit (EvResources sufficient) ;;
    if negb sufficient then
      let* t := time_time in
      ret (PResult (failure
        "Insufficient system resources for enhanced processing"
        (t - start_time) true))
    else
      match filename file with
      | None => raise (AttributeError
                         "'NoneType' object has no attribute 'split'")
      | Some _ =>
          let lang := if lang_truthy ocr_language then ocr_language
                      else None in
          emit (EvConvert force_ocr lang) ;;
          match convert E n force_ocr lang (data file) with
          | Converted markdown_content document_type =>
              let* t := time_time in
              let result := docling_result file force_ocr ocr_language
                              markdown_content document_type
                              (t - start_time) in
              cache_set (ocr_key file) (PResult result) (Some 3600) ;;
              ret (PResult result)
          | EngineRaises e =>
              let* t := time_time in
              ret (PResult (failure (engine_failure_message e)
                                    (t - start_time) true))
          end
      end.

(** The dicts returned by [process_file]; [docling_error] is [None] when
    the key is absent. *)
Record FileDict := {
  d_success : bool;
  d_content : option pyobj;
  d_metadata : option pydict;
  d_processing_time : Z;
  d_enhanced_processing : bool;
  d_docling_error : option (option string)
}.

(** The text [_fallback_pdf_processing] reports for the page texts that
    PyPDF2 extracted. *)
Definition pdf_text_content (texts : list string) : string :=
  let extracted :=
    fold_left (fun acc page => acc +:+ page +:+ nl) texts "" in
  if Py.is_empty (Py.strip extracted) then scanned_marker else extracted.

(** The dict [_fallback_pdf_processing] returns. *)
Definition pdf_fallback_dict (file : UploadFile) (content : bytes)
    (texts : list string) (elapsed : Z) : FileDict :=
  let text_content := pdf_text_content texts in
  {| d_success := true;
     d_content := Some (ODict
       [("text_content", MStr text_content);
        ("extraction_method", MStr "pypdf2_fallback");
        ("note", MStr "Extracted using basic PDF processing. For scanned documents, OCR processing is recommended.")]);
     d_metadata := Some
       [("file_name", mfilename (filename file));
        ("file_size", MInt (zlen content));
        ("format", MStr "pdf");
        ("processing_method", MStr "pypdf2_fallback");
        ("pages", MInt (zlen texts));
        ("extracted_chars", MInt (slen text_content))];
     d_processing_time := elapsed;
     d_enhanced_processing := false;
     d_docling_error := None |}.

(** [_fallback_pdf_processing] *)
Definition fallback_pdf_processing (file : UploadFile) (content : bytes)
    (start_time : Z) : M FileDict :=
  emit EvPdfFallback ;;
  match pypdf2 E content with
  | PdfRaises e => raise e
  | PdfPages texts =>
      let* t := time_time in
      ret (pdf_fallback_dict file content texts (t - start_time))
  end.

(** Reading [.success] of what [process_file_enhanced] returned. *)
Definition as_result (v : pyval) : M ProcessingResult :=
  match v with
  | PResult r => ret r
  | PStr _ => raise (AttributeError "'str' object has no attribute 'success'")
  | PNone =>
      raise (AttributeError "'NoneType' object has no attribute 'success'")
  end.

Definition enhanced_dict (r : ProcessingResult) : FileDict :=
  {| d_success := true;
     d_content := content r;
     d_metadata := metadata r;
     d_processing_time := processing_time r;
     d_enhanced_processing := true;
     d_docling_error := None |}.

(** [fallback_result.get('content', {}).get('text_content', '')] *)
Definition fallback_text_of (d : FileDict) : string :=
  match d_content d with
  | Some (ODict c) =>
      match dict_get "text_content" c with
      | Some (MStr s) => s
      | _ => ""
      end
  | _ => ""
  end.

(** [fallback_result['docling_error'] = msg] *)
Definition with_docling_error (d : FileDict) (msg : option string)
    : FileDict :=
  {| d_success := d_success d;
     d_content := d_content d;
     d_metadata := d_metadata d;
     d_processing_time := d_processing_time d;
     d_enhanced_processing := d_enhanced_processing d;
     d_docling_error := Some msg |}.

(** The body of the [try] that follows two failed enhanced attempts on a
    PDF (PyPDF2, then the second chance). *)
Definition pdf_fallback_phase (file : UploadFile) (content : bytes)
    (start_time : Z) : M (option FileDict) :=
  let* fallback_result := fallback_pdf_processing file content start_time in
  let fallback_text := fallback_text_of fallback_result in
  if Py.startswith (Py.strip fallback_text) "This appears to be a scanned PDF"
     && enhanced_processing_enabled self
  then
    let* v := process_file_enhanced file true (Some ["eng"]) in
    let* enhanced_result2 := as_result v in
    if success enhanced_result2 then ret (Some (enhanced_dict enhanced_result2))
    else ret (Some (with_docling_error fallback_result
                      (error_message enhanced_result2)))
  else ret (Some fallback_result).

(** The [if should_enhanced:] block. [Some d] is an early [return d];
    [None] falls through to the basic handlers. *)
Definition enhanced_phase (file : UploadFile) (ext : string)
    (force_ocr : bool) (ocr_language : option (list string))
    (content : bytes) (start_time : Z) : M (option FileDict) :=
  let* v := process_file_enhanced file force_ocr ocr_language in
  let* first := as_result v in
  let* enhanced_result :=
    if negb (success first) then
      let* v' := process_file_enhanced file true
                   (Some (lang_or ocr_language ["en"])) in
      as_result v'
    else ret first in
  if success enhanced_result then ret (Some (enhanced_dict enhanced_result))
  else if String.eqb ext "pdf" then
    try_except (pdf_fallback_phase file content start_time)
               (fun _ => ret None)
  else ret None.

Definition basic_dict (c : pyobj) (m : pydict) (elapsed : Z) : FileDict :=
  {| d_success := true; d_content := Some c; d_metadata := Some m;
     d_processing_time := elapsed; d_enhanced_processing := false;
     d_docling_error := None |}.

Definition table_dict (file : UploadFile) (content : bytes) (fmt_name : string)
    (df : DataFrame) (elapsed : Z) : FileDict :=
  basic_dict (ORecords (df_columns df) (df_rows df))
    [("file_name", mfilename (filename file));
     ("file_size", MInt (zlen content));
     ("format", MStr fmt_name);
     ("processing_method", MStr "basic");
     ("rows", MInt (zlen (df_rows df)));
     ("columns", MStrs (df_columns df))]
    elapsed.

(** The image branch of the basic handlers. *)
Definition basic_image (file : UploadFile) (ext : string) (content : bytes)
    (start_time : Z) : M FileDict :=
  try_except
    (let* early :=
       if enhanced_processing_enabled self then
         let* v := process_file_enhanced file true None in
         let* enhanced_result := as_result v in
         if success enhanced_result then ret (Some (enhanced_dict enhanced_result))
         else ret None
       else ret None in
     match early with
     | Some d => ret d
     | None =>
         emit (EvBasic "image") ;;
         let image_base64 := b64encode E content in
         let* t := time_time in
         ret (basic_dict
           (ODict [("image_data", MStr image_base64);
                   ("image_type", MStr ext);
                   ("file_size", MInt (zlen content));
                   ("note", MStr "Image file uploaded. OCR processing unavailable or failed.")])
           [("file_name", mfilename (filename file));
            ("file_size", MInt (zlen content));
            ("format", MStr "image");
            ("image_type", MStr ext);
            ("processing_method", MStr "basic");
            ("ocr_available", MBool false)]
           (t - start_time))
     end)
    (fun e => raise (ValueError ("Invalid image file: " +:+ exn_str e))).

(** The basic handlers ("original logic") of [process_file]. *)
Definition basic_processing (file : UploadFile) (ext : string)
    (content : bytes) (start_time : Z) : M FileDict :=
  if String.eqb ext "json" then
    emit (EvBasic "json") ;;
    match json_loads E content with
    | JsonValue j =>
        let* t := time_time in
        ret (basic_dict (OJson j)
               [("file_name", mfilename (filename file));
                ("file_size", MInt (zlen content));
                ("format", MStr "json");
                ("processing_method", MStr "basic")]
               (t - start_time))
    | JsonNull =>
        let* t := time_time in
        ret {| d_success := true; d_content := None;
               d_metadata := Some
                 [("file_name", mfilename (filename file));
                  ("file_size", MInt (zlen content));
                  ("format", MStr "json");
                  ("processing_method", MStr "basic")];
               d_processing_time := t - start_time;
               d_enhanced_processing := false;
               d_docling_error := None |}
    | JsonDecodeError _ => raise (ValueError "Invalid JSON file")
    | JsonRaises e => raise e
    end
  else if String.eqb ext "csv" then
    emit (EvBasic "csv") ;;
    match read_csv E content with
    | Some df =>
        let* t := time_time in
        ret (table_dict file content "csv" df (t - start_time))
    | None => raise (ValueError "Invalid CSV file")
    end
  else if str_in ext ["jpg"; "jpeg"; "png"; "gif"; "bmp"; "tiff"; "webp"] then
    basic_image file ext content start_time
  else if str_in ext ["xlsx"; "xls"] then
    emit (EvBasic "excel") ;;
    match read_excel E content with
    | Some df =>
        let* t := time_time in
        ret (table_dict file content "excel" df (t - start_time))
    | None => raise (ValueError "Invalid Excel file")
    end
  else if str_in ext ["txt"; "md"; "rtf"; "html"; "xml"; "yaml"; "yml"] then
    emit (EvBasic "text") ;;
    match decode_utf8 E content with
    | inl text_content =>
        let lines := zlen (Py.split "010"%char text_content) in
        let* t := time_time in
        ret (basic_dict
          (ODict [("text_content", MStr text_content);
                  ("file_type", MStr ext);
                  ("file_size", MInt (zlen content));
                  ("character_count", MInt (slen text_content));
                  ("line_count", MInt lines)])
          [("file_name", mfilename (filename file));
           ("file_size", MInt (zlen content));
           ("format", MStr "text");
           ("processing_method", MStr "basic");
           ("character_count", MInt (slen text_content));
           ("line_count", MInt lines)]
          (t - start_time))
    | inr msg => raise (ValueError ("Invalid text file: " +:+ msg))
    end
  else if str_in ext ["pdf"; "docx"; "doc"; "odt"] then
    emit (EvBasic "document") ;;
    let doc_base64 := b64encode E content in
    let* t := time_time in
    ret (basic_dict
      (ODict [("document_data", MStr doc_base64);
              ("document_type", MStr ext);
              ("file_size", MInt (zlen content));
              ("note", MStr (Py.upper ext +:+ " document uploaded. Enhanced processing (Docling) is recommended for better text extraction."))])
      [("file_name", mfilename (filename file));
       ("file_size", MInt (zlen content));
       ("format", MStr "document");
       ("document_type", MStr ext);
       ("processing_method", MStr "basic");
       ("enhanced_processing_recommended", MBool true)]
      (t - start_time))
  else raise (ValueError ("Unsupported file type: " +:+ ext)).

(** [force_ocr] after [if file_ext == 'pdf': force_ocr = True]. *)
Definition routed_force_ocr (file : UploadFile) (force_ocr : bool) : bool :=
  if String.eqb (file_ext file) "pdf" then true else force_ocr.

(** Leaving the [if should_enhanced:] block: an early [return], or the
    basic handlers. *)
Definition return_or_basic (file : UploadFile) (ext : string)
    (content : bytes) (start_time : Z) (early : option FileDict)
    : M FileDict :=
  match early with
  | Some d => ret d
  | None => emit EvBasicPath ;; basic_processing file ext content start_time
  end.

(** [process_file] *)
Definition process_file (file : UploadFile) (force_ocr : bool)
    (ocr_language : option (list string)) : M FileDict :=
  let* start_time := time_time in
  let content := data file in
  let ext := file_ext file in
  let force_ocr := routed_force_ocr file force_ocr in
  let should_enhanced := should_use_enhanced_processing file force_ocr in
  emit (EvRoute force_ocr should_enhanced) ;;
  let* early :=
    if should_enhanced then
      enhanced_phase file ext force_ocr ocr_language content start_time
    else ret None in
  return_or_basic file ext content start_time early.

(** The [n]-th enhanced attempt on [file] cannot succeed: resources are
    insufficient, or the engine raises whatever its settings. *)
Definition engine_fails (n : nat) (file : UploadFile) : Prop :=
  check_system_resources (probe_at E n) = false \/
  forall f lang, exists e, convert E n f lang (data file) = EngineRaises e.

End WithEnv.

(** *** Reading a trace *)

(** Events raised inside [process_file_enhanced] after its entry. *)
Definition internal (ev : event) : bool :=
  match ev with
  | EvResources _ | EvConvert _ _ => true
  | _ => false
  end.

(** The orchestrator leaves the enhanced attempts for a fallback: the
    PyPDF2 fallback or the basic handlers. *)
Definition is_switch (ev : event) : bool :=
  match ev with
  | EvPdfFallback | EvBasicPath => true
  | _ => false
  end.

Fixpoint before_switch (tr : list event) : list event :=
  match tr with
  | [] => []
  | ev :: tr' => if is_switch ev then [] else ev :: before_switch tr'
  end.

Fixpoint after_switch (tr : list event) : list event :=
  match tr with
  | [] => []
  | ev :: tr' => if is_switch ev then tr' else after_switch tr'
  end.

(** The arguments of the calls to [process_file_enhanced], in order. *)
Fixpoint enhanced_calls (tr : list event)
    : list (bool * option (list string)) :=
  match tr with
  | [] => []
  | EvEnhanced f l :: tr' => (f, l) :: enhanced_calls tr'
  | _ :: tr' => enhanced_calls tr'
  end.

(** An extraction engine ran: Docling, PyPDF2 or a basic parser. *)
Definition is_engine (ev : event) : bool :=
  match ev with
  | EvEnhanced _ _ | EvConvert _ _ | EvPdfFallback | EvBasic _ => true
  | _ => false
  end.

Definition is_convert (ev : event) : bool :=
  match ev with
  | EvConvert _ _ => true
  | _ => false
  end.

Definition no_convert (ev : event) : bool := negb (is_convert ev).

(** The events of the orchestrator outside [process_file_enhanced]. *)
Definition fallback_events (P : event -> bool) : Prop :=
  P EvPdfFallback = true /\ P EvBasicPath = true /\
  forall parser, P (EvBasic parser) = true.

(** The [force_ocr] an event was raised with, [true] where it has none. *)
Definition forced (ev : event) : bool :=
  match ev with
  | EvRoute f _ | EvEnhanced f _ | EvConvert f _ => f
  | _ => true
  end.

(** [m] only appends events, all of which satisfy [P]. *)
Definition appends (P : event -> bool) {A} (m : M A) : Prop :=
  forall w, exists tr,
    trace (snd (m w)) = trace w ++ tr /\ forallb P tr = true.

(** [m] appends at least one event, the first of which is [ev]. *)
Definition starts_with (ev : event) {A} (m : M A) : Prop :=
  forall w, exists tr, trace (snd (m w)) = trace w ++ ev :: tr.

(** The extensions some branch of [process_file] handles. *)
Definition basic_formats : list string :=
  ["json"; "csv";
   "jpg"; "jpeg"; "png"; "gif"; "bmp"; "tiff"; "webp";
   "xlsx"; "xls";
   "txt"; "md"; "rtf"; "html"; "xml"; "yaml"; "yml";
   "pdf"; "docx"; "doc"; "odt"].

Definition supported (ext : string) : bool :=
  str_in ext enhanced_formats || str_in ext basic_formats.

(** Whatever sits under a [partial:...:ocr] key is a successful
    [ProcessingResult]. *)
Definition partial_ok (c : Cache.store) : Prop :=
  forall file_id v t e,
    c !! Cache.PartialResultCache.make_key file_id "ocr" = Some (v, t, e) ->
    exists r, v = PResult r /\ success r = true.

(** A process that has just started: empty cache, no call made yet. *)
Definition initial_world : World :=
  {| cache := ∅; ticks := 0; calls := 0; trace := [] |}.

(** Every value that [m] returns satisfies [Q] (nothing is said of the
    runs that raise). *)
Definition returns {A} (Q : A -> Prop) (m : M A) : Prop :=
  forall w a, fst (m w) = Ok a -> Q a.

(** [m] keeps the invariant [I] of the world, whether it returns or
    raises. *)
Definition keeps (I : World -> Prop) {A} (m : M A) : Prop :=
  forall w, I w -> I (snd (m w)).

(** Whenever [m] returns, the value and the world it leaves satisfy
    [Q]. *)
Definition ensures {A} (Q : A -> World -> Prop) (m : M A) : Prop :=
  forall w a w', m w = (Ok a, w') -> Q a w'.

(** A basic parser was selected. *)
Definition is_basic (ev : event) : bool :=
  match ev with
  | EvBasic _ => true
  | _ => false
  end.

(** The extensions of the image branch of [process_file]. *)
Definition image_formats : list string :=
  ["jpg"; "jpeg"; "png"; "gif"; "bmp"; "tiff"; "webp"].

(** The dict reports a success. *)
Definition succeeded (d : FileDict) : Prop := d_success d = true.

(** An early [return] of the enhanced block, if any, reports a success. *)
Definition early_succeeded (o : option FileDict) : Prop :=
  forall d, o = Some d -> d_success d = true.

(** The dict does not come from the enhanced engine. *)
Definition plain (d : FileDict) : Prop := d_enhanced_processing d = false.

(** The invariant of the partial-result cache, on a world. *)
Definition cache_ok (w : World) : Prop := partial_ok (cache w).

(** The cache and the count of enhanced calls are [c] and [n]. *)
Definition frame (c : Cache.store) (n : nat) (w : World) : Prop :=
  cache w = c /\ calls w = n.

End Processor.

(* ===================================================================== *)
(** ** hashlib.sha256 (FIPS 180-4), on 32-bit words held in [Z] *)
(* ===================================================================== *)

Module Sha256.

Definition w32 (x : Z) : Z := x mod 2 ^ 32.

Definition add32 (x y : Z) : Z := w32 (x + y).

Definition rotr (n x : Z) : Z :=
  Z.lor (Z.shiftr x n) (w32 (Z.shiftl x (32 - n))).

Definition Ch (x y z : Z) : Z :=
  Z.lxor (Z.land x y) (Z.land (w32 (Z.lnot x)) z).

Definition Maj (x y z : Z) : Z :=
  Z.lxor (Z.lxor (Z.land x y) (Z.land x z)) (Z.land y z).

Definition Sigma0 (x : Z) : Z :=
  Z.lxor (Z.lxor (rotr 2 x) (rotr 13 x)) (rotr 22 x).

Definition Sigma1 (x : Z) : Z :=
  Z.lxor (Z.lxor (rotr 6 x) (rotr 11 x)) (rotr 25 x).

Definition sigma0 (x : Z) : Z :=
  Z.lxor (Z.lxor (rotr 7 x) (rotr 18 x)) (Z.shiftr x 3).

Definition sigma1 (x : Z) : Z :=
  Z.lxor (Z.lxor (rotr 17 x) (rotr 19 x)) (Z.shiftr x 10).

(** FIPS 180-4 defines its constants from the primes: the round
    constants are the first 32 bits of the fractional parts of the cube
    roots of the first 64 primes, the initial hash value those of the
    square roots of the first 8. *)
Definition is_prime (n : nat) : bool :=
  forallb (fun d => negb (Nat.eqb (Nat.modulo n d) 0)) (List.seq 2 (n - 2)).

Definition primes : list Z :=
  List.map Z.of_nat (List.filter is_prime (List.seq 2 310)).

(** The integer cube root of [x], bit by bit from bit [n - 1] down. *)
Fixpoint cube_root_from (n : nat) (x acc : Z) : Z :=
  match n with
  | O => acc
  | S n' =>
      let candidate := acc + 2 ^ Z.of_nat n' in
      if candidate * candidate * candidate <=? x
      then cube_root_from n' x candidate
      else cube_root_from n' x acc
  end.

Definition K : list Z :=
  List.map (fun p => w32 (cube_root_from 40 (p * 2 ^ 96) 0)) primes.

Definition initial_words : list Z :=
  List.map (fun p => w32 (Z.sqrt (p * 2 ^ 64))) (List.firstn 8 primes).

(** Big-endian bytes of [x], [n] of them. *)
Fixpoint be_bytes (n : nat) (x : Z) : list Z :=
  match n with
  | O => []
  | S n' => (x / 256 ^ Z.of_nat n') mod 256 :: be_bytes n' x
  end.

(** Message padding: 0x80, zeros up to 56 mod 64, the bit length on 64
    bits. *)
Definition pad (msg : list Z) : list Z :=
  let l := Z.of_nat (List.length msg) in
  let zeros := Z.to_nat ((55 - l) mod 64) in
  msg ++ [0x80] ++ List.repeat 0 zeros ++ be_bytes 8 (8 * l).

Fixpoint words (fuel : nat) (bs : list Z) : list Z :=
  match fuel, bs with
  | S fuel', b0 :: b1 :: b2 :: b3 :: rest =>
      (((b0 * 256 + b1) * 256 + b2) * 256 + b3) :: words fuel' rest
  | _, _ => []
  end.

Definition nthz (i : nat) (l : list Z) : Z := List.nth i l 0.

(** The message schedule, newest word first: [recent] holds
    W[t-1], W[t-2], ... *)
Fixpoint schedule (n : nat) (recent : list Z) : list Z :=
  match n with
  | O => recent
  | S n' =>
      let w := add32 (add32 (sigma1 (nthz 1 recent)) (nthz 6 recent))
                     (add32 (sigma0 (nthz 14 recent)) (nthz 15 recent)) in
      schedule n' (w :: recent)
  end.

Definition state : Type := Z * Z * Z * Z * Z * Z * Z * Z.

Definition round (s : state) (kw : Z * Z) : state :=
  let '(a, b, c, d, e, f, g, h) := s in
  let t1 := add32 (add32 (add32 h (Sigma1 e)) (add32 (Ch e f g) (fst kw)))
                  (snd kw) in
  let t2 := add32 (Sigma0 a) (Maj a b c) in
  (add32 t1 t2, a, b, c, add32 d t1, e, f, g).

Definition compress (hs : state) (block : list Z) : state :=
  let w := List.rev (schedule 48 (List.rev block)) in
  let '(a, b, c, d, e, f, g, h) :=
    List.fold_left round (List.combine K w) hs in
  let '(a0, b0, c0, d0, e0, f0, g0, h0) := hs in
  (add32 a0 a, add32 b0 b, add32 c0 c, add32 d0 d,
   add32 e0 e, add32 f0 f, add32 g0 g, add32 h0 h).

Fixpoint blocks (fuel : nat) (ws : list Z) (hs : state) : state :=
  match fuel, ws with
  | S fuel', _ :: _ =>
      blocks fuel' (List.skipn 16 ws) (compress hs (List.firstn 16 ws))
  | _, _ => hs
  end.

Definition initial : state :=
  let h := fun i => nthz i initial_words in
  (h 0%nat, h 1%nat, h 2%nat, h 3%nat, h 4%nat, h 5%nat, h 6%nat, h 7%nat).

(** The eight words of the digest. *)
Definition digest (msg : list Z) : list Z :=
  let bs := pad msg in
  let ws := words (List.length bs) bs in
  let '(a, b, c, d, e, f, g, h) := blocks (List.length ws) ws initial in
  [a; b; c; d; e; f; g; h].

Definition hex_digit (n : Z) : ascii :=
  if n <? 10 then ascii_of_N (Z.to_N (48 + n))
  else ascii_of_N (Z.to_N (87 + n)).

Fixpoint hex_word (n : nat) (x : Z) : string :=
  match n with
  | O => EmptyString
  | S n' => String (hex_digit ((x / 16 ^ Z.of_nat n') mod 16)) (hex_word n' x)
  end.

(** [hashlib.sha256(msg).hexdigest()] *)
Definition hexdigest (msg : list Z) : string :=
  List.fold_right (fun w acc => hex_word 8 w +:+ acc) EmptyString (digest msg).

(** [s.encode("utf-8")] for code points below 256. *)
Fixpoint utf8 (s : string) : list Z :=
  match s with
  | EmptyString => []
  | String c s' =>
      let n := Z.of_N (N_of_ascii c) in
      if n <? 128 then n :: utf8 s'
      else (192 + n / 64) :: (128 + n mod 64) :: utf8 s'
  end.

End Sha256.


(* ===================================================================== *)
(** ** openai_service.py and routers/chats.py *)
(* ===================================================================== *)

Module Chat.

Import Processor.
Local Open Scope py_scope.

(** What [client.chat.completions.create] does: a response whose first
    choice carries [content] (possibly [None]), a response without a
    usable choice, or an exception. *)
Inductive llm_outcome :=
| LlmContent (content : option string)
| LlmNoChoice
| LlmRaises (msg : string).

(** [{"role": r, "content": c}] *)
Definition chat_msg : Type := string * string.

(** What the router learns from its collaborators: the completion
    client, the latest file attached to a chat ([filename] and the text
    to use), and the reasoning layer ([chat_with_context], the Tavily agent
    and the no-information check taken together). *)
Record ChatEnv := {
  llm_create : list chat_msg -> Z -> llm_outcome;
  latest_file_data : string -> option (string * string);
  reasoning : string -> option string -> result (option string)
}.

(** [_generate_fallback_response] *)
Definition generate_fallback_response (messages : list chat_msg) : string :=
  let user_message :=
    match List.find (fun m => String.eqb (fst m) "user") (List.rev messages) with
    | Some m => snd m
    | None => ""
    end in
  if Py.is_empty user_message then
    "I apologize, but I'm currently experiencing technical difficulties with my AI service. Please try again later."
  else if existsb (fun keyword => Py.contains keyword (Py.lower user_message))
            ["author"; "content"; "document"; "file"; "article"] then
    "I can see that you've uploaded a document and are asking about its content. However, I'm currently experiencing technical difficulties with my AI analysis service. The file has been successfully uploaded and processed, but I cannot provide detailed analysis at the moment. Please try again later or contact support if this issue persists."
  else
    "I apologize, but I'm currently experiencing technical difficulties with my AI service. Your question has been received, but I cannot provide a detailed response at the moment. Please try again later.".

Section WithEnv.

Context (E : Env) (C : ChatEnv).

(** [OpenAIService.chat_completion]: every exception of the client is
    caught inside, so the call itself never raises. *)
Definition chat_completion (messages : list chat_msg) (max_tokens : Z)
    : result (option string) :=
  match llm_create C messages max_tokens with
  | LlmContent content => Ok content
  | LlmNoChoice =>
      Ok (Some "I apologize, but I'm having trouble generating a response right now.")
  | LlmRaises msg =>
      if Py.contains "insufficient_quota" msg || Py.contains "429" msg
      then Ok (Some (generate_fallback_response messages))
      else Ok (Some ("I apologize, but I'm experiencing technical difficulties: " +:+ msg))
  end.

(** [OpenAIService.summarize_text] *)
Definition summarize_text (text : string) (max_tokens : Z) : option string :=
  let prompt :=
    "Summarize the following document content in a concise, factual way, preserving key details, data, and structure. Focus on the most important points, and keep the summary under 400 words."
    +:+ nl +:+ nl +:+ "CONTENT:" +:+ nl +:+ text in
  let messages :=
    [("system", "You are an expert document summarizer."); ("user", prompt)] in
  match chat_completion messages max_tokens with
  | Ok summary => summary
  | Raise e => Some ("[SUMMARY ERROR: " +:+ exn_str e +:+ "]")
  end.

Definition max_context_chars : nat := 2000.

(** The context block of [send_message]: the content handed to the
    reasoning layer and the two flags. *)
Definition reduce_content (file_content_str : string)
    : M (string * bool * bool) :=
  if (max_context_chars <? Py.len file_content_str)%nat then
    emit EvSummarize ;;
    let summary := summarize_text (Py.take 8000 file_content_str) 400 in
    match summary with
    | Some s =>
        if negb (Py.is_empty s) && negb (Py.startswith s "[SUMMARY ERROR")
        then ret (s, true, false)
        else ret (Py.take max_context_chars file_content_str, false, true)
    | None => ret (Py.take max_context_chars file_content_str, false, true)
    end
  else ret (file_content_str, false, false).

Definition summarized_note : string :=
  nl +:+ "[NOTE: File content summarized for token limit.]".

Definition truncated_note : string :=
  nl +:+ "[NOTE: File content truncated for token limit.]".

(** The f-string that frames the file content. *)
Definition context_block (file_name text : string) : string :=
  "Use the content of the file '" +:+ file_name
  +:+ "' to answer the user's question." +:+ nl
  +:+ "--- FILE CONTENT ---" +:+ nl +:+ text +:+ nl
  +:+ "--- END FILE CONTENT ---".

(** [context_data_str] of [send_message]. *)
Definition build_context (file_name file_content_str : string) : M string :=
  let* r := reduce_content file_content_str in
  let '(text, summarized, truncated) := r in
  let context_data_str := context_block file_name text in
  if summarized then ret (context_data_str +:+ summarized_note)
  else if truncated then ret (context_data_str +:+ truncated_note)
  else ret context_data_str.

(** [hashlib.sha256(message.strip().lower().encode("utf-8")).hexdigest()] *)
Definition query_fingerprint (message : string) : string :=
  Sha256.hexdigest (Sha256.utf8 (Py.lower (Py.strip message))).

(** [QueryCache.get] / [QueryCache.set] on the shared instance. *)
Definition query_cache_get (chat_id query_hash : string) : M pyval :=
  cache_get E (Cache.QueryCache.make_key chat_id query_hash).

Definition query_cache_set (chat_id query_hash : string) (value : pyval)
    (ttl : option Z) : M unit :=
  cache_set E (Cache.QueryCache.make_key chat_id query_hash) value ttl.

(** The JSON body returned by [send_message]. *)
Record Reply := {
  message : pyval;
  from_cache : bool
}.

Definition of_opt (o : option string) : pyval :=
  match o with Some s => PStr s | None => PNone end.

(** [send_message], from the cache check on; [chat_id] is [str(chat_id)]. *)
Definition send_message (chat_id : string) (user_message : string) : M Reply :=
  try_except
    (let query_hash := query_fingerprint user_message in
     let* cached_response := query_cache_get chat_id query_hash in
     if truthy cached_response then
       ret {| message := cached_response; from_cache := true |}
     else
       let* context_data_str :=
         match latest_file_data C chat_id with
         | Some (file_name, file_content_str) =>
             let* c := build_context file_name file_content_str in
             ret (Some c)
         | None => ret None
         end in
       emit (EvReasoning user_message) ;;
       match reasoning C user_message context_data_str with
       | Raise e => raise e
       | Ok response_message =>
           query_cache_set chat_id query_hash (of_opt response_message)
                           (Some 600) ;;
           ret {| message := of_opt response_message; from_cache := false |}
       end)
    (fun e => raise (HTTPException 500
                       ("Failed to process message: " +:+ exn_str e))).

End WithEnv.

(** The specification's "identical up to casing and whitespace": the same
    words, compared without regard to case, however they are spaced. *)
Definition spec_same_query (q1 q2 : string) : bool :=
  bool_decide (List.map Py.lower (Py.split_ws q1)
               = List.map Py.lower (Py.split_ws q2)).

(** A client that cannot reach the model, no file attached, a reasoning
    layer with a fixed answer. *)
Definition offline : ChatEnv :=
  {| llm_create := fun _ _ => LlmRaises "Connection error.";
     latest_file_data := fun _ => None;
     reasoning := fun _ _ => Ok (Some "42") |}.

(** A document of 2001 characters. *)
Definition long_document : string := Py.repeat_char "a" 2001.

End Chat.

(* ===================================================================== *)
(** ** The reasoning layer: openai_service.py, tavily_agent_service.py
       and the answer block of routers/chats.py *)
(* ===================================================================== *)

Module Reasoning.

Import Processor Chat.

Definition default_system_message : string :=
  "You are a helpful AI assistant specializing in data analysis and providing insights.".

(** [get_system_message_for_profile] *)
Definition get_system_message_for_profile (profile : string) : string :=
  if String.eqb profile "real_estate" then
    "You are a real estate expert specializing in property data analysis, market trends, and investment insights."
  else if String.eqb profile "legal" then
    "You are a legal expert specializing in legal document analysis, case law research, and legal data interpretation."
  else if String.eqb profile "finance" then
    "You are a finance expert specializing in financial analysis, market data interpretation, and investment research."
  else if String.eqb profile "medical" then
    "You are a medical data expert specializing in healthcare analytics, medical research data, and clinical insights."
  else if String.eqb profile "insurance" then
    "You are an insurance expert specializing in risk analysis, claims data, and insurance market trends."
  else if String.eqb profile "management" then
    "You are a business management expert specializing in performance metrics, operational data analysis, and strategic insights."
  else default_system_message.

Definition no_info_patterns : list string :=
  ["i'm unable to provide";
   "i don't have access to";
   "i cannot provide";
   "i'm unable to access";
   "i don't have information";
   "i cannot access";
   "i'm not able to provide";
   "i don't have real-time";
   "i cannot provide real-time";
   "i'm unable to provide real-time";
   "i don't have current";
   "i cannot provide current";
   "i'm unable to provide current";
   "i don't have live";
   "i cannot provide live";
   "i'm unable to provide live";
   "i don't have access to the internet";
   "i cannot access the internet";
   "i'm unable to access the internet";
   "i don't have web access";
   "i cannot access web";
   "i'm unable to access web";
   "i don't have internet access";
   "i cannot access internet";
   "i'm unable to access internet"].

(** The prompt of the second, LLM-based check of
    [is_no_info_response_llm]. *)
Definition no_info_prompt (response : string) : string :=
  "Does the following response indicate that you do not have enough information to answer the user's question? "
  +:+ "Look for phrases like 'unable to provide', 'don't have access', 'cannot provide', etc. "
  +:+ "Respond with 'yes' or 'no'." +:+ nl +:+ nl
  +:+ "Response:" +:+ nl +:+ response.

Definition tavily_failed_message : string :=
  "I was unable to search the web for additional information. Please try rephrasing your question or ask about a different topic.".

Definition no_web_access_message : string :=
  "I don't have access to current web information to answer your question. Please try asking about the uploaded document content instead.".

(** [tavily_agent]: whether it is available, and what [answer] does
    (user message, profile, file context). *)
Record TavilyAgent := {
  is_available : bool;
  answer : string -> option string -> option string -> result string
}.

(** [xs[-n:]] *)
Definition last_n {A} (n : nat) (xs : list A) : list A :=
  List.skipn (List.length xs - n) xs.

Definition tavily_keywords : list string :=
  ["current stock";
   "stock price";
   "stock performance";
   "current price";
   "market price";
   "ticker";
   "current weather";
   "weather in";
   "current news";
   "latest news";
   "breaking news";
   "current state";
   "current status";
   "live data";
   "real-time";
   "current market";
   "market performance";
   "current events";
   "today's";
   "this week";
   "this month";
   "recent";
   "latest";
   "current";
   "now";
   "today";
   "yesterday";
   "tomorrow"].

Definition common_tickers : list string :=
  ["GOOG";
   "AAPL";
   "MSFT";
   "AMZN";
   "TSLA";
   "META";
   "NVDA";
   "NFLX";
   "GOOGL";
   "BRK.A";
   "BRK.B"].

(** [\w] of [re] on a code point below 256: letters, digits and the
    underscore. *)
Definition is_word (c : ascii) : bool :=
  let n := N_of_ascii c in
  (((48 <=? n) && (n <=? 57)) || ((65 <=? n) && (n <=? 90)) || (n =? 95)
   || ((97 <=? n) && (n <=? 122)) || (n =? 170)
   || ((178 <=? n) && (n <=? 179)) || (n =? 181)
   || ((185 <=? n) && (n <=? 186)) || ((188 <=? n) && (n <=? 190))
   || ((192 <=? n) && (n <=? 214)) || ((216 <=? n) && (n <=? 246))
   || ((248 <=? n) && (n <=? 255)))%N.

(** What the ticker pattern tells apart in a character of
    [user_question.upper()]: a letter of [A-Z], another word character,
    or a character that ends a word. *)
Inductive uclass :=
| Capital (c : ascii)
| WordChar
| NonWord.

(** The characters that [str.upper] makes of one character, classified.
    A letter a-z becomes its capital, the sharp s becomes SS; the capitals
    of the other letters (accented capitals, the Greek capital mu, the
    capital y with diaeresis) are word characters outside [A-Z]. *)
Definition upper_classes (c : ascii) : list uclass :=
  let n := N_of_ascii c in
  if ((97 <=? n) && (n <=? 122))%N then [Capital (ascii_of_N (n - 32))]
  else if ((65 <=? n) && (n <=? 90))%N then [Capital c]
  else if (n =? 223)%N then [Capital "S"; Capital "S"]
  else if is_word c then [WordChar]
  else [NonWord].

(** The word that ends here, if it matches [[A-Z]{2,5}]. The state of the
    scan is [None] between words, [Some None] inside a word that holds a
    character outside [A-Z], and [Some (Some s)] inside a word made of the
    capitals [s] so far. *)
Definition close_word (cur : option (option string)) : list string :=
  match cur with
  | Some (Some s) =>
      if ((2 <=? Py.len s) && (Py.len s <=? 5))%nat then [s] else []
  | _ => []
  end.

(** [re.findall(r'\b[A-Z]{2,5}\b', ...)]: the maximal runs of word
    characters that are two to five capitals, from left to right. *)
Fixpoint scan_words (l : list uclass) (cur : option (option string))
    : list string :=
  match l with
  | [] => close_word cur
  | NonWord :: l' => close_word cur ++ scan_words l' None
  | WordChar :: l' => scan_words l' (Some None)
  | Capital c :: l' =>
      scan_words l'
        (match cur with
         | None => Some (Some (String c EmptyString))
         | Some (Some s) => Some (Some (s +:+ String c EmptyString))
         | Some None => Some None
         end)
  end.

(** A capital letter of [A-Z]; a string made of such letters. *)
Definition is_capital (c : ascii) : bool :=
  let n := N_of_ascii c in ((65 <=? n) && (n <=? 90))%N.

Fixpoint capitals_only (s : string) : bool :=
  match s with
  | EmptyString => true
  | String c s' => is_capital c && capitals_only s'
  end.

(** What the scan of the ticker pattern keeps true: the capitals it has
    read are capitals, and so are the words it returns. *)
Definition good_class (k : uclass) : bool :=
  match k with
  | Capital c => is_capital c
  | _ => true
  end.

Definition good_state (cur : option (option string)) : bool :=
  match cur with
  | Some (Some s) => capitals_only s
  | _ => true
  end.

Definition good_word (t : string) : bool :=
  capitals_only t && (2 <=? Py.len t)%nat && (Py.len t <=? 5)%nat.

(** The tickers of [common_tickers] that are written without a dot. *)
Definition plain_tickers : list string :=
  ["GOOG"; "AAPL"; "MSFT"; "AMZN"; "TSLA"; "META"; "NVDA"; "NFLX"; "GOOGL"].

(** [tickers] of [should_trigger_tavily_directly] *)
Definition find_tickers (user_question : string) : list string :=
  scan_words (List.flat_map upper_classes (list_ascii_of_string user_question))
             None.

Definition has_ticker (user_question : string) : bool :=
  existsb (fun ticker => str_in ticker common_tickers)
          (find_tickers user_question).

Definition has_tavily_keyword (user_question : string) : bool :=
  existsb (fun keyword => Py.contains keyword (Py.lower user_question))
          tavily_keywords.

(** [OpenAIService.should_trigger_tavily_directly] *)
Definition should_trigger_tavily_directly (user_question : string) : bool :=
  if Py.is_empty user_question then false
  else has_ticker user_question || has_tavily_keyword user_question.

Section WithClient.

Context (C : ChatEnv).

(** [OpenAIService.chat_with_context]. The debug [print] of
    [len(result)] sits inside the [try]: a response whose content is
    [None] ends in the [except] clause. *)
Definition chat_with_context (messages : list chat_msg)
    (context_data profile user_question : option string) : string :=
  let system_content :=
    match profile with
    | Some (String c p) => get_system_message_for_profile (String c p)
    | _ => default_system_message
    end in
  let system_content :=
    match context_data with
    | Some (String c d) =>
        system_content +:+ nl +:+ nl
        +:+ "You have access to the following file data:" +:+ nl
        +:+ Py.take 5000 (String c d)
    | _ => system_content
    end in
  let full_messages :=
    [("system", system_content)] ++ messages ++
    match user_question with
    | Some (String c q) => [("user", String c q)]
    | _ => []
    end in
  let failed (msg : string) : string :=
    if Py.contains "insufficient_quota" msg || Py.contains "429" msg
    then generate_fallback_response messages
    else "I apologize, but I'm experiencing technical difficulties: " +:+ msg in
  match llm_create C full_messages 1500 with
  | LlmContent (Some result) => result
  | LlmContent None => failed "object of type 'NoneType' has no len()"
  | LlmNoChoice =>
      "I apologize, but I'm having trouble generating a response right now."
  | LlmRaises msg => failed msg
  end.

(** [OpenAIService.is_no_info_response_llm] *)
Definition is_no_info_response_llm (response : option string) : result bool :=
  match response with
  | None =>
      Raise (AttributeError "'NoneType' object has no attribute 'lower'")
  | Some r =>
      let response_lower := Py.lower r in
      if existsb (fun pattern => Py.contains pattern response_lower)
                 no_info_patterns
      then Ok true
      else
        match chat_completion C [("user", no_info_prompt r)] 3 with
        | Ok (Some result) =>
            Ok (Py.startswith (Py.lower (Py.strip result)) "y")
        | Ok None => Ok false
        | Raise _ => Ok false
        end
  end.

(** The answer block of [send_message]: from the last five messages of
    the history to [response_message]. [should_use_tavily_directly] is
    the value [should_trigger_tavily_directly] returned for the
    message. *)
Definition reasoning_layer (T : TavilyAgent) (messages_orm : list chat_msg)
    (profile : option string) (should_use_tavily_directly : bool)
    (user_message : string) (context_data_str : option string)
    : result (option string) :=
  let messages := last_n 5 messages_orm in
  let ask_tavily : result (option string) :=
    match answer T user_message profile context_data_str with
    | Ok response => Ok (Some response)
    | Raise _ => Ok (Some tavily_failed_message)
    end in
  let ask_openai : string :=
    chat_with_context messages context_data_str
      (Some (match profile with
             | Some (String c p) => String c p
             | _ => "general"
             end))
      (Some user_message) in
  if should_use_tavily_directly then
    if is_available T then ask_tavily else Ok (Some ask_openai)
  else
    match is_no_info_response_llm (Some ask_openai) with
    | Raise e => Raise e
    | Ok true =>
        if is_available T then ask_tavily
        else Ok (Some no_web_access_message)
    | Ok false => Ok (Some ask_openai)
    end.

(** The answer block for a message, with the routing decision that
    [should_trigger_tavily_directly] takes for it. *)
Definition answer_block (T : TavilyAgent) (messages_orm : list chat_msg)
    (profile : option string) (user_message : string)
    (context_data_str : option string) : result (option string) :=
  reasoning_layer T messages_orm profile
    (should_trigger_tavily_directly user_message)
    user_message context_data_str.

(** The router's collaborators, with the reasoning layer spelled out:
    the answer block, which takes the routing decision from each
    message. *)
Definition with_layer (T : TavilyAgent) (messages_orm : list chat_msg)
    (profile : option string) : ChatEnv :=
  {| llm_create := llm_create C;
     latest_file_data := latest_file_data C;
     reasoning := answer_block T messages_orm profile |}.

End WithClient.

(** The apology of [chat_completion] and [chat_with_context] for a
    failure of the client that is not about quota. *)
Definition difficulties (msg : string) : string :=
  "I apologize, but I'm experiencing technical difficulties: " +:+ msg.

(** A client whose every call is refused for quota. *)
Definition out_of_quota : ChatEnv :=
  {| llm_create := fun _ _ =>
       LlmRaises "Error code: 429 - insufficient_quota";
     latest_file_data := fun _ => None;
     reasoning := fun _ _ => Ok None |}.

(** A client that answers every call with the same text. *)
Definition healthy : ChatEnv :=
  {| llm_create := fun _ _ => LlmContent (Some "The total is 42.");
     latest_file_data := fun _ => None;
     reasoning := fun _ _ => Ok None |}.

Definition web_search : TavilyAgent :=
  {| is_available := true;
     answer := fun _ _ _ => Ok "Based on current web information: 42" |}.

Definition no_web_search : TavilyAgent :=
  {| is_available := false;
     answer := fun _ _ _ => Ok "" |}.

End Reasoning.

(* ===================================================================== *)
(** ** routers/files.py *)
(* ===================================================================== *)

Module Files.

Import Processor.
Local Open Scope py_scope.

Definition SUPPORTED_FILE_TYPES : list string :=
  ["csv"; "json"; "xlsx"; "xls";
   "pdf"; "docx"; "doc"; "txt"; "md"; "rtf"; "odt";
   "jpg"; "jpeg"; "png"; "gif"; "bmp"; "tiff"; "webp";
   "html"; "xml"; "yaml"; "yml"].

(** [max_size = 50 * 1024 * 1024] *)
Definition max_size : Z := 50 * 1024 * 1024.

(** [for key in list(cache.keys()): if pattern in key: cache.invalidate(key)] *)
Definition invalidate_matching (pattern : string) (c : Cache.store)
    : Cache.store :=
  fold_left
    (fun acc key =>
       if Py.contains pattern key then Cache.invalidate key acc else acc)
    (Cache.keys c) c.

(** [f"faq:{target_chat_id}:"] and [f"partial:{file.filename}:"] *)
Definition faq_pattern (target_chat_id : string) : string :=
  "faq:" +:+ target_chat_id +:+ ":".

Definition partial_pattern (name : option string) : string :=
  "partial:" +:+ fmt name +:+ ":".

(** The number of [':'] in [s]. *)
Fixpoint colons (s : string) : nat :=
  match s with
  | EmptyString => O
  | String c s' => (if Ascii.eqb c ":" then 1 else 0) + colons s'
  end.

(** The cache invalidation that closes [upload_file]: the two loops, on
    the one shared cache. *)
Definition invalidate_for_upload (target_chat_id : string)
    (name : option string) (c : Cache.store) : Cache.store :=
  invalidate_matching (partial_pattern name)
    (invalidate_matching (faq_pattern target_chat_id) c).

(** [file.filename.split('.')[-1].lower()] on a name that is a string. *)
Definition upload_ext (name : string) : string :=
  Py.lower (Py.last_item (Py.split "." name)).

(** [if x:] on an optional string. *)
Definition opt_truthy (o : option string) : bool :=
  match o with
  | Some s => negb (Py.is_empty s)
  | None => false
  end.

(** The parsing of the [ocr_language] form field. *)
Definition parse_ocr_language (ocr_language : option string) : list string :=
  match ocr_language with
  | Some s =>
      if negb (Py.is_empty s) && negb (String.eqb (Py.lower s) "string") then
        let ocr_language_list :=
          List.map Py.strip
            (List.filter (fun lang => negb (Py.is_empty (Py.strip lang)))
                         (Py.split "," s)) in
        if match ocr_language_list with [] => true | _ => false end
           || existsb (fun l => String.eqb (Py.lower l) "string")
                      ocr_language_list
        then ["eng"]
        else ocr_language_list
      else ["eng"]
  | None => ["eng"]
  end.

(** [content_for_db] when it is not [None]: the empty list of the
    analysis branch, or what [process_file] extracted. *)
Inductive upload_content :=
| UEmptyList
| UObj (o : pyobj).

(** The [preview] of the response. *)
Inductive preview_val :=
| PvNone
| PvEmptyList
| PvText (s : string)
| PvStrs (l : list string)
| PvOther (repr : string).

(** The collaborators of the route: the chat repository, the import of
    Docling and the construction of its converter in
    [FileProcessor.__init__], and the two steps that depend on the dynamic
    type of a parsed JSON document (the preview, and the logging of the
    length of its [markdown_content]). *)
Record UploadEnv := {
  get_chat_by_id : string -> string -> result (option string);
  create_chat : string -> string -> result (option string);
  add_file_data :
    string -> option string -> string -> upload_content -> string
    -> result unit;
  add_message : string -> string -> string -> result unit;
  docling_available : bool;
  converter_init : option exn;
  dynamic_preview : pyobj -> result preview_val;
  dynamic_markdown_length : string -> result unit
}.

(** The JSON body of a successful upload (the fields that vary). *)
Record Response := {
  r_chat_id : string;
  r_filename : option string;
  r_analysis_type : string;
  r_preview : preview_val;
  r_content : option upload_content;
  r_processing_metadata : option pydict
}.

(** [(content_for_db.get('markdown_content', '') or '')[:500]] *)
Definition markdown_preview (d : pydict) : result preview_val :=
  match dict_get "markdown_content" d with
  | None | Some MNone => Ok (PvText "")
  | Some (MStr s) => Ok (PvText (Py.take 500 s))
  | Some (MInt n) =>
      if n =? 0 then Ok (PvText "")
      else Raise (OtherError "'int' object is not subscriptable")
  | Some (MBool b) =>
      if b then Raise (OtherError "'bool' object is not subscriptable")
      else Ok (PvText "")
  | Some (MStrs l) =>
      match l with
      | [] => Ok (PvText "")
      | _ => Ok (PvStrs (List.firstn 500 l))
      end
  end.

Section WithEnv.

Context (E : Env) (U : UploadEnv).

Definition lift {A} (r : result A) : M A :=
  match r with
  | Ok a => ret a
  | Raise e => raise e
  end.

(** [FileProcessor(max_memory_mb=512)] *)
Definition new_processor : M FileProcessor :=
  let self := {| max_memory_mb := 512; max_processing_time := 300;
                 enhanced_processing_enabled := docling_available U |} in
  if docling_available U then
    match converter_init U with
    | Some e => raise e
    | None => ret self
    end
  else ret self.

(** The preview computed from what [process_file] extracted. *)
Definition preview_of (content_for_db : option pyobj) : M preview_val :=
  match content_for_db with
  | Some (ODict d) =>
      match dict_get "structured_data" d with
      | None => lift (markdown_preview d)
      | Some _ => lift (dynamic_preview U (ODict d))
      end
  | Some (OJson j) => lift (dynamic_preview U (OJson j))
  | Some (ORecords _ _) => ret PvNone
  | None => ret PvNone
  end.

(** [logger.info(f"... {len(content_for_db['markdown_content'])}")],
    for a dict that has the key. *)
Definition log_markdown_length (content : upload_content) : M unit :=
  match content with
  | UObj (ODict d) =>
      match dict_get "markdown_content" d with
      | None | Some (MStr _) | Some (MStrs _) => ret tt
      | Some MNone =>
          raise (OtherError "object of type 'NoneType' has no len()")
      | Some (MInt _) =>
          raise (OtherError "object of type 'int' has no len()")
      | Some (MBool _) =>
          raise (OtherError "object of type 'bool' has no len()")
      end
  | UObj (OJson j) => lift (dynamic_markdown_length U j)
  | UObj (ORecords _ _) => ret tt
  | UEmptyList => ret tt
  end.

(** The body of the [try] of [upload_file], after the checks on the
    file: the chat, the extraction and the bookkeeping. [force_ocr] is
    the form field, taken as a boolean. *)
Definition store_upload (file : UploadFile) (name : string)
    (file_ext : string) (analysis_type : option string) (force_ocr : bool)
    (ocr_language chat_id : option string) (supabase_user_id : string)
    : M Response :=
  let* chat :=
    if opt_truthy chat_id
    then lift (get_chat_by_id U (fmt chat_id) supabase_user_id)
    else ret None in
  let* target_chat_id :=
    match chat with
    | Some id => ret id
    | None =>
        let* created :=
          lift (create_chat U supabase_user_id
                  ("File Analysis: " +:+ name)) in
        match created with
        | Some id => ret id
        | None => raise (HTTPException 500 "Failed to create chat session")
        end
    end in
  let ocr_language_list := parse_ocr_language ocr_language in
  let* r :=
    if opt_truthy analysis_type
       && str_in file_ext ["csv"; "json"; "xlsx"; "xls"]
    then ret (Some UEmptyList, PvEmptyList, Some [])
    else
      let* file_processor := new_processor in
      let* processing_result :=
        process_file E file_processor file force_ocr
                     (Some ocr_language_list) in
      if negb (d_success processing_result)
      then raise (OtherError "Unknown error processing file")
      else
        let* preview := preview_of (d_content processing_result) in
        ret (option_map UObj (d_content processing_result), preview,
             d_metadata processing_result) in
  let '(content_for_db, preview, processing_metadata) := r in
  match content_for_db with
  | Some content =>
      log_markdown_length content ;;
      lift (add_file_data U target_chat_id (Some name) file_ext content
              ("Analyzed with type: " +:+
               (if opt_truthy analysis_type then fmt analysis_type
                else "enhanced extraction"))) ;;
      lift (add_message U target_chat_id "system"
              ("File '" +:+ name +:+
               "' has been uploaded and analyzed. The data is now available for discussion.")) ;;
      let* c := get_cache in
      put_cache (invalidate_for_upload target_chat_id (Some name) c)
  | None => ret tt
  end ;;
  ret {| r_chat_id := target_chat_id;
         r_filename := Some name;
         r_analysis_type :=
           if opt_truthy analysis_type then fmt analysis_type else "general";
         r_preview := preview;
         r_content := content_for_db;
         r_processing_metadata := processing_metadata |}.

(** [upload_file]; [external_id] is [current_user.external_id]. *)
Definition upload_file (file : UploadFile) (analysis_type : option string)
    (force_ocr : bool) (ocr_language chat_id external_id : option string)
    : M Response :=
  try_except
    (if zlen (data file) >? max_size
     then raise (HTTPException 413 "File size exceeds 50MB")
     else
       match filename file with
       | None =>
           raise (AttributeError "'NoneType' object has no attribute 'split'")
       | Some name =>
           let file_ext := upload_ext name in
           if negb (str_in file_ext SUPPORTED_FILE_TYPES)
           then raise (HTTPException 415
                         ("Unsupported file type: ." +:+ file_ext))
           else if negb (opt_truthy external_id)
           then raise (HTTPException 400 "Invalid user session")
           else store_upload file name file_ext analysis_type force_ocr
                             ocr_language chat_id (fmt external_id)
       end)
    (fun e =>
       match e with
       | HTTPException _ _ => raise e
       | _ => raise (HTTPException 500
                       ("An unexpected error occurred: " +:+ exn_str e))
       end).

End WithEnv.

(** After an upload that stored a content, the cache is what the closing
    invalidation left. *)
Definition invalidated (name : string) (r : Response) (w : World) : Prop :=
  r_content r <> None ->
  exists c, cache w = invalidate_for_upload (r_chat_id r) (Some name) c.

(** What a language code handed to the processor looks like. *)
Definition clean_language (x : string) : Prop :=
  x <> "" /\ Py.strip x = x /\ Py.lower x <> "string".

(** A repository in which chat [c-1] exists and every write succeeds;
    Docling installed. *)
Definition repo : UploadEnv :=
  {| get_chat_by_id := fun chat_id _ =>
       Ok (if String.eqb chat_id "c-1" then Some "c-1" else None);
     create_chat := fun _ _ => Ok (Some "c-2");
     add_file_data := fun _ _ _ _ _ => Ok tt;
     add_message := fun _ _ _ => Ok tt;
     docling_available := true;
     converter_init := None;
     dynamic_preview := fun _ => Ok PvNone;
     dynamic_markdown_length := fun _ => Ok tt |}.

End Files.

(* ===================================================================== *)
(** ** models/user.py *)
(* ===================================================================== *)

Module Users.

(** The columns of [User] that its methods read. *)
Record User := {
  role : string;
  status : string;
  subscription_level : string;
  subscription_status : option string;
  subscription_expires_at : option Z;
  usage_count : Z;
  monthly_limit : Z;
  failed_login_attempts : Z
}.

Definition is_admin (self : User) : bool := String.eqb (role self) "admin".

Definition is_active (self : User) : bool := String.eqb (status self) "active".

(** [has_active_subscription]; [now] is [datetime.now(timezone.utc)]. *)
Definition has_active_subscription (now : Z) (self : User) : bool :=
  match subscription_status self with
  | None => false
  | Some s =>
      if Py.is_empty s || negb (String.eqb s "active") then false
      else match subscription_expires_at self with
           | None => false
           | Some expires_at => expires_at >? now
           end
  end.

(** [can_make_request] *)
Definition can_make_request (now : Z) (self : User) : bool :=
  if negb (is_active self) then false
  else if String.eqb (role self) "admin" then true
  else if String.eqb (subscription_level self) "Free"
  then usage_count self <? monthly_limit self
  else if negb (has_active_subscription now self) then false
  else if monthly_limit self <=? 0 then true
  else usage_count self <? monthly_limit self.

(** [increment_usage] *)
Definition increment_usage (self : User) : User :=
  {| role := role self; status := status self;
     subscription_level := subscription_level self;
     subscription_status := subscription_status self;
     subscription_expires_at := subscription_expires_at self;
     usage_count := usage_count self + 1;
     monthly_limit := monthly_limit self;
     failed_login_attempts := failed_login_attempts self |}.

(** [reset_usage] *)
Definition reset_usage (self : User) : User :=
  {| role := role self; status := status self;
     subscription_level := subscription_level self;
     subscription_status := subscription_status self;
     subscription_expires_at := subscription_expires_at self;
     usage_count := 0;
     monthly_limit := monthly_limit self;
     failed_login_attempts := failed_login_attempts self |}.

(** [increment_failed_login] *)
Definition increment_failed_login (self : User) : User :=
  {| role := role self; status := status self;
     subscription_level := subscription_level self;
     subscription_status := subscription_status self;
     subscription_expires_at := subscription_expires_at self;
     usage_count := usage_count self;
     monthly_limit := monthly_limit self;
     failed_login_attempts := failed_login_attempts self + 1 |}.

(** [reset_failed_logins] *)
Definition reset_failed_logins (self : User) : User :=
  {| role := role self; status := status self;
     subscription_level := subscription_level self;
     subscription_status := subscription_status self;
     subscription_expires_at := subscription_expires_at self;
     usage_count := usage_count self;
     monthly_limit := monthly_limit self;
     failed_login_attempts := 0 |}.

(** [is_locked] *)
Definition is_locked (self : User) : bool := failed_login_attempts self >=? 15.

(** A free-tier account with the defaults of the columns. *)
Definition free_user : User :=
  {| role := "user"; status := "active"; subscription_level := "Free";
     subscription_status := Some "inactive";
     subscription_expires_at := None;
     usage_count := 0; monthly_limit := 20; failed_login_attempts := 0 |}.

(** A free-tier account that has used up its month. *)
Definition spent_user : User :=
  {| role := "user"; status := "active"; subscription_level := "Free";
     subscription_status := Some "inactive";
     subscription_expires_at := None;
     usage_count := 20; monthly_limit := 20; failed_login_attempts := 0 |}.

(** A paid account without a request limit, valid until tick 100. *)
Definition pro_user : User :=
  {| role := "user"; status := "active"; subscription_level := "Pro";
     subscription_status := Some "active";
     subscription_expires_at := Some 100;
     usage_count := 0; monthly_limit := 0; failed_login_attempts := 0 |}.

End Users.

(* ===================================================================== *)
(** ** The checks of [send_message] on the caller (routers/chats.py) *)
(* ===================================================================== *)

Module Guard.

Import Processor Chat Users.
Local Open Scope py_scope.

Section WithEnv.

Context (E : Env) (C : ChatEnv).

(** [send_message] with the checks that precede its [try]:
    [external_id] is [current_user.external_id], [local_user] what
    [get_or_create_user_from_supabase] returned, [chat_session] whether
    [get_chat_by_id] found the chat, [now] the date. The user record
    returned is the one committed: [increment_usage] is called on the
    cached and on the computed answer alike. The writes to the chat
    history and [db.commit()] are taken not to raise. *)
Definition guarded_send_message (external_id : option string)
    (local_user : option User) (chat_session : bool) (now : Z)
    (chat_id user_message : string) : M (Reply * User) :=
  if negb (Files.opt_truthy external_id)
  then raise (HTTPException 400 "Invalid user session")
  else
    match local_user with
    | None => raise (HTTPException 400 "Failed to get user record")
    | Some user =>
        if negb chat_session
        then raise (HTTPException 404 "Chat not found")
        else if negb (can_make_request now user)
        then raise (HTTPException 429
               "Usage limit exceeded. Please upgrade your plan to continue.")
        else
          let* reply := send_message E C chat_id user_message in
          ret (reply, increment_usage user)
    end.

End WithEnv.

End Guard.

(* ===================================================================== *)
(** ** Concrete environments *)
(* ===================================================================== *)

Module Examples.

Import Processor.

(** A processor with the defaults of [__init__] and Docling installed. *)
Definition fp : FileProcessor :=
  {| max_memory_mb := 2048; max_processing_time := 300;
     enhanced_processing_enabled := true |}.

Definition idle : probe :=
  {| available_bytes := Some (8 * 1024 * 1024 * 1024);
     cpu_tenths := Some 50 |}.

Definition starved : probe :=
  {| available_bytes := Some (512 * 1024 * 1024); cpu_tenths := Some 50 |}.

(** A host short of memory, an engine that would convert anything, a PDF
    reader that finds one page without text. *)
Definition busy_host : Env :=
  {| os_clock := fun n => 1000 + Z.of_nat n;
     probe_at := fun _ => starved;
     convert := fun _ _ _ _ => Converted "# Title" "pdf";
     pypdf2 := fun _ => PdfPages [""];
     json_loads := fun _ => JsonDecodeError "Expecting value";
     read_csv := fun _ => None;
     read_excel := fun _ => None;
     decode_utf8 := fun _ => inr "invalid start byte";
     b64encode := fun _ => "" |}.

(** An idle host with the same collaborators. *)
Definition idle_host : Env :=
  {| os_clock := fun n => 1000 + Z.of_nat n;
     probe_at := fun _ => idle;
     convert := fun _ _ _ _ => Converted "# Title" "pdf";
     pypdf2 := fun _ => PdfPages [""];
     json_loads := fun _ => JsonDecodeError "Expecting value";
     read_csv := fun _ => None;
     read_excel := fun _ => None;
     decode_utf8 := fun _ => inr "invalid start byte";
     b64encode := fun _ => "" |}.

(** An idle host whose engine raises on every document. *)
Definition broken_engine : Env :=
  {| os_clock := fun n => 1000 + Z.of_nat n;
     probe_at := fun _ => idle;
     convert := fun _ _ _ _ => EngineRaises (OtherError "conversion failed");
     pypdf2 := fun _ => PdfPages [""];
     json_loads := fun _ => JsonDecodeError "Expecting value";
     read_csv := fun _ => None;
     read_excel := fun _ => None;
     decode_utf8 := fun _ => inr "invalid start byte";
     b64encode := fun _ => "" |}.

Definition scan_png : UploadFile := {| filename := Some "scan.png"; data := [] |}.

Definition scan_pdf : UploadFile := {| filename := Some "scan.pdf"; data := [] |}.

Definition file_xyz : UploadFile := {| filename := Some "file.xyz"; data := [] |}.


Definition table_csv : UploadFile := {| filename := Some "table.csv"; data := [] |}.

Definition slides_pptx : UploadFile :=
  {| filename := Some "slides.pptx"; data := [] |}.

(** Another upload under the name of [scan_png], with other bytes. *)
Definition other_png : UploadFile :=
  {| filename := Some "scan.png"; data := [Byte.x78] |}.

(** An idle host whose engine raises on the first call only. *)
Definition flaky_engine : Env :=
  {| os_clock := fun n => 1000 + Z.of_nat n;
     probe_at := fun _ => idle;
     convert := fun n _ _ _ =>
       match n with
       | O => EngineRaises (OtherError "conversion failed")
       | S _ => Converted "# Title" "pdf"
       end;
     pypdf2 := fun _ => PdfPages [""];
     json_loads := fun _ => JsonDecodeError "Expecting value";
     read_csv := fun _ => None;
     read_excel := fun _ => None;
     decode_utf8 := fun _ => inr "invalid start byte";
     b64encode := fun _ => "" |}.

(** A broken engine beside a PDF reader that finds text. *)
Definition text_pdf_host : Env :=
  {| os_clock := fun n => 1000 + Z.of_nat n;
     probe_at := fun _ => idle;
     convert := fun _ _ _ _ => EngineRaises (OtherError "conversion failed");
     pypdf2 := fun _ => PdfPages ["Quarterly report"];
     json_loads := fun _ => JsonDecodeError "Expecting value";
     read_csv := fun _ => None;
     read_excel := fun _ => None;
     decode_utf8 := fun _ => inr "invalid start byte";
     b64encode := fun _ => "" |}.

(** A broken engine beside a PDF reader that raises. *)
Definition unreadable_pdf_host : Env :=
  {| os_clock := fun n => 1000 + Z.of_nat n;
     probe_at := fun _ => idle;
     convert := fun _ _ _ _ => EngineRaises (OtherError "conversion failed");
     pypdf2 := fun _ => PdfRaises (OtherError "EOF marker not found");
     json_loads := fun _ => JsonDecodeError "Expecting value";
     read_csv := fun _ => None;
     read_excel := fun _ => None;
     decode_utf8 := fun _ => inr "invalid start byte";
     b64encode := fun _ => "JVBERg==" |}.

(** A world whose cache holds an answer to "What is the total?" in chat
    [c-1], valid until tick 1600. *)
Definition answered_world : World :=
  {| cache := <[Cache.QueryCache.make_key "c-1"
                  (Chat.query_fingerprint "What is the total?") :=
                  (PStr "42", 1000, Some 1600)]> ∅;
     ticks := 0; calls := 0; trace := [] |}.

End Examples.

(* ===================================================================== *)
(** ** The primitives on small inputs *)
(* ===================================================================== *)

Example split_dots : Py.split "." "a.b.c" = ["a"; "b"; "c"].
Proof. reflexivity. Qed.

Example split_trailing_dot : Py.split "." "archive." = ["archive"; ""].
Proof. reflexivity. Qed.

Example strip_both_ends :
  Py.strip (String "009" "  What is  X? ") = "What is  X?".
Proof. reflexivity. Qed.

Example lower_mixed : Py.lower "Hello World 42" = "hello world 42".
Proof. reflexivity. Qed.

Example split_ws_runs : Py.split_ws "  a  b c " = ["a"; "b"; "c"].
Proof. reflexivity. Qed.

Example ext_of_upper_case :
  Processor.file_ext {| Processor.filename := Some "Report.Final.PDF";
                        Processor.data := [] |} = "pdf".
Proof. reflexivity. Qed.

Example ext_without_dot :
  Processor.file_ext {| Processor.filename := Some "README";
                        Processor.data := [] |} = "readme".
Proof. reflexivity. Qed.

Example ext_without_name :
  Processor.file_ext {| Processor.filename := None; Processor.data := [] |}
  = "".
Proof. reflexivity. Qed.

Example empty_pages_look_scanned :
  Processor.pdf_text_content [""; ""] = Processor.scanned_marker.
Proof. reflexivity. Qed.

(* ===================================================================== *)
(** ** The digest on the standard test vectors *)
(* ===================================================================== *)

Example sha_abc :
  Sha256.hexdigest (Sha256.utf8 "abc")
  = "ba7816bf8f01cfea414140de5dae2223b00361a396177a9cb410ff61f20015ad".
Proof. vm_compute. reflexivity. Qed.

Example sha_empty :
  Sha256.hexdigest (Sha256.utf8 "")
  = "e3b0c44298fc1c149afbf4c8996fb92427ae41e4649b934ca495991b7852b855".
Proof. vm_compute. reflexivity. Qed.

Example sha_two_blocks :
  Sha256.hexdigest (Sha256.utf8 (Py.repeat_char "x" 200))
  = "aa20c23e3201834050679e1d88941b9a6fed0557c9a705cb2c315e2e63fd486d".
Proof. vm_compute. reflexivity. Qed.

(* ===================================================================== *)
(** ** Float rounding *)
(* ===================================================================== *)

Section FloatFacts.

Import Float.

(** [add] is the addition of the hardware on sums that round up, round
    down, break a tie either way, or are exact. *)
Example add_agrees_with_binary64 :
  forallb (fun '(a, b) =>
             binary64_to_ticks 0
               (PrimFloat.add (binary64_of_Z a) (binary64_of_Z b))
             =? add a b)
    [(1000, 3600); (1700000000, 600);
     (2 ^ 53, 1); (2 ^ 53, 2); (2 ^ 53, 3); (2 ^ 53, 5);
     (2 ^ 53 - 1, 2); (2 ^ 54, 1); (2 ^ 54, 2); (2 ^ 54, 3); (2 ^ 54, 6);
     (2 ^ 60 + 2 ^ 10, 2 ^ 7 - 1); (2 ^ 60 + 2 ^ 10, 2 ^ 7);
     (2 ^ 60 + 2 ^ 10, 2 ^ 7 + 1); (2 ^ 61 - 2 ^ 8, 2 ^ 7)]
  = true.
Proof. vm_compute. reflexivity. Qed.

(** In ticks of 2**-56 s: the floats [0.1], [0.2] and their sum on the
    hardware, [0.30000000000000004], which [add] gives as well and which
    is more than the exact sum. *)
Example tenth_plus_fifth :
  binary64_to_ticks 56 tenth = 7205759403792794 /\
  binary64_to_ticks 56 fifth = 14411518807585588 /\
  binary64_to_ticks 56 (PrimFloat.add tenth fifth) = 21617278211378384 /\
  add 7205759403792794 14411518807585588 = 21617278211378384 /\
  7205759403792794 + 14411518807585588 < 21617278211378384.
Proof. repeat split. Qed.

Lemma round_small x : Z.abs x < 2 ^ prec -> round x = x.
Proof.
  intros H. unfold round.
  destruct (Z.leb_spec (Z.log2 (Z.abs x) + 1) prec) as [_|Hk]; [reflexivity|].
  exfalso.
  assert (0 < Z.abs x).
  { destruct (Z.eq_dec (Z.abs x) 0) as [e|]; [|lia].
    rewrite e in Hk. cbn in Hk. unfold prec in Hk. lia. }
  pose proof (Z.log2_spec (Z.abs x) ltac:(lia)) as [Hlo _].
  assert (2 ^ prec <= 2 ^ Z.log2 (Z.abs x)).
  { apply Z.pow_le_mono_r; unfold prec in *; lia. }
  lia.
Qed.

(** The shape of a rounded value with more than [prec] bits. *)
Lemma round_large m :
  0 < m -> prec < Z.log2 m + 1 ->
  let s := Z.log2 m + 1 - prec in
  exists q', round m = q' * 2 ^ s /\
    m / 2 ^ s <= q' <= m / 2 ^ s + 1 /\
    (q' = m / 2 ^ s + 1 <->
     (2 ^ (s - 1) <? m mod 2 ^ s) ||
     ((m mod 2 ^ s =? 2 ^ (s - 1)) && Z.odd (m / 2 ^ s)) = true).
Proof.
  intros Hm Hk s. unfold round.
  rewrite (Z.abs_eq m) by lia.
  destruct (Z.leb_spec (Z.log2 m + 1) prec); [lia|].
  fold s. rewrite (Z.sgn_pos m) by lia. rewrite Z.mul_1_l.
  destruct ((2 ^ (s - 1) <? m mod 2 ^ s) ||
            ((m mod 2 ^ s =? 2 ^ (s - 1)) && Z.odd (m / 2 ^ s))) eqn:Hup.
  - exists (m / 2 ^ s + 1). split; [reflexivity|]. split; [lia|]. tauto.
  - exists (m / 2 ^ s). split; [reflexivity|]. split; [lia|].
    split; [lia|discriminate].
Qed.

Lemma mantissa_bounds m :
  0 < m -> prec < Z.log2 m + 1 ->
  let s := Z.log2 m + 1 - prec in
  2 ^ (prec - 1) <= m / 2 ^ s < 2 ^ prec.
Proof.
  intros Hm Hk s.
  pose proof (Z.log2_spec m Hm) as [Hlo Hhi].
  assert (Hs : 0 < s) by (unfold s; lia).
  assert (Hp : 0 < 2 ^ s) by (apply Z.pow_pos_nonneg; lia).
  assert (E1 : 2 ^ Z.log2 m = 2 ^ (prec - 1) * 2 ^ s).
  { rewrite <- Z.pow_add_r by (unfold prec; lia). f_equal. unfold s. lia. }
  assert (E2 : 2 ^ Z.succ (Z.log2 m) = 2 ^ prec * 2 ^ s).
  { rewrite <- Z.pow_add_r by (unfold prec; lia). f_equal. unfold s. lia. }
  split.
  - apply Z.div_le_lower_bound; lia.
  - apply Z.div_lt_upper_bound; lia.
Qed.

Lemma round_bounds m :
  0 < m -> 2 ^ Z.log2 m <= round m <= 2 ^ (Z.log2 m + 1).
Proof.
  intros Hm.
  pose proof (Z.log2_spec m Hm) as [Hlo Hhi].
  replace (Z.succ (Z.log2 m)) with (Z.log2 m + 1) in Hhi by lia.
  destruct (Z.le_gt_cases (Z.log2 m + 1) prec) as [Hk|Hk].
  - rewrite round_small; [lia|].
    rewrite Z.abs_eq by lia.
    assert (2 ^ (Z.log2 m + 1) <= 2 ^ prec) by (apply Z.pow_le_mono_r; lia).
    lia.
  - destruct (round_large m Hm Hk) as (q' & -> & Hq & _).
    pose proof (mantissa_bounds m Hm Hk) as Hb. cbv zeta in *.
    set (s := Z.log2 m + 1 - prec) in *.
    assert (Hs : 0 < s) by (unfold s; lia).
    assert (Hp : 0 < 2 ^ s) by (apply Z.pow_pos_nonneg; lia).
    assert (E1 : 2 ^ Z.log2 m = 2 ^ (prec - 1) * 2 ^ s).
    { rewrite <- Z.pow_add_r by (unfold prec; lia). f_equal. unfold s. lia. }
    assert (E2 : 2 ^ (Z.log2 m + 1) = 2 ^ prec * 2 ^ s).
    { rewrite <- Z.pow_add_r by (unfold prec; lia). f_equal. unfold s. lia. }
    rewrite E1, E2. split; apply Z.mul_le_mono_nonneg_r; lia.
Qed.

Lemma round_mono_binade x y :
  0 < x -> x <= y -> Z.log2 x = Z.log2 y -> round x <= round y.
Proof.
  intros Hx Hxy Hl.
  destruct (Z.le_gt_cases (Z.log2 x + 1) prec) as [Hk|Hk].
  - pose proof (Z.log2_spec x Hx) as [_ Hhi].
    pose proof (Z.log2_spec y ltac:(lia)) as [_ Hhi'].
    assert (2 ^ Z.succ (Z.log2 x) <= 2 ^ prec) by (apply Z.pow_le_mono_r; lia).
    rewrite !round_small; rewrite ?Z.abs_eq; try lia.
    rewrite <- Hl in Hhi'. lia.
  - destruct (round_large x Hx Hk) as (qx & -> & Hqx & Hux).
    destruct (round_large y ltac:(lia) ltac:(lia)) as (qy & -> & Hqy & Huy).
    cbv zeta in *. rewrite <- Hl in *.
    set (s := Z.log2 x + 1 - prec) in *.
    assert (Hs : 0 < s) by (unfold s; lia).
    assert (Hp : 0 < 2 ^ s) by (apply Z.pow_pos_nonneg; lia).
    apply Z.mul_le_mono_nonneg_r; [lia|].
    assert (Hd : x / 2 ^ s <= y / 2 ^ s) by (apply Z.div_le_mono; lia).
    destruct (Z.eq_dec (x / 2 ^ s) (y / 2 ^ s)) as [Heq|Hne]; [|lia].
    destruct (Z.eq_dec qx (x / 2 ^ s)) as [|Hup]; [lia|].
    assert (Hqx' : qx = x / 2 ^ s + 1) by lia.
    enough (qy = y / 2 ^ s + 1) by lia.
    apply Huy. apply Hux in Hqx'.
    pose proof (Z.div_mod x (2 ^ s) ltac:(lia)) as Dx.
    pose proof (Z.div_mod y (2 ^ s) ltac:(lia)) as Dy.
    assert (Hr : x mod 2 ^ s <= y mod 2 ^ s) by (rewrite Heq in Dx; lia).
    rewrite <- Heq.
    apply orb_true_iff in Hqx'. apply orb_true_iff.
    destruct Hqx' as [Hgt|Htie].
    + left. apply Z.ltb_lt in Hgt. apply Z.ltb_lt. lia.
    + apply andb_true_iff in Htie as [Hh Hodd]. apply Z.eqb_eq in Hh.
      destruct (Z.eq_dec (y mod 2 ^ s) (2 ^ (s - 1))) as [e|].
      * right. rewrite e, Z.eqb_refl. exact Hodd.
      * left. apply Z.ltb_lt. lia.
Qed.

Lemma round_mono_pos x y : 0 < x -> x <= y -> round x <= round y.
Proof.
  intros Hx Hxy.
  pose proof (Z.log2_le_mono x y Hxy) as Hl.
  destruct (Z.eq_dec (Z.log2 x) (Z.log2 y)) as [e|ne].
  - now apply round_mono_binade.
  - pose proof (round_bounds x Hx) as [_ Hu].
    pose proof (round_bounds y ltac:(lia)) as [Hlo _].
    assert (2 ^ (Z.log2 x + 1) <= 2 ^ Z.log2 y).
    { apply Z.pow_le_mono_r; [lia|]. lia. }
    lia.
Qed.

Lemma round_opp x : round (- x) = - round x.
Proof.
  unfold round. rewrite Z.abs_opp, Z.sgn_opp.
  destruct (Z.log2 (Z.abs x) + 1 <=? prec); lia.
Qed.

Lemma round_0 : round 0 = 0.
Proof. reflexivity. Qed.

Lemma round_pos x : 0 < x -> 0 < round x.
Proof.
  intros Hx. pose proof (round_bounds x Hx) as [Hlo _].
  assert (0 < 2 ^ Z.log2 x) by (apply Z.pow_pos_nonneg; [lia|apply Z.log2_nonneg]).
  lia.
Qed.

Lemma round_neg x : x < 0 -> round x < 0.
Proof.
  intros Hx. pose proof (round_pos (- x) ltac:(lia)) as H.
  rewrite round_opp in H. lia.
Qed.

Lemma round_zero_iff x : round x = 0 <-> x = 0.
Proof.
  split; [|intros ->; reflexivity].
  intros H. destruct (Z.lt_trichotomy x 0) as [Hn|[?|Hp]]; [|assumption|].
  - pose proof (round_neg x Hn). lia.
  - pose proof (round_pos x Hp). lia.
Qed.

(** Rounding is monotone. *)
Lemma round_mono x y : x <= y -> round x <= round y.
Proof.
  intros Hxy.
  destruct (Z.lt_trichotomy x 0) as [Hx|[->|Hx]].
  - destruct (Z.lt_trichotomy y 0) as [Hy|[->|Hy]].
    + pose proof (round_mono_pos (- y) (- x) ltac:(lia) ltac:(lia)) as H.
      rewrite !round_opp in H. lia.
    + pose proof (round_neg x Hx). rewrite round_0. lia.
    + pose proof (round_neg x Hx). pose proof (round_pos y Hy). lia.
  - destruct (Z.eq_dec y 0) as [->|]; [lia|].
    pose proof (round_pos y ltac:(lia)). rewrite round_0. lia.
  - now apply round_mono_pos.
Qed.

Lemma log2_pow2_mul q s :
  0 < q -> 0 <= s -> Z.log2 (q * 2 ^ s) = Z.log2 q + s.
Proof.
  intros Hq Hs. rewrite <- Z.shiftl_mul_pow2 by lia.
  apply Z.log2_shiftl; lia.
Qed.

(** A rounded value is a float: rounding it again changes nothing. *)
Lemma round_idempotent x : round (round x) = round x.
Proof.
  assert (Hpos : forall m, 0 < m -> round (round m) = round m).
  { intros m Hm.
    destruct (Z.le_gt_cases (Z.log2 m + 1) prec) as [Hk|Hk].
    - pose proof (Z.log2_spec m Hm) as [_ Hhi].
      assert (2 ^ Z.succ (Z.log2 m) <= 2 ^ prec) by (apply Z.pow_le_mono_r; lia).
      assert (E : round m = m) by (apply round_small; rewrite Z.abs_eq; lia).
      now rewrite E.
    - destruct (round_large m Hm Hk) as (q' & E & Hq & _).
      pose proof (mantissa_bounds m Hm Hk) as Hb. cbv zeta in *.
      set (s := Z.log2 m + 1 - prec) in *.
      assert (Hs : 0 < s) by (unfold s; lia).
      assert (Hp : 0 < 2 ^ s) by (apply Z.pow_pos_nonneg; lia).
      rewrite E.
      assert (Hq' : 2 ^ (prec - 1) <= q' <= 2 ^ prec) by lia.
      assert (H52 : 0 < 2 ^ (prec - 1)) by (apply Z.pow_pos_nonneg; unfold prec; lia).
      destruct (Z.eq_dec q' (2 ^ prec)) as [->|Hlt].
      + (* the mantissa overflowed into the next binade *)
        rewrite <- Z.pow_add_r by (unfold prec; lia).
        unfold round.
        rewrite Z.abs_eq by (apply Z.pow_nonneg; lia).
        rewrite Z.log2_pow2 by (unfold prec; lia).
        destruct (Z.leb_spec (prec + s + 1) prec); [lia|].
        replace (prec + s + 1 - prec) with (s + 1) by lia.
        replace (2 ^ (prec + s)) with (2 ^ (prec - 1) * 2 ^ (s + 1))
          by (rewrite <- Z.pow_add_r by (unfold prec; lia); f_equal; lia).
        assert (0 < 2 ^ (s + 1)) by (apply Z.pow_pos_nonneg; lia).
        rewrite Z.div_mul, Z.mod_mul by lia.
        replace (s + 1 - 1) with s by lia.
        destruct (Z.ltb_spec (2 ^ s) 0); [lia|].
        destruct (Z.eqb_spec 0 (2 ^ s)); [lia|]. cbn [orb andb].
        rewrite Z.sgn_pos by nia. lia.
      + assert (Hl : Z.log2 (q' * 2 ^ s) = Z.log2 m).
        { rewrite log2_pow2_mul by lia.
          assert (Z.log2 q' = prec - 1); [|unfold s; lia].
          apply Z.log2_unique; [unfold prec; lia|].
          replace (Z.succ (prec - 1)) with prec by lia. lia. }
        unfold round. rewrite Z.abs_eq by nia. rewrite Hl. fold s.
        destruct (Z.leb_spec (Z.log2 m + 1) prec); [lia|].
        rewrite Z.div_mul, Z.mod_mul by lia.
        assert (0 < 2 ^ (s - 1)) by (apply Z.pow_pos_nonneg; lia).
        destruct (Z.ltb_spec (2 ^ (s - 1)) 0); [lia|].
        destruct (Z.eqb_spec 0 (2 ^ (s - 1))); [lia|]. cbn [orb andb].
        rewrite Z.sgn_pos by nia. lia. }
  destruct (Z.lt_trichotomy x 0) as [Hx|[->|Hx]].
  - pose proof (Hpos (- x) ltac:(lia)) as H.
    rewrite round_opp in H. rewrite round_opp in H. lia.
  - reflexivity.
  - now apply Hpos.
Qed.

Lemma round_representable x : representable (round x).
Proof. apply round_idempotent. Qed.

(** A float that is not after the exact sum is not after the rounded one,
    and a float that is not before the exact sum is not before it. *)
Lemma float_le_add t a b : representable t -> t <= a + b -> t <= add a b.
Proof.
  unfold representable, add. intros Ht H. rewrite <- Ht. now apply round_mono.
Qed.


Lemma float_add_zero_iff a b : add a b = 0 <-> a + b = 0.
Proof. apply round_zero_iff. Qed.

(** Every reading of the clock is a float. *)
Lemma clock_representable (E : Processor.Env) (n : nat) :
  representable (Processor.clock E n).
Proof. apply round_idempotent. Qed.

End FloatFacts.

(* ===================================================================== *)
(** ** Properties of the cache *)
(* ===================================================================== *)

Section CacheFacts.

Import Cache.

Lemma colon_split_inj (a1 b1 a2 b2 : string) :
  colon_free a1 = true -> colon_free a2 = true ->
  a1 +:+ ":" +:+ b1 = a2 +:+ ":" +:+ b2 -> a1 = a2 /\ b1 = b2.
Proof.
  revert a2. induction a1 as [|c a1 IH]; intros [|d a2] H1 H2 Heq; cbn in *.
  - injection Heq as Heq. by subst.
  - injection Heq as Hd _. subst d. discriminate.
  - injection Heq as Hc _. subst c. discriminate.
  - injection Heq as Hc Heq. subst d.
    apply andb_true_iff in H1 as [_ H1]. apply andb_true_iff in H2 as [_ H2].
    destruct (IH a2 H1 H2 Heq) as [-> ->]. done.
Qed.

Lemma get_insert_ne (t : Z) (k k' : string) (e : entry) (c : store) :
  k <> k' -> fst (get t k (<[k' := e]> c)) = fst (get t k c).
Proof.
  intros Hne. unfold get. rewrite lookup_insert_ne by congruence.
  repeat case_match; by simplify_eq.
Qed.

(** C6, as stated, fails: two different id pairs share one key. *)
Lemma make_key_collision :
  ~ (forall chat_id1 hash1 chat_id2 hash2 : string,
       QueryCache.make_key chat_id1 hash1 = QueryCache.make_key chat_id2 hash2 ->
       chat_id1 = chat_id2 /\ hash1 = hash2).
Proof.
  intros H. destruct (H "a:b" "c" "a" "b:c" eq_refl) as [Habs _].
  discriminate.
Qed.

(** C6 (amended): the key of either cache determines its id pair as soon
    as the first id holds no [':']; a [faq:] key never equals a
    [partial:] key; and a write through the partial-result cache leaves
    every read through the query cache unchanged. *)
Theorem cache_keys_namespaced :
  (forall a1 b1 a2 b2 : string,
     colon_free a1 = true -> colon_free a2 = true ->
     QueryCache.make_key a1 b1 = QueryCache.make_key a2 b2 ->
     a1 = a2 /\ b1 = b2) /\
  (forall a1 b1 a2 b2 : string,
     colon_free a1 = true -> colon_free a2 = true ->
     PartialResultCache.make_key a1 b1 = PartialResultCache.make_key a2 b2 ->
     a1 = a2 /\ b1 = b2) /\
  (forall a1 b1 a2 b2 : string,
     QueryCache.make_key a1 b1 <> PartialResultCache.make_key a2 b2) /\
  (forall (x y x' y' : string) (v : pyval) (ttl : option Z)
          (t1 t2 t : Z) (c : store),
     fst (QueryCache.get t x y (PartialResultCache.set t1 t2 x' y' v ttl c))
     = fst (QueryCache.get t x y c)).
Proof.
  split; [|split; [|split]].
  - intros a1 b1 a2 b2 H1 H2 Heq. unfold QueryCache.make_key in Heq.
    simpl in Heq. injection Heq as Heq. by apply colon_split_inj.
  - intros a1 b1 a2 b2 H1 H2 Heq. unfold PartialResultCache.make_key in Heq.
    simpl in Heq. injection Heq as Heq. by apply colon_split_inj.
  - intros a1 b1 a2 b2 Heq. discriminate.
  - intros x y x' y' v ttl t1 t2 t c.
    unfold QueryCache.get, PartialResultCache.set, set.
    apply get_insert_ne. discriminate.
Qed.

Lemma cache_keys_namespaced_witness :
  "7" = "7" /\ "abc" = "abc".
Proof.
  apply (proj1 cache_keys_namespaced "7" "abc" "7" "abc");
    reflexivity.
Defined.




End CacheFacts.

(* ===================================================================== *)
(** ** Properties of the processor *)
(* ===================================================================== *)

Section ProcessorFacts.

Import Processor.
Local Open Scope py_scope.

Context (E : Env) (self : FileProcessor).

Ltac run :=
  unfold bind, ret, raise, emit, next_call, time_time, get_cache, put_cache,
    try_except, as_result; simpl.

(** A key that is not in the store: the read returns [None] and changes
    nothing, the clock is not consulted. *)
Lemma cache_get_absent (key : string) (w : World) :
  cache w !! key = None -> cache_get E key w = (Ok PNone, w).
Proof.
  intros H. unfold cache_get. run. rewrite H. done.
Qed.

(** The monadic read is [Cache.get] at the clock reading it makes. *)
Lemma cache_get_spec (key : string) (w : World) :
  exists t w',
    cache_get E key w = (Ok (fst (Cache.get t key (cache w))), w') /\
    cache w' = snd (Cache.get t key (cache w)) /\
    calls w' = calls w /\ trace w' = trace w.
Proof.
  unfold cache_get, Cache.get, Cache.expired. run.
  destruct (cache w !! key) as [[[v cr] [e|]]|] eqn:Hk; simpl.
  - destruct (Z.eqb_spec e 0) as [He|He]; simpl.
    + exists 0, w. done.
    + exists (clock E (ticks w)).
      destruct (clock E (ticks w) >? e); simpl; eexists; done.
  - exists 0, w. done.
  - exists 0, w. done.
Qed.

(** *** Traces only grow *)

Lemma appends_ret P {A} (a : A) : appends P (ret a).
Proof. intros w. exists []. simpl. by rewrite app_nil_r. Qed.

Lemma appends_raise P {A} (e : exn) : appends P (@raise A e).
Proof. intros w. exists []. simpl. by rewrite app_nil_r. Qed.

Lemma appends_emit P (ev : event) : P ev = true -> appends P (emit ev).
Proof. intros H w. exists [ev]. simpl. by rewrite H. Qed.

Lemma appends_bind P {A B} (m : M A) (k : A -> M B) :
  appends P m -> (forall a, appends P (k a)) -> appends P (bind m k).
Proof.
  intros Hm Hk w. unfold bind. destruct (Hm w) as (tr1 & H1 & HP1).
  destruct (m w) as [[a|e] w1]; simpl in *.
  - destruct (Hk a w1) as (tr2 & H2 & HP2). exists (tr1 ++ tr2).
    rewrite H2, H1, forallb_app, HP1, HP2, app_assoc. done.
  - exists tr1. done.
Qed.

Lemma appends_try P {A} (m : M A) (h : exn -> M A) :
  appends P m -> (forall e, appends P (h e)) -> appends P (try_except m h).
Proof.
  intros Hm Hh w. unfold try_except. destruct (Hm w) as (tr1 & H1 & HP1).
  destruct (m w) as [[a|e] w1]; simpl in *.
  - exists tr1. done.
  - destruct (Hh e w1) as (tr2 & H2 & HP2). exists (tr1 ++ tr2).
    rewrite H2, H1, forallb_app, HP1, HP2, app_assoc. done.
Qed.

Lemma appends_silent P {A} (m : M A) :
  (forall w, trace (snd (m w)) = trace w) -> appends P m.
Proof. intros H w. exists []. rewrite H, app_nil_r. done. Qed.

Lemma appends_time P : appends P (time_time E).
Proof. by apply appends_silent. Qed.

Lemma appends_get_cache P : appends P get_cache.
Proof. by apply appends_silent. Qed.

Lemma appends_put_cache P c : appends P (put_cache c).
Proof. by apply appends_silent. Qed.

Lemma appends_next_call P : appends P next_call.
Proof. by apply appends_silent. Qed.

Lemma appends_as_result P v : appends P (as_result v).
Proof. destruct v; [apply appends_raise .. | apply appends_ret]. Qed.

Ltac appends_step :=
  first
    [ apply appends_ret | apply appends_raise | apply appends_time
    | apply appends_get_cache | apply appends_put_cache
    | apply appends_next_call | apply appends_as_result
    | apply appends_bind; [|intros ?]
    | apply appends_try; [|intros ?]
    | apply appends_emit; reflexivity ].

Ltac appends_auto :=
  repeat first [ appends_step | case_match ].

Lemma appends_cache_get P key : appends P (cache_get E key).
Proof. unfold cache_get. appends_auto. Qed.

Lemma appends_cache_set P key v ttl : appends P (cache_set E key v ttl).
Proof. unfold cache_set. appends_auto. Qed.

(** Every event of [process_file_enhanced] is its entry, a resource
    check or a conversion with the same [force_ocr]. *)
Lemma appends_enhanced P file f l :
  P (EvEnhanced f l) = true ->
  (forall b, P (EvResources b) = true) ->
  (forall lang, P (EvConvert f lang) = true) ->
  appends P (process_file_enhanced E self file f l).
Proof.
  intros H1 H2 H3. unfold process_file_enhanced.
  repeat first
    [ apply appends_cache_get | apply appends_cache_set
    | apply appends_emit; solve [ apply H1 | apply H2 | apply H3 ]
    | appends_step | case_match ].
Qed.

(** *** One enhanced attempt *)

(** Insufficient resources: the attempt fails with the resource error
    before any conversion, and stores nothing. *)
Lemma enhanced_insufficient file f l w :
  enhanced_processing_enabled self = true ->
  cache w !! ocr_key file = None ->
  check_system_resources self (probe_at E (calls w)) = false ->
  process_file_enhanced E self file f l w =
    (Ok (PResult (failure
           "Insufficient system resources for enhanced processing"
           (clock E (S (ticks w)) - clock E (ticks w)) true)),
     {| cache := cache w; ticks := S (S (ticks w)); calls := S (calls w);
        trace := trace w ++ [EvEnhanced f l; EvResources false] |}).
Proof.
  intros He Hc Hr. unfold process_file_enhanced. run.
  rewrite cache_get_absent by done. simpl. rewrite He. simpl.
  rewrite Hr. simpl. by rewrite <- app_assoc.
Qed.

(** The engine raises: the attempt fails with the message of the matching
    [except] clause, and stores nothing. *)
Lemma enhanced_raises file f l w name e :
  enhanced_processing_enabled self = true ->
  filename file = Some name ->
  cache w !! ocr_key file = None ->
  check_system_resources self (probe_at E (calls w)) = true ->
  convert E (calls w) f (if lang_truthy l then l else None) (data file)
    = EngineRaises e ->
  process_file_enhanced E self file f l w =
    (Ok (PResult (failure (engine_failure_message e)
           (clock E (S (ticks w)) - clock E (ticks w)) true)),
     {| cache := cache w; ticks := S (S (ticks w)); calls := S (calls w);
        trace := trace w ++ [EvEnhanced f l; EvResources true;
                             EvConvert f (if lang_truthy l then l else None)] |}).
Proof.
  intros He Hn Hc Hr Hx. unfold process_file_enhanced. run.
  rewrite cache_get_absent by done. simpl. rewrite He. simpl.
  rewrite Hr. simpl. rewrite Hn. simpl. rewrite Hx. simpl.
  by rewrite <- !app_assoc.
Qed.

(** A failing attempt on a named file, whatever the reason. *)
Lemma enhanced_fails file f l w name :
  enhanced_processing_enabled self = true ->
  filename file = Some name ->
  cache w !! ocr_key file = None ->
  engine_fails E self (calls w) file ->
  exists r tr,
    process_file_enhanced E self file f l w =
      (Ok (PResult r),
       {| cache := cache w; ticks := S (S (ticks w)); calls := S (calls w);
          trace := trace w ++ EvEnhanced f l :: tr |}) /\
    success r = false /\ enhanced_processing r = true /\
    is_Some (error_message r) /\
    forallb internal tr = true.
Proof.
  intros He Hn Hc Hf.
  destruct (check_system_resources self (probe_at E (calls w))) eqn:Hr.
  - destruct Hf as [Hf|Hf]; [congruence|].
    destruct (Hf f (if lang_truthy l then l else None)) as [e Hx].
    eexists _, _. rewrite (enhanced_raises _ _ _ _ _ _ He Hn Hc Hr Hx).
    split; [reflexivity|]. simpl. eauto.
  - eexists _, _. rewrite (enhanced_insufficient _ _ _ _ He Hc Hr).
    split; [reflexivity|]. simpl. eauto.
Qed.

(** The engine converts: the result is a success and is cached for an
    hour. *)
Lemma enhanced_converts file f l w name md ty :
  enhanced_processing_enabled self = true ->
  filename file = Some name ->
  cache w !! ocr_key file = None ->
  check_system_resources self (probe_at E (calls w)) = true ->
  convert E (calls w) f (if lang_truthy l then l else None) (data file)
    = Converted md ty ->
  let result := docling_result file f l md ty
                  (clock E (S (ticks w)) - clock E (ticks w)) in
  process_file_enhanced E self file f l w =
    (Ok (PResult result),
     {| cache := Cache.set (clock E (S (S (ticks w))))
                   (clock E (S (S (S (ticks w))))) (ocr_key file)
                   (PResult result) (Some 3600) (cache w);
        ticks := S (S (S (S (ticks w)))); calls := S (calls w);
        trace := trace w ++ [EvEnhanced f l; EvResources true;
                             EvConvert f (if lang_truthy l then l else None)] |}).
Proof.
  intros He Hn Hc Hr Hx result. unfold process_file_enhanced. run.
  rewrite cache_get_absent by done. simpl. rewrite He. simpl.
  rewrite Hr. simpl. rewrite Hn. simpl. rewrite Hx. unfold cache_set. run.
  by rewrite <- !app_assoc.
Qed.

(** An attempt on a named file, nothing cached: some [ProcessingResult]
    comes back, after the entry event and internal events only. *)
Lemma enhanced_named file f l w name :
  enhanced_processing_enabled self = true ->
  filename file = Some name ->
  cache w !! ocr_key file = None ->
  exists r w' tr,
    process_file_enhanced E self file f l w = (Ok (PResult r), w') /\
    trace w' = trace w ++ EvEnhanced f l :: tr /\
    forallb internal tr = true.
Proof.
  intros He Hn Hc.
  destruct (check_system_resources self (probe_at E (calls w))) eqn:Hr.
  - destruct (convert E (calls w) f (if lang_truthy l then l else None)
                (data file)) as [md ty|e] eqn:Hx.
    + eexists _, _, _.
      rewrite (enhanced_converts _ _ _ _ _ _ _ He Hn Hc Hr Hx).
      split; [reflexivity|]. simpl. done.
    + eexists _, _, _. rewrite (enhanced_raises _ _ _ _ _ _ He Hn Hc Hr Hx).
      split; [reflexivity|]. simpl. done.
  - eexists _, _, _. rewrite (enhanced_insufficient _ _ _ _ He Hc Hr).
    split; [reflexivity|]. simpl. done.
Qed.

(** *** Reading traces *)

Lemma internal_not_switch tr :
  forallb internal tr = true -> forallb (fun ev => negb (is_switch ev)) tr = true.
Proof.
  induction tr as [|[] tr IH]; simpl; try done.
Qed.

Lemma internal_no_calls tr :
  forallb internal tr = true -> enhanced_calls tr = [].
Proof.
  induction tr as [|[] tr IH]; simpl; try done.
Qed.

Lemma enhanced_calls_app tr1 tr2 :
  enhanced_calls (tr1 ++ tr2) = enhanced_calls tr1 ++ enhanced_calls tr2.
Proof.
  induction tr1 as [|[] tr1 IH]; simpl; try done. by rewrite IH.
Qed.

Lemma before_switch_app tr1 ev tr2 :
  forallb (fun ev => negb (is_switch ev)) tr1 = true ->
  is_switch ev = true ->
  before_switch (tr1 ++ ev :: tr2) = tr1.
Proof.
  intros H1 H2. induction tr1 as [|ev1 tr1 IH]; simpl in *.
  - by rewrite H2.
  - apply andb_true_iff in H1 as [Hev H1].
    destruct (is_switch ev1); [done|]. by rewrite IH.
Qed.

Lemma after_switch_app tr1 ev tr2 :
  forallb (fun ev => negb (is_switch ev)) tr1 = true ->
  is_switch ev = true ->
  after_switch (tr1 ++ ev :: tr2) = tr2.
Proof.
  intros H1 H2. induction tr1 as [|ev1 tr1 IH]; simpl in *.
  - by rewrite H2.
  - apply andb_true_iff in H1 as [Hev H1].
    destruct (is_switch ev1); [done|]. by rewrite IH.
Qed.

Lemma before_switch_none tr :
  forallb (fun ev => negb (is_switch ev)) tr = true -> before_switch tr = tr.
Proof.
  induction tr as [|ev tr IH]; simpl; [done|]. intros H.
  apply andb_true_iff in H as [Hev H].
  destruct (is_switch ev); [done|]. by rewrite IH.
Qed.

(** *** Every path of the orchestrator, event by event *)

Lemma appends_weaken (P Q : event -> bool) {A} (m : M A) :
  (forall ev, P ev = true -> Q ev = true) -> appends P m -> appends Q m.
Proof.
  intros HPQ Hm w. destruct (Hm w) as (tr & Htr & HP). exists tr.
  split; [done|]. rewrite forallb_forall in HP. apply forallb_forall.
  intros ev Hev. auto.
Qed.

Section Orchestration.

Context (P : event -> bool) (file : UploadFile).
Hypothesis retries : forall l, appends P (process_file_enhanced E self file true l).
Hypothesis others : fallback_events P.

Ltac orch_step :=
  first
    [ apply retries
    | apply appends_emit; solve [ apply others ]
    | appends_step ].

Lemma orch_fallback_pdf content st :
  appends P (fallback_pdf_processing E file content st).
Proof. unfold fallback_pdf_processing. repeat first [orch_step | case_match]. Qed.

Lemma orch_pdf_phase content st :
  appends P (pdf_fallback_phase E self file content st).
Proof.
  unfold pdf_fallback_phase.
  repeat first [apply orch_fallback_pdf | orch_step | case_match].
Qed.

Lemma orch_enhanced_phase ext fo l content st :
  appends P (process_file_enhanced E self file fo l) ->
  appends P (enhanced_phase E self file ext fo l content st).
Proof.
  intros first_call. unfold enhanced_phase.
  repeat first [apply first_call | apply orch_pdf_phase | orch_step
               | case_match].
Qed.

Lemma orch_basic_image ext content st :
  appends P (basic_image E self file ext content st).
Proof. unfold basic_image. repeat first [orch_step | case_match]. Qed.

Lemma orch_basic ext content st :
  appends P (basic_processing E self file ext content st).
Proof.
  unfold basic_processing.
  repeat first [apply orch_basic_image | orch_step | case_match].
Qed.

Lemma orch_return_or_basic ext content st early :
  appends P (return_or_basic E self file ext content st early).
Proof.
  unfold return_or_basic.
  repeat first [apply orch_basic | orch_step | case_match].
Qed.

Lemma orch_process_file force_ocr l :
  appends P (process_file_enhanced E self file
               (routed_force_ocr file force_ocr) l) ->
  (forall decision,
     P (EvRoute (routed_force_ocr file force_ocr) decision) = true) ->
  appends P (process_file E self file force_ocr l).
Proof.
  intros first_call route. unfold process_file.
  repeat first [apply orch_enhanced_phase; apply first_call
               | apply orch_return_or_basic
               | apply appends_emit; apply route
               | orch_step | case_match].
Qed.

End Orchestration.

Lemma forced_enhanced file l :
  appends forced (process_file_enhanced E self file true l).
Proof. apply appends_enhanced; [reflexivity | intros ?; reflexivity ..]. Qed.

Lemma forced_fallback_events : fallback_events forced.
Proof. repeat split. Qed.

Ltac forced_step :=
  first
    [ apply appends_cache_get | apply appends_cache_set
    | apply forced_enhanced
    | appends_step ].

Lemma forced_pdf_phase file content st :
  appends forced (pdf_fallback_phase E self file content st).
Proof.
  apply orch_pdf_phase; [apply forced_enhanced | apply forced_fallback_events].
Qed.

Lemma forced_enhanced_phase file ext l content st :
  appends forced (enhanced_phase E self file ext true l content st).
Proof.
  apply orch_enhanced_phase;
    [apply forced_enhanced | apply forced_fallback_events | apply forced_enhanced].
Qed.

Lemma forced_basic file ext content st :
  appends forced (basic_processing E self file ext content st).
Proof.
  apply orch_basic; [apply forced_enhanced | apply forced_fallback_events].
Qed.

Lemma appends_any {A} (m : M A) :
  appends forced m -> appends (fun _ => true) m.
Proof. by apply appends_weaken. Qed.

Lemma starts_emit ev {A} (k : M A) :
  appends (fun _ => true) k -> starts_with ev (emit ev ;; k).
Proof.
  intros Hk w. unfold bind, emit.
  destruct (Hk {| cache := cache w; ticks := ticks w; calls := calls w;
                  trace := trace w ++ [ev] |}) as (tr & Htr & _).
  exists tr. rewrite Htr. simpl. by rewrite <- app_assoc.
Qed.

Lemma starts_bind ev {A B} (m : M A) (k : A -> M B) :
  starts_with ev m -> (forall a, appends (fun _ => true) (k a)) ->
  starts_with ev (bind m k).
Proof.
  intros Hm Hk w. unfold bind. destruct (Hm w) as (tr1 & H1).
  destruct (m w) as [[a|e] w1]; simpl in *.
  - destruct (Hk a w1) as (tr2 & H2 & _). exists (tr1 ++ tr2).
    rewrite H2, H1, <- app_assoc. done.
  - exists tr1. done.
Qed.

Lemma starts_try ev {A} (m : M A) (h : exn -> M A) :
  starts_with ev m -> (forall e, appends (fun _ => true) (h e)) ->
  starts_with ev (try_except m h).
Proof.
  intros Hm Hh w. unfold try_except. destruct (Hm w) as (tr1 & H1).
  destruct (m w) as [[a|e] w1]; simpl in *.
  - exists tr1. done.
  - destruct (Hh e w1) as (tr2 & H2 & _). exists (tr1 ++ tr2).
    rewrite H2, H1, <- app_assoc. done.
Qed.

(** *** Routing *)

Lemma unsupported_ext ext :
  supported ext = false ->
  str_in ext enhanced_formats = false /\
  forall file content st w,
    basic_processing E self file ext content st w
    = (Raise (ValueError ("Unsupported file type: " +:+ ext)), w).
Proof.
  unfold supported. intros H. apply orb_false_iff in H as [H1 H2].
  split; [done|]. intros file content st w.
  unfold basic_formats, str_in in H2. simpl in H2.
  repeat (apply orb_false_iff in H2 as [? H2]).
  unfold basic_processing, str_in. simpl.
  repeat match goal with Hx : (_ =? _)%string = false |- _ =>
    rewrite Hx; clear Hx end.
  reflexivity.
Qed.

(** C3 (amended): a file whose extension no branch handles, uploaded
    without [force_ocr] (or to a processor without the enhanced engine),
    makes [process_file] raise the unsupported-type error after routing
    alone: no engine is invoked and the cache is left as it was. *)
Theorem unsupported_fails_fast file force_ocr l w :
  supported (file_ext file) = false ->
  force_ocr = false \/ enhanced_processing_enabled self = false ->
  process_file E self file force_ocr l w =
    (Raise (ValueError ("Unsupported file type: " +:+ file_ext file)),
     {| cache := cache w; ticks := S (ticks w); calls := calls w;
        trace := trace w ++ [EvRoute force_ocr false; EvBasicPath] |}).
Proof.
  intros Hs Hf. destruct (unsupported_ext _ Hs) as (Henh & Hbasic).
  assert (String.eqb (file_ext file) "pdf" = false) as Hpdf.
  { unfold enhanced_formats, str_in in Henh. simpl in Henh.
    by apply orb_false_iff in Henh as [? _]. }
  unfold process_file, return_or_basic, routed_force_ocr. run. rewrite Hpdf.
  assert (should_use_enhanced_processing self file force_ocr = false) as ->.
  { unfold should_use_enhanced_processing.
    destruct Hf as [-> | ->]; simpl; [|done].
    by destruct (enhanced_processing_enabled self). }
  simpl. rewrite Hbasic. by rewrite <- app_assoc.
Qed.

Lemma forced_return_or_basic file ext content st early :
  appends forced (return_or_basic E self file ext content st early).
Proof.
  apply orch_return_or_basic;
    [apply forced_enhanced | apply forced_fallback_events].
Qed.

(** C5: on a file whose extension is [pdf], routing is asked with
    [force_ocr] true and every enhanced call and conversion that
    [process_file] makes carries [force_ocr] true, whatever the caller
    passed. *)
Theorem pdf_forces_ocr file force_ocr l w :
  file_ext file = "pdf" ->
  exists decision tr,
    trace (snd (process_file E self file force_ocr l w))
      = trace w ++ EvRoute true decision :: tr /\
    forallb forced tr = true.
Proof.
  intros Hext. unfold process_file, routed_force_ocr. rewrite Hext.
  simpl String.eqb. cbv iota.
  unfold bind at 1. unfold time_time at 1. cbv beta iota zeta.
  unfold bind at 1. unfold emit at 1. cbv beta iota zeta.
  match goal with |- context [ snd (?m ?w1) ] =>
    assert (appends forced m) as Hm
      by (repeat first [apply forced_enhanced_phase
                       | apply forced_return_or_basic
                       | forced_step | case_match]);
    destruct (Hm w1) as (tr & Htr & Hforced)
  end.
  exists (should_use_enhanced_processing self file true), tr.
  split; [|done]. rewrite Htr. simpl. by rewrite <- app_assoc.
Qed.

(** *** The retry policy under a failing engine *)

(** What [enhanced_phase] goes on with once both attempts have failed. *)
Lemma two_failed_attempts file ext fo l content st w name :
  enhanced_processing_enabled self = true ->
  filename file = Some name ->
  cache w !! ocr_key file = None ->
  engine_fails E self (calls w) file ->
  engine_fails E self (S (calls w)) file ->
  exists tr1 tr2,
    enhanced_phase E self file ext fo l content st w =
      (if String.eqb ext "pdf"
       then try_except (pdf_fallback_phase E self file content st)
                       (fun _ => ret None)
       else ret None)
      {| cache := cache w; ticks := S (S (S (S (ticks w))));
         calls := S (S (calls w));
         trace := trace w ++ EvEnhanced fo l :: tr1 ++
                  EvEnhanced true (Some (lang_or l ["en"])) :: tr2 |} /\
    forallb internal tr1 = true /\ forallb internal tr2 = true.
Proof.
  intros He Hn Hc Hf1 Hf2. unfold enhanced_phase.
  destruct (enhanced_fails file fo l w name He Hn Hc Hf1)
    as (r1 & tr1 & H1 & Hs1 & _ & _ & Hi1).
  unfold bind at 1 2. rewrite H1. cbv beta iota zeta.
  unfold as_result at 1, ret at 1. cbv beta iota zeta.
  unfold bind at 1. rewrite Hs1. change (negb false) with true.
  cbv beta iota zeta. unfold bind at 1.
  match goal with |- context [process_file_enhanced E self file true ?l' ?w1] =>
    destruct (enhanced_fails file true l' w1 name He Hn Hc Hf2)
      as (r2 & tr2 & H2 & Hs2 & _ & _ & Hi2)
  end.
  rewrite H2. cbv beta iota zeta.
  unfold as_result at 1, ret at 1. cbv beta iota zeta.
  rewrite Hs2. exists tr1, tr2. split; [|done]. simpl.
  by rewrite <- app_assoc.
Qed.

Lemma bind_eq {A B} (m m' : M A) (k : A -> M B) (w w' : World) :
  m w = m' w' -> bind m k w = bind m' k w'.
Proof. intros H. unfold bind. by rewrite H. Qed.

(** An attempt on a file without a name: the resource failure, or the
    [AttributeError] of [file.filename.split]. *)
Lemma enhanced_unnamed file f l w :
  enhanced_processing_enabled self = true ->
  filename file = None ->
  cache w !! ocr_key file = None ->
  check_system_resources self (probe_at E (calls w)) = true ->
  process_file_enhanced E self file f l w =
    (Raise (AttributeError "'NoneType' object has no attribute 'split'"),
     {| cache := cache w; ticks := S (ticks w); calls := S (calls w);
        trace := trace w ++ [EvEnhanced f l; EvResources true] |}).
Proof.
  intros He Hn Hc Hr. unfold process_file_enhanced. run.
  rewrite cache_get_absent by done. simpl. rewrite He. simpl.
  rewrite Hr. simpl. rewrite Hn. simpl. by rewrite <- !app_assoc.
Qed.

(** Whatever follows two failed attempts begins with the switch to a
    fallback. *)
Lemma fallback_chain_switches file ext content st w :
  exists sw tr,
    is_switch sw = true /\
    trace (snd (bind
      (if String.eqb ext "pdf"
       then try_except (pdf_fallback_phase E self file content st)
                       (fun _ => ret None)
       else ret None)
      (fun early => return_or_basic E self file ext content st early) w))
    = trace w ++ sw :: tr.
Proof.
  destruct (String.eqb ext "pdf").
  - exists EvPdfFallback.
    assert (starts_with EvPdfFallback
      (bind (try_except (pdf_fallback_phase E self file content st)
                        (fun _ => ret None))
            (return_or_basic E self file ext content st))) as H.
    { apply starts_bind.
      - apply starts_try; [|intros; apply appends_ret].
        unfold pdf_fallback_phase. apply starts_bind.
        + unfold fallback_pdf_processing. apply starts_emit.
          repeat first [forced_step | case_match].
        + intros fb. apply appends_any.
          repeat first [forced_step | case_match].
      - intros early. apply appends_any, forced_return_or_basic. }
    destruct (H w) as (tr & Htr). exists tr. done.
  - exists EvBasicPath.
    assert (starts_with EvBasicPath
      (emit EvBasicPath ;; basic_processing E self file ext content st)) as H.
    { apply starts_emit, appends_any, forced_basic. }
    destruct (H w) as (tr & Htr). exists tr. done.
Qed.

(** C2: when every enhanced attempt on an enhanced-eligible file fails,
    [process_file] calls [process_file_enhanced] exactly twice before it
    switches to a fallback (the PyPDF2 fallback or the basic handlers):
    once with the routing [force_ocr] and the caller's language, once
    with [force_ocr] true and the language hint defaulted: ['en'] when the
    caller gave [None] or an empty list, the caller's list otherwise.
    The switch follows the second call.  (A file without a name may stop
    after an attempt with its [AttributeError]; the bound of two holds all
    the same.) *)
Theorem retry_bound file force_ocr l w :
  should_use_enhanced_processing self file (routed_force_ocr file force_ocr)
    = true ->
  cache w !! ocr_key file = None ->
  (forall n, engine_fails E self n file) ->
  exists new,
    trace (snd (process_file E self file force_ocr l w)) = trace w ++ new /\
    (length (enhanced_calls (before_switch new)) <= 2)%nat /\
    (is_Some (filename file) ->
     exists retry_language,
       enhanced_calls (before_switch new)
         = [(routed_force_ocr file force_ocr, l);
            (true, Some retry_language)] /\
       (l = None \/ l = Some [] -> retry_language = ["en"]) /\
       (forall x xs, l = Some (x :: xs) -> retry_language = x :: xs) /\
       exists sw rest,
         is_switch sw = true /\ new = before_switch new ++ sw :: rest).
Proof.
  set (fo := routed_force_ocr file force_ocr). intros Hroute Hc Hf.
  assert (enhanced_processing_enabled self = true) as He.
  { unfold should_use_enhanced_processing in Hroute.
    by destruct (enhanced_processing_enabled self). }
  unfold process_file. fold fo. rewrite Hroute.
  unfold bind at 1. unfold time_time at 1. cbv beta iota zeta.
  unfold bind at 1. unfold emit at 1. cbv beta iota zeta.
  cbn [cache ticks calls trace].
  set (w1 := {| cache := cache w; ticks := S (ticks w); calls := calls w;
                trace := trace w ++ [EvRoute fo true] |}).
  destruct (filename file) as [name|] eqn:Hn.
  - destruct (two_failed_attempts file (file_ext file) fo l (data file)
                (clock E (ticks w)) w1 name He Hn Hc (Hf _) (Hf _))
      as (tr1 & tr2 & Hphase & Hi1 & Hi2).
    rewrite (bind_eq _ _ _ _ _ Hphase).
    match goal with |- context [bind _ _ ?w2] =>
      destruct (fallback_chain_switches file (file_ext file) (data file)
                  (clock E (ticks w)) w2) as (sw & tr & Hsw & Htr)
    end.
    rewrite Htr.
    exists (([EvRoute fo true] ++ EvEnhanced fo l :: tr1 ++
             EvEnhanced true (Some (lang_or l ["en"])) :: tr2) ++ sw :: tr).
    split.
    { subst w1. simpl. rewrite <- !app_assoc. simpl.
      by rewrite <- !app_assoc. }
    assert (before_switch
              (([EvRoute fo true] ++ EvEnhanced fo l :: tr1 ++
                EvEnhanced true (Some (lang_or l ["en"])) :: tr2) ++ sw :: tr)
            = [EvRoute fo true] ++ EvEnhanced fo l :: tr1 ++
              EvEnhanced true (Some (lang_or l ["en"])) :: tr2) as Hb.
    { apply before_switch_app; [|done]. simpl.
      rewrite forallb_app. simpl.
      by rewrite !internal_not_switch. }
    assert (enhanced_calls (before_switch
              (([EvRoute fo true] ++ EvEnhanced fo l :: tr1 ++
                EvEnhanced true (Some (lang_or l ["en"])) :: tr2) ++ sw :: tr))
            = [(fo, l); (true, Some (lang_or l ["en"]))]) as Hcalls.
    { rewrite Hb. simpl. rewrite enhanced_calls_app. simpl.
      by rewrite !internal_no_calls. }
    split; [rewrite Hcalls; simpl; lia|]. intros _.
    exists (lang_or l ["en"]). split; [exact Hcalls|].
    split; [intros [-> | ->]; reflexivity|].
    split; [intros x xs ->; reflexivity|].
    exists sw, tr. split; [done|]. by rewrite Hb.
  - assert (file_ext file = "") as Hext by (unfold file_ext; by rewrite Hn).
    rewrite Hext. unfold enhanced_phase. simpl String.eqb. cbv iota.
    destruct (check_system_resources self (probe_at E (calls w1))) eqn:Hr1.
    + pose proof (enhanced_unnamed file fo l w1 He Hn Hc Hr1) as H1.
      unfold bind. rewrite H1. simpl.
      eexists. split; [by rewrite <- app_assoc|]. simpl. split; [lia|].
      intros [? ?]; done.
    + pose proof (enhanced_insufficient file fo l w1 He Hc Hr1) as H1.
      unfold bind at 1 2 3. rewrite H1. cbv beta iota zeta.
      unfold as_result at 1, ret at 1. cbv beta iota zeta.
      change (negb (success (failure _ _ _))) with true. cbv iota.
      unfold bind at 1 2.
      match goal with
      |- context [process_file_enhanced E self file true ?l' ?w2] =>
        destruct (check_system_resources self (probe_at E (calls w2))) eqn:Hr2;
        [ pose proof (enhanced_unnamed file true l' w2 He Hn Hc Hr2) as H2
        | pose proof (enhanced_insufficient file true l' w2 He Hc Hr2) as H2 ]
      end; rewrite H2; cbv beta iota zeta.
      * simpl. eexists. split; [by rewrite <- !app_assoc|]. simpl.
        split; [lia|]. intros [? ?]; done.
      * unfold as_result at 1, ret at 1. cbv beta iota zeta.
        change (success (failure _ _ _)) with false. cbv iota.
        unfold ret at 1. unfold return_or_basic.
        match goal with |- context [bind (emit EvBasicPath) ?k ?w3] =>
          destruct (starts_emit EvBasicPath (k tt)
                      ltac:(apply appends_any, forced_basic) w3)
            as (tr & Htr)
        end.
        rewrite Htr. simpl.
        exists ([EvRoute fo true; EvEnhanced fo l; EvResources false;
                 EvEnhanced true (Some (lang_or l ["en"])); EvResources false]
                ++ EvBasicPath :: tr).
        split; [by rewrite <- !app_assoc|].
        rewrite before_switch_app by done. simpl. split; [lia|].
        intros [? ?]; done.
Qed.

Lemma file_ext_named file :
  file_ext file <> "" -> exists name, filename file = Some name.
Proof.
  unfold file_ext. destruct (filename file) as [name|]; [eauto | done].
Qed.

(** C4: on a PDF whose two enhanced attempts fail and whose PyPDF2 text
    begins with the scanned-PDF marker, [process_file] makes exactly one
    more enhanced call after the fallback, with [force_ocr] true and
    language ['eng']; when that call fails too it returns the PyPDF2
    result, the error of the last attempt recorded under
    [docling_error]. *)
Theorem scanned_pdf_second_chance file force_ocr l w texts :
  file_ext file = "pdf" ->
  enhanced_processing_enabled self = true ->
  cache w !! ocr_key file = None ->
  engine_fails E self (calls w) file ->
  engine_fails E self (S (calls w)) file ->
  pypdf2 E (data file) = PdfPages texts ->
  Py.startswith (Py.strip (pdf_text_content texts))
                "This appears to be a scanned PDF" = true ->
  exists new,
    trace (snd (process_file E self file force_ocr l w)) = trace w ++ new /\
    enhanced_calls (after_switch new) = [(true, Some ["eng"])] /\
    (engine_fails E self (S (S (calls w))) file ->
     exists elapsed err,
       fst (process_file E self file force_ocr l w) =
         Ok (with_docling_error
               (pdf_fallback_dict file (data file) texts elapsed) (Some err)) /\
       cache (snd (process_file E self file force_ocr l w)) = cache w).
Proof.
  intros Hext He Hc Hf1 Hf2 Hpdf Hmark.
  cut (exists res w' new,
         process_file E self file force_ocr l w = (res, w') /\
         trace w' = trace w ++ new /\
         enhanced_calls (after_switch new) = [(true, Some ["eng"])] /\
         (engine_fails E self (S (S (calls w))) file ->
          exists elapsed err,
            res = Ok (with_docling_error
                        (pdf_fallback_dict file (data file) texts elapsed)
                        (Some err)) /\
            cache w' = cache w)).
  { intros (res & w' & new & -> & Htr & Hcalls & Hthird). simpl. eauto. }
  destruct (file_ext_named file) as [name Hn]; [by rewrite Hext|].
  unfold process_file, routed_force_ocr. rewrite Hext. simpl String.eqb.
  cbv iota.
  assert (should_use_enhanced_processing self file true = true) as ->.
  { unfold should_use_enhanced_processing. by rewrite He. }
  unfold bind at 1. unfold time_time at 1. cbv beta iota zeta.
  unfold bind at 1. unfold emit at 1. cbv beta iota zeta.
  cbn [cache ticks calls trace].
  set (w1 := {| cache := cache w; ticks := S (ticks w); calls := calls w;
                trace := trace w ++ [EvRoute true true] |}).
  destruct (two_failed_attempts file "pdf" true l (data file)
              (clock E (ticks w)) w1 name He Hn Hc Hf1 Hf2)
    as (tr1 & tr2 & Hphase & Hi1 & Hi2).
  rewrite (bind_eq _ _ _ _ _ Hphase). simpl String.eqb. cbv iota.
  unfold bind at 1, try_except at 1, pdf_fallback_phase.
  unfold bind at 1, fallback_pdf_processing.
  unfold bind at 1. unfold emit at 1. cbv beta iota zeta. rewrite Hpdf.
  unfold bind at 1. unfold time_time at 1. cbv beta iota zeta.
  unfold ret at 1. cbv beta iota zeta.
  cbn [cache ticks calls trace fallback_text_of d_content pdf_fallback_dict
       dict_get String.eqb Ascii.eqb Bool.eqb].
  rewrite Hmark, He. cbn [andb].
  unfold bind at 1 2.
  match goal with
  |- context [process_file_enhanced E self file true (Some ["eng"]) ?w3'] =>
    set (w3 := w3');
    destruct (enhanced_named file true (Some ["eng"]) w3 name He Hn Hc)
      as (r3 & w4 & tr3 & H3 & Htr3 & Hi3)
  end.
  rewrite H3. cbv beta iota zeta. unfold as_result at 1, ret at 1.
  cbv beta iota zeta.
  assert (trace w4 = trace w ++
            ([EvRoute true true] ++ EvEnhanced true l :: tr1 ++
             EvEnhanced true (Some (lang_or l ["en"])) :: tr2) ++
            EvPdfFallback :: EvEnhanced true (Some ["eng"]) :: tr3) as Htr.
  { rewrite Htr3. subst w3 w1. simpl. rewrite <- !app_assoc. simpl.
    by rewrite <- !app_assoc. }
  assert (enhanced_calls (after_switch
            (([EvRoute true true] ++ EvEnhanced true l :: tr1 ++
              EvEnhanced true (Some (lang_or l ["en"])) :: tr2) ++
             EvPdfFallback :: EvEnhanced true (Some ["eng"]) :: tr3))
          = [(true, Some ["eng"])]) as Hcalls.
  { rewrite after_switch_app; [|simpl|done].
    - simpl. by rewrite internal_no_calls.
    - rewrite forallb_app. simpl. by rewrite !internal_not_switch. }
  assert (engine_fails E self (S (S (calls w))) file ->
          success r3 = false /\ is_Some (error_message r3) /\
          cache w4 = cache w) as Hthird.
  { intros Hf3.
    destruct (enhanced_fails file true (Some ["eng"]) w3 name He Hn Hc Hf3)
      as (r3' & tr3' & H3' & Hs3 & _ & Herr & _).
    rewrite H3 in H3'. injection H3' as -> ->. done. }
  destruct (success r3) eqn:Hs3; unfold ret, return_or_basic;
    cbv beta iota zeta; eexists _, w4, _;
    (split; [reflexivity|]); (split; [exact Htr|]); (split; [exact Hcalls|]);
    intros Hf3; destruct (Hthird Hf3) as (Hs & [err Herr] & Hcache).
  - congruence.
  - rewrite Herr. eauto.
Qed.

(** A JSON document that is [null] parses to [None]: the basic handler
    succeeds with no content. *)
Lemma json_null_has_no_content file content st w :
  json_loads E content = JsonNull ->
  exists d w',
    basic_processing E self file "json" content st w = (Ok d, w') /\
    d_success d = true /\ d_content d = None.
Proof.
  intros Hnull. unfold basic_processing. simpl String.eqb. cbv iota.
  rewrite Hnull. unfold bind, emit, time_time, ret. cbv beta iota zeta.
  eexists _, _. split; [reflexivity|]. done.
Qed.

(** *** Resource exhaustion *)

Lemma no_convert_enhanced file f l :
  (forall n, check_system_resources self (probe_at E n) = false) ->
  appends no_convert (process_file_enhanced E self file f l).
Proof.
  intros Hall. unfold process_file_enhanced.
  apply appends_bind; [apply appends_next_call|]. intros n.
  rewrite Hall. simpl negb. cbv iota.
  repeat first [ apply appends_cache_get | appends_step | case_match ].
Qed.

Lemma insufficient_returns_basic file force_ocr l w :
  enhanced_processing_enabled self = true ->
  cache w !! ocr_key file = None ->
  (forall n, check_system_resources self (probe_at E n) = false) ->
  forall d, fst (process_file E self file force_ocr l w) = Ok d ->
            d_enhanced_processing d = false.
Proof.
  intros He Hc Hall d.
  unfold process_file, return_or_basic, enhanced_phase, pdf_fallback_phase,
    fallback_pdf_processing, basic_processing, basic_image.
  unfold as_result, bind, try_except, ret, raise, emit, time_time.
  cbn [cache ticks calls trace].
  repeat first
    [ rewrite He
    | match goal with
      | |- context [process_file_enhanced E self file ?f ?l' ?w'] =>
          rewrite (enhanced_insufficient file f l' w' He Hc (Hall _))
      end
    | progress cbn beta iota zeta delta
        [fst snd cache ticks calls trace success failure negb
         d_enhanced_processing basic_dict table_dict
         pdf_fallback_dict with_docling_error enhanced_dict]
    | match goal with
      | |- context [match ?x with _ => _ end] =>
          lazymatch x with
          | context [process_file_enhanced] => fail
          | context [match _ with _ => _ end] => fail
          | _ => destruct x eqn:?
          end
      end ].
  all: try (intros [= <-]; reflexivity).
  all: try (intros [=]).
Qed.

(** Two attempts without resources: [enhanced_phase] goes on with the
    fallback chain, the cache as it was. *)
Lemma insufficient_twice file ext fo l content st w :
  enhanced_processing_enabled self = true ->
  cache w !! ocr_key file = None ->
  (forall n, check_system_resources self (probe_at E n) = false) ->
  enhanced_phase E self file ext fo l content st w =
    (if String.eqb ext "pdf"
     then try_except (pdf_fallback_phase E self file content st)
                     (fun _ => ret None)
     else ret None)
    {| cache := cache w; ticks := S (S (S (S (ticks w))));
       calls := S (S (calls w));
       trace := trace w ++ [EvEnhanced fo l; EvResources false;
                            EvEnhanced true (Some (lang_or l ["en"]));
                            EvResources false] |}.
Proof.
  intros He Hc Hall. unfold enhanced_phase.
  unfold bind at 1 2.
  rewrite (enhanced_insufficient file fo l w He Hc (Hall _)).
  cbv beta iota zeta. unfold as_result at 1, ret at 1. cbv beta iota zeta.
  change (negb (success (failure _ _ _))) with true. cbv iota.
  unfold bind at 1 2.
  match goal with
  |- context [process_file_enhanced E self file true ?l' ?w2] =>
    rewrite (enhanced_insufficient file true l' w2 He Hc (Hall _))
  end.
  cbv beta iota zeta. unfold as_result at 1, ret at 1. cbv beta iota zeta.
  change (success (failure _ _ _)) with false. cbv iota.
  cbn [cache ticks calls trace]. by rewrite <- app_assoc.
Qed.

(** C1 (amended): with enhanced processing enabled, nothing cached under
    the file's name and the resource check reporting insufficient
    resources, [process_file_enhanced] fails with the resource-exhaustion
    error before any conversion and stores nothing; [process_file] never
    runs the conversion either and never returns an enhanced result, but
    it does not stop at that error: on the enhanced route it makes one
    retry ([force_ocr] true, the language hint defaulted), which fails in
    the same way, and then runs the fallback chain (the PyPDF2 fallback
    for a PDF, then the basic handlers), whose outcome, a result or an
    exception, is the outcome of [process_file]; off the enhanced route it
    runs the basic handlers at once.  A [.docx], for one, comes back as
    the basic document dict. *)
Theorem resource_exhaustion file force_ocr l w :
  enhanced_processing_enabled self = true ->
  cache w !! ocr_key file = None ->
  (forall n, check_system_resources self (probe_at E n) = false) ->
  (forall f lang,
     process_file_enhanced E self file f lang w =
       (Ok (PResult (failure
              "Insufficient system resources for enhanced processing"
              (clock E (S (ticks w)) - clock E (ticks w)) true)),
        {| cache := cache w; ticks := S (S (ticks w)); calls := S (calls w);
           trace := trace w ++ [EvEnhanced f lang; EvResources false] |})) /\
  (exists new,
     trace (snd (process_file E self file force_ocr l w)) = trace w ++ new /\
     forallb no_convert new = true) /\
  (forall d, fst (process_file E self file force_ocr l w) = Ok d ->
             d_enhanced_processing d = false) /\
  (should_use_enhanced_processing self file (routed_force_ocr file force_ocr)
     = true ->
   exists retry_language,
     process_file E self file force_ocr l w =
       bind (if String.eqb (file_ext file) "pdf"
             then try_except
                    (pdf_fallback_phase E self file (data file)
                       (clock E (ticks w)))
                    (fun _ => ret None)
             else ret None)
            (return_or_basic E self file (file_ext file) (data file)
               (clock E (ticks w)))
         {| cache := cache w; ticks := (5 + ticks w)%nat;
            calls := (2 + calls w)%nat;
            trace := trace w ++
              [EvRoute (routed_force_ocr file force_ocr) true;
               EvEnhanced (routed_force_ocr file force_ocr) l;
               EvResources false;
               EvEnhanced true (Some retry_language);
               EvResources false] |} /\
     (l = None \/ l = Some [] -> retry_language = ["en"]) /\
     (forall x xs, l = Some (x :: xs) -> retry_language = x :: xs)) /\
  (should_use_enhanced_processing self file (routed_force_ocr file force_ocr)
     = false ->
   process_file E self file force_ocr l w =
     bind (emit EvBasicPath)
          (fun _ => basic_processing E self file (file_ext file) (data file)
                      (clock E (ticks w)))
       {| cache := cache w; ticks := S (ticks w); calls := calls w;
          trace := trace w ++
            [EvRoute (routed_force_ocr file force_ocr) false] |}) /\
  (file_ext file = "docx" ->
   fst (process_file E self file force_ocr l w) =
     Ok (basic_dict
           (ODict [("document_data", MStr (b64encode E (data file)));
                   ("document_type", MStr "docx");
                   ("file_size", MInt (zlen (data file)));
                   ("note", MStr "DOCX document uploaded. Enhanced processing (Docling) is recommended for better text extraction.")])
           [("file_name", mfilename (filename file));
            ("file_size", MInt (zlen (data file)));
            ("format", MStr "document");
            ("document_type", MStr "docx");
            ("processing_method", MStr "basic");
            ("enhanced_processing_recommended", MBool true)]
           (clock E (5 + ticks w) - clock E (ticks w)))).
Proof.
  intros He Hc Hall.
  assert (Hretry :
    should_use_enhanced_processing self file (routed_force_ocr file force_ocr)
      = true ->
    process_file E self file force_ocr l w =
      bind (if String.eqb (file_ext file) "pdf"
            then try_except
                   (pdf_fallback_phase E self file (data file)
                      (clock E (ticks w)))
                   (fun _ => ret None)
            else ret None)
           (return_or_basic E self file (file_ext file) (data file)
              (clock E (ticks w)))
        {| cache := cache w; ticks := (5 + ticks w)%nat;
           calls := (2 + calls w)%nat;
           trace := trace w ++
             [EvRoute (routed_force_ocr file force_ocr) true;
              EvEnhanced (routed_force_ocr file force_ocr) l;
              EvResources false;
              EvEnhanced true (Some (lang_or l ["en"]));
              EvResources false] |}).
  { intros Hroute. unfold process_file. rewrite Hroute.
    unfold bind at 1. unfold time_time at 1. cbv beta iota zeta.
    unfold bind at 1. unfold emit at 1. cbv beta iota zeta.
    cbn [cache ticks calls trace].
    apply bind_eq. rewrite insufficient_twice by done.
    cbn [cache ticks calls trace Nat.add]. by rewrite <- app_assoc. }
  split; [|split; [|split; [|split; [|split]]]].
  - intros f lang. by apply enhanced_insufficient.
  - apply orch_process_file.
    + intros l'. by apply no_convert_enhanced.
    + repeat split.
    + by apply no_convert_enhanced.
    + intros decision. reflexivity.
  - by apply insufficient_returns_basic.
  - intros Hroute. exists (lang_or l ["en"]).
    split; [by apply Hretry|].
    split; [intros [-> | ->]; reflexivity | intros x xs ->; reflexivity].
  - intros Hroute. unfold process_file. rewrite Hroute.
    unfold bind at 1. unfold time_time at 1. cbv beta iota zeta.
    unfold bind at 1. unfold emit at 1. cbv beta iota zeta.
    cbn [cache ticks calls trace]. reflexivity.
  - intros Hext. rewrite Hretry.
    + rewrite Hext. reflexivity.
    + unfold should_use_enhanced_processing, routed_force_ocr.
      rewrite He, Hext. by destruct force_ocr.
Qed.

(** *** What reaches the partial-result cache *)

Lemma partial_ok_delete key c : partial_ok c -> partial_ok (delete key c).
Proof.
  intros H file_id v t e Hk. apply lookup_delete_Some in Hk as [_ Hk]. eauto.
Qed.

Lemma partial_ok_insert key r t e c :
  success r = true -> partial_ok c ->
  partial_ok (<[key := (PResult r, t, e)]> c).
Proof.
  intros Hr H file_id v t' e' Hk.
  apply lookup_insert_Some in Hk as [[_ Hk]|[_ Hk]]; [|eauto].
  injection Hk as <- _ _. eauto.
Qed.

(** A call in a world where nothing is cached for the file goes past the
    cache check: it consults the resource monitor. *)
Lemma enhanced_reruns file f l w :
  enhanced_processing_enabled self = true ->
  cache w !! ocr_key file = None ->
  exists b tr,
    trace (snd (process_file_enhanced E self file f l w))
      = trace w ++ EvEnhanced f l :: EvResources b :: tr.
Proof.
  intros He Hc. unfold process_file_enhanced. run.
  rewrite cache_get_absent by done. simpl. rewrite He. simpl.
  exists (check_system_resources self (probe_at E (calls w))).
  destruct (check_system_resources self (probe_at E (calls w))); simpl.
  - destruct (filename file); simpl.
    + unfold cache_set. run.
      destruct (convert E (calls w) f _ (data file)); simpl;
        eexists; rewrite <- !app_assoc; simpl; reflexivity.
    + eexists. rewrite <- !app_assoc. simpl. reflexivity.
  - eexists. rewrite <- !app_assoc. simpl. reflexivity.
Qed.

Lemma docling_result_success file f l md ty dt :
  success (docling_result file f l md ty dt) = true.
Proof. reflexivity. Qed.

(** What one call does after a miss, whatever store [c] the cache check
    left behind. *)
Lemma after_miss_outcome file f l n st (w : World) :
  partial_ok (cache w) ->
  cache w !! ocr_key file = None ->
  let m : M pyval :=
    if negb (enhanced_processing_enabled self) then
      let* t := time_time E in
      ret (PResult (failure "Docling OCR is not available in this environment."
                            (t - st) false))
    else
      let sufficient := check_system_resources self (probe_at E n) in
      emit (EvResources sufficient) ;;
      if negb sufficient then
        let* t := time_time E in
        ret (PResult (failure
          "Insufficient system resources for enhanced processing"
          (t - st) true))
      else
        match filename file with
        | None => raise (AttributeError
                           "'NoneType' object has no attribute 'split'")
        | Some _ =>
            let lang := if lang_truthy l then l else None in
            emit (EvConvert f lang) ;;
            match convert E n f lang (data file) with
            | Converted markdown_content document_type =>
                let* t := time_time E in
                let result := docling_result file f l
                                markdown_content document_type (t - st) in
                cache_set E (ocr_key file) (PResult result) (Some 3600) ;;
                ret (PResult result)
            | EngineRaises e =>
                let* t := time_time E in
                ret (PResult (failure (engine_failure_message e)
                                      (t - st) true))
            end
        end in
  partial_ok (cache (snd (m w))) /\
  (forall r, fst (m w) = Ok (PResult r) -> success r = false ->
             cache (snd (m w)) !! ocr_key file = None).
Proof.
  intros Hok Hk m. subst m. unfold cache_set. run.
  destruct (enhanced_processing_enabled self); simpl; [|by split].
  destruct (check_system_resources self (probe_at E n)); simpl; [|by split].
  destruct (filename file); simpl; [|by split].
  destruct (convert E n f _ (data file)); simpl; [|by split].
  split.
  - by apply partial_ok_insert.
  - intros r [= <-]. done.
Qed.

(** C10: [process_file_enhanced] keeps the partial-result cache free of
    failures. If every result cached under a [partial:...:ocr] key is a
    success before a call, the same holds after it; and when the call
    returns a failed result, nothing is cached for the file afterwards, so
    the next call for it goes past the cache check to the resource check
    and the extraction. *)
Theorem only_successes_cached file f l w :
  partial_ok (cache w) ->
  partial_ok (cache (snd (process_file_enhanced E self file f l w))) /\
  (forall r,
     fst (process_file_enhanced E self file f l w) = Ok (PResult r) ->
     success r = false ->
     cache (snd (process_file_enhanced E self file f l w)) !! ocr_key file
       = None /\
     (enhanced_processing_enabled self = true ->
      forall f' l', exists b tr,
        trace (snd (process_file_enhanced E self file f' l'
                      (snd (process_file_enhanced E self file f l w))))
        = trace (snd (process_file_enhanced E self file f l w))
          ++ EvEnhanced f' l' :: EvResources b :: tr)).
Proof.
  intros Hok.
  cut (exists res w',
         process_file_enhanced E self file f l w = (res, w') /\
         partial_ok (cache w') /\
         (forall r, res = Ok (PResult r) -> success r = false ->
                    cache w' !! ocr_key file = None)).
  { intros (res & w' & -> & H1 & H2). simpl. split; [done|]. intros r Hr Hs.
    split; [by eapply H2|]. intros He f' l'.
    apply enhanced_reruns; [done | by eapply H2]. }
  unfold process_file_enhanced.
  unfold bind at 1. unfold next_call at 1. cbv beta iota zeta.
  unfold bind at 1. unfold emit at 1. cbv beta iota zeta.
  unfold bind at 1. unfold time_time at 1. cbv beta iota zeta.
  cbn [cache ticks calls trace].
  unfold bind at 1. unfold cache_get.
  unfold bind at 1. unfold get_cache at 1. cbv beta iota zeta.
  cbn [cache ticks calls trace].
  destruct (cache w !! ocr_key file) as [[[v cr] [e|]]|] eqn:Hk.
  - destruct (Hok _ _ _ _ Hk) as (r0 & -> & Hr0).
    destruct (e =? 0).
    + unfold ret at 1. simpl. eexists _, _. split; [reflexivity|].
      split; [done|]. intros r [=] ?. subst. congruence.
    + unfold bind at 1, time_time at 1. cbv beta iota zeta.
      cbn [cache ticks calls trace].
      destruct (clock E (S (ticks w)) >? e).
      * unfold bind at 1, put_cache at 1, ret at 1. cbv beta iota zeta.
        cbn [cache ticks calls trace truthy].
        eexists _, _. split; [apply surjective_pairing|].
        match goal with |- context [snd (?m ?w1)] =>
          apply (after_miss_outcome file f l (calls w) (clock E (ticks w)) w1)
        end.
        -- by apply partial_ok_delete.
        -- simpl. apply lookup_delete_eq.
      * unfold ret at 1. simpl. eexists _, _. split; [reflexivity|].
        split; [done|]. intros r [=] ?. subst. congruence.
  - destruct (Hok _ _ _ _ Hk) as (r0 & -> & Hr0).
    unfold ret at 1. simpl. eexists _, _. split; [reflexivity|].
    split; [done|]. intros r [=] ?. subst. congruence.
  - unfold ret at 1. cbv beta iota zeta. cbn [truthy].
    eexists _, _. split; [apply surjective_pairing|].
    match goal with |- context [snd (?m ?w1)] =>
      apply (after_miss_outcome file f l (calls w) (clock E (ticks w)) w1)
    end; done.
Qed.

End ProcessorFacts.

(* ===================================================================== *)
(** ** The processor on concrete hosts *)
(* ===================================================================== *)

Section ProcessorExamples.

Import Processor Examples.

Lemma initial_miss file : cache initial_world !! ocr_key file = None.
Proof. apply lookup_empty. Qed.

Lemma initial_partial_ok : partial_ok (cache initial_world).
Proof. intros file_id v t e H. simpl in H. by rewrite lookup_empty in H. Qed.

Lemma broken_engine_fails n file : engine_fails broken_engine fp n file.
Proof. right. intros f lang. eexists. reflexivity. Qed.

(** C1, as stated, fails: with memory below the floor at every check, an
    image upload is answered with the basic base64 result. *)
Lemma busy_host_downgrades :
  (forall n, check_system_resources fp (probe_at busy_host n) = false) /\
  exists d w',
    process_file busy_host fp scan_png false None initial_world = (Ok d, w') /\
    d_success d = true /\ d_enhanced_processing d = false /\
    (d_metadata d ≫= dict_get "processing_method") = Some (MStr "basic").
Proof.
  split; [intros n; reflexivity|].
  eexists _, _. split; [vm_compute; reflexivity|]. done.
Qed.

(** On an image the basic handlers try the engine once more: three calls
    in all, the third after the switch. *)
Example image_branch_third_attempt :
  enhanced_calls
    (trace (snd (process_file broken_engine fp scan_png false None
                   initial_world)))
  = [(false, None); (true, Some ["en"]); (true, None)].
Proof. vm_compute. reflexivity. Qed.

Lemma resource_exhaustion_witness :
  (forall f lang,
     process_file_enhanced busy_host fp scan_png f lang initial_world =
       (Ok (PResult (failure
              "Insufficient system resources for enhanced processing"
              (clock busy_host (S (ticks initial_world))
               - clock busy_host (ticks initial_world)) true)),
        {| cache := cache initial_world;
           ticks := S (S (ticks initial_world));
           calls := S (calls initial_world);
           trace := trace initial_world
                    ++ [EvEnhanced f lang; EvResources false] |})) /\
  (exists new,
     trace (snd (process_file busy_host fp scan_png false None initial_world))
       = trace initial_world ++ new /\
     forallb no_convert new = true) /\
  (forall d,
     fst (process_file busy_host fp scan_png false None initial_world) = Ok d ->
     d_enhanced_processing d = false) /\
  process_file busy_host fp scan_png false None initial_world =
    return_or_basic busy_host fp scan_png "png" (data scan_png)
      (clock busy_host 0) None
      {| cache := cache initial_world; ticks := 5; calls := 2;
         trace := [EvRoute false true;
                   EvEnhanced false None; EvResources false;
                   EvEnhanced true (Some ["en"]); EvResources false] |}.
Proof.
  destruct (resource_exhaustion busy_host fp scan_png false None initial_world)
    as (Hattempt & Htrace & Hbasic & Hretry & _ & _).
  - reflexivity.
  - apply lookup_empty.
  - intros n. reflexivity.
  - destruct (Hretry eq_refl) as (retry_language & Hrun & Hdefault & _).
    rewrite (Hdefault (or_introl eq_refl)) in Hrun.
    split; [exact Hattempt|]. split; [exact Htrace|]. split; [exact Hbasic|].
    exact Hrun.
Defined.

Lemma retry_bound_witness :
  exists new,
    trace (snd (process_file broken_engine fp scan_png false None initial_world))
      = trace initial_world ++ new /\
    (length (enhanced_calls (before_switch new)) <= 2)%nat /\
    enhanced_calls (before_switch new) = [(false, None); (true, Some ["en"])] /\
    exists sw rest, is_switch sw = true /\ new = before_switch new ++ sw :: rest.
Proof.
  destruct (retry_bound broken_engine fp scan_png false None initial_world)
    as (new & Htrace & Hbound & Hnamed).
  - reflexivity.
  - apply lookup_empty.
  - intros n. right. intros f lang. eexists. reflexivity.
  - destruct (Hnamed ltac:(by eexists))
      as (retry_language & Hcalls & Hdefault & _ & Hswitch).
    rewrite (Hdefault (or_introl eq_refl)) in Hcalls.
    exists new. split; [exact Htrace|]. split; [exact Hbound|].
    split; [exact Hcalls | exact Hswitch].
Defined.

(** C3, as stated, fails: with [force_ocr] set, a [.xyz] upload is handed
    to the enhanced engine and comes back as a success. *)
Lemma forced_unsupported_reaches_engine :
  supported (file_ext file_xyz) = false /\
  exists d w',
    process_file idle_host fp file_xyz true None initial_world = (Ok d, w') /\
    d_success d = true /\
    existsb is_engine (trace w') = true.
Proof.
  split; [reflexivity|].
  eexists _, _. split; [vm_compute; reflexivity|]. done.
Qed.

Lemma unsupported_fails_fast_witness :
  process_file idle_host fp file_xyz false None initial_world =
    (Raise (ValueError ("Unsupported file type: " +:+ file_ext file_xyz)),
     {| cache := cache initial_world; ticks := S (ticks initial_world);
        calls := calls initial_world;
        trace := trace initial_world ++ [EvRoute false false; EvBasicPath] |}).
Proof.
  apply (unsupported_fails_fast idle_host fp file_xyz false None initial_world).
  - reflexivity.
  - left. reflexivity.
Defined.

Lemma scanned_pdf_second_chance_witness :
  exists new,
    trace (snd (process_file broken_engine fp scan_pdf false None initial_world))
      = trace initial_world ++ new /\
    enhanced_calls (after_switch new) = [(true, Some ["eng"])] /\
    (engine_fails broken_engine fp (S (S (calls initial_world))) scan_pdf ->
     exists elapsed err,
       fst (process_file broken_engine fp scan_pdf false None initial_world) =
         Ok (with_docling_error
               (pdf_fallback_dict scan_pdf (data scan_pdf) [""] elapsed)
               (Some err)) /\
       cache (snd (process_file broken_engine fp scan_pdf false None
                     initial_world)) = cache initial_world).
Proof.
  apply (scanned_pdf_second_chance broken_engine fp scan_pdf false None
           initial_world [""]).
  - reflexivity.
  - reflexivity.
  - apply lookup_empty.
  - right. intros f lang. eexists. reflexivity.
  - right. intros f lang. eexists. reflexivity.
  - reflexivity.
  - reflexivity.
Defined.

Lemma pdf_forces_ocr_witness :
  exists decision tr,
    trace (snd (process_file idle_host fp scan_pdf false None initial_world))
      = trace initial_world ++ EvRoute true decision :: tr /\
    forallb forced tr = true.
Proof.
  apply (pdf_forces_ocr idle_host fp scan_pdf false None initial_world).
  reflexivity.
Defined.

Lemma only_successes_cached_witness :
  partial_ok (cache (snd (process_file_enhanced broken_engine fp scan_pdf
                            false None initial_world))) /\
  (forall r,
     fst (process_file_enhanced broken_engine fp scan_pdf false None
            initial_world) = Ok (PResult r) ->
     success r = false ->
     cache (snd (process_file_enhanced broken_engine fp scan_pdf false None
                   initial_world)) !! ocr_key scan_pdf = None /\
     (enhanced_processing_enabled fp = true ->
      forall f' l', exists b tr,
        trace (snd (process_file_enhanced broken_engine fp scan_pdf f' l'
                      (snd (process_file_enhanced broken_engine fp scan_pdf
                              false None initial_world))))
        = trace (snd (process_file_enhanced broken_engine fp scan_pdf
                        false None initial_world))
          ++ EvEnhanced f' l' :: EvResources b :: tr)).
Proof.
  apply (only_successes_cached broken_engine fp scan_pdf false None
           initial_world).
  intros file_id v t e H. simpl in H. by rewrite lookup_empty in H.
Defined.

End ProcessorExamples.

(* ===================================================================== *)
(** ** Properties of the query fingerprint and the context builder *)
(* ===================================================================== *)

Section StringFacts.

Import Py.

Lemma lower_char_space c : is_space (lower_char c) = is_space c.
Proof.
  destruct c as [[] [] [] [] [] [] [] []]; reflexivity.
Qed.

Lemma same_case_space c1 c2 :
  Ascii.eqb (lower_char c1) (lower_char c2) = true ->
  is_space c1 = is_space c2.
Proof.
  intros H. apply Ascii.eqb_eq in H.
  by rewrite <- (lower_char_space c1), H, lower_char_space.
Qed.

Lemma same_case_lower s1 s2 :
  same_ignoring_case s1 s2 = true -> lower s1 = lower s2.
Proof.
  revert s2. induction s1 as [|c1 s1 IH]; intros [|c2 s2] H; simpl in *;
    try done.
  apply andb_true_iff in H as [Hc H]. apply Ascii.eqb_eq in Hc.
  by rewrite Hc, (IH s2 H).
Qed.

Lemma same_case_lstrip s1 s2 :
  same_ignoring_case s1 s2 = true ->
  same_ignoring_case (lstrip s1) (lstrip s2) = true.
Proof.
  revert s2. induction s1 as [|c1 s1 IH]; intros [|c2 s2] H; simpl in *;
    try done.
  apply andb_true_iff in H as [Hc H].
  rewrite (same_case_space _ _ Hc). destruct (is_space c2); [by apply IH|].
  simpl. by rewrite Hc, H.
Qed.

Lemma same_case_empty s1 s2 :
  same_ignoring_case s1 s2 = true -> is_empty s1 = is_empty s2.
Proof. destruct s1, s2; simpl; try done. Qed.

Lemma same_case_rstrip s1 s2 :
  same_ignoring_case s1 s2 = true ->
  same_ignoring_case (rstrip s1) (rstrip s2) = true.
Proof.
  revert s2. induction s1 as [|c1 s1 IH]; intros [|c2 s2] H; simpl in *;
    try done.
  apply andb_true_iff in H as [Hc H]. specialize (IH s2 H).
  rewrite (same_case_space _ _ Hc), (same_case_empty _ _ IH).
  destruct (is_space c2 && is_empty (rstrip s2)); [done|].
  simpl. by rewrite Hc, IH.
Qed.

Lemma lstrip_all_space s : all_space s = true -> lstrip s = "".
Proof.
  induction s as [|c s IH]; simpl; [done|]. intros H.
  apply andb_true_iff in H as [-> H]. auto.
Qed.

Lemma rstrip_all_space s : all_space s = true -> rstrip s = "".
Proof.
  induction s as [|c s IH]; simpl; [done|]. intros H.
  apply andb_true_iff in H as [-> H]. by rewrite IH.
Qed.

Lemma lstrip_pad pre s : all_space pre = true -> lstrip (pre +:+ s) = lstrip s.
Proof.
  induction pre as [|c pre IH]; simpl; [done|]. intros H.
  apply andb_true_iff in H as [-> H]. auto.
Qed.

Lemma rstrip_pad s post : all_space post = true -> rstrip (s +:+ post) = rstrip s.
Proof.
  intros H. induction s as [|c s IH]; simpl.
  - by apply rstrip_all_space.
  - by rewrite IH.
Qed.

Lemma lstrip_app s t :
  lstrip (s +:+ t) = if all_space s then lstrip t else lstrip s +:+ t.
Proof.
  induction s as [|c s IH]; simpl; [done|].
  destruct (is_space c); simpl; [apply IH | done].
Qed.

(** Whitespace around a query does not reach the normalized text. *)
Lemma strip_pad pre q post :
  all_space pre = true -> all_space post = true ->
  strip (pre +:+ q +:+ post) = strip q.
Proof.
  intros Hpre Hpost. unfold strip. rewrite lstrip_pad by done.
  rewrite lstrip_app. destruct (all_space q) eqn:Hq.
  - by rewrite (lstrip_all_space post), (lstrip_all_space q).
  - by apply rstrip_pad.
Qed.

End StringFacts.

Section ChatFacts.

Import Processor Chat.
Local Open Scope py_scope.

Context (E : Env) (C : ChatEnv).

(** C8, as stated, fails: the same words with one more blank between them
    get a different fingerprint. *)
Lemma inner_whitespace_changes_fingerprint :
  spec_same_query "a b" "a  b" = true /\
  query_fingerprint "a b" <> query_fingerprint "a  b".
Proof.
  split; [reflexivity|]. vm_compute. discriminate.
Qed.

Lemma fingerprint_normalized pre1 q1 post1 pre2 q2 post2 :
  Py.all_space pre1 = true -> Py.all_space post1 = true ->
  Py.all_space pre2 = true -> Py.all_space post2 = true ->
  Py.same_ignoring_case q1 q2 = true ->
  query_fingerprint (pre1 +:+ q1 +:+ post1)
  = query_fingerprint (pre2 +:+ q2 +:+ post2).
Proof.
  intros H1 H1' H2 H2' Hq. unfold query_fingerprint.
  rewrite !strip_pad by done. unfold Py.strip.
  by rewrite (same_case_lower _ _
                (same_case_rstrip _ _ (same_case_lstrip _ _ Hq))).
Qed.

(** The context builder changes neither the cache nor the clock, and
    never raises. *)
Lemma build_context_pure file_name content w :
  exists c tr,
    build_context C file_name content w =
      (Ok c, {| cache := cache w; ticks := ticks w; calls := calls w;
                trace := trace w ++ tr |}).
Proof.
  destruct w as [c0 n0 k0 tr0].
  assert (exists r tr,
    reduce_content C content
      {| cache := c0; ticks := n0; calls := k0; trace := tr0 |} =
    (Ok r, {| cache := c0; ticks := n0; calls := k0; trace := tr0 ++ tr |}))
    as (r & tr & Hr).
  { unfold reduce_content, bind, ret, emit.
    destruct (max_context_chars <? Py.len content)%nat.
    - destruct (summarize_text C (Py.take 8000 content) 400) as [s|];
        [destruct (negb (Py.is_empty s) && negb (Py.startswith s "[SUMMARY ERROR"))|];
        eexists _, _; reflexivity.
    - eexists _, []. by rewrite app_nil_r. }
  unfold build_context, bind. rewrite Hr. destruct r as [[text sm] trn].
  destruct sm; [|destruct trn]; eexists _, _; reflexivity.
Qed.

(** The first time a question is asked and the reasoning layer answers
    [r], the answer is stored for ten minutes under the question's key. *)
Lemma send_message_miss chat_id msg r w :
  cache w !! Cache.QueryCache.make_key chat_id (query_fingerprint msg) = None ->
  (forall ctx, reasoning C msg ctx = Ok (Some r)) ->
  exists tr,
    send_message E C chat_id msg w =
      (Ok {| message := PStr r; from_cache := false |},
       {| cache := <[Cache.QueryCache.make_key chat_id (query_fingerprint msg)
                     := (PStr r, clock E (S (ticks w)),
                         Some (Float.add (clock E (ticks w)) 600))]>
                      (cache w);
          ticks := S (S (ticks w)); calls := calls w;
          trace := trace w ++ tr |}).
Proof.
  intros Hmiss Hr. unfold send_message, try_except, query_cache_get.
  unfold bind at 1. rewrite cache_get_absent by done.
  cbv beta iota zeta. cbn [truthy].
  assert (exists ctx tr,
    (match latest_file_data C chat_id with
     | Some (file_name, file_content_str) =>
         let* c := build_context C file_name file_content_str in ret (Some c)
     | None => ret None
     end) w
    = (Ok ctx, {| cache := cache w; ticks := ticks w; calls := calls w;
                  trace := trace w ++ tr |})) as (ctx & tr & Hctx).
  { destruct (latest_file_data C chat_id) as [[fn fc]|].
    - destruct (build_context_pure fn fc w) as (c & tr & Hc).
      unfold bind. rewrite Hc. eexists _, _. reflexivity.
    - unfold ret. eexists _, []. rewrite app_nil_r. by destruct w. }
  unfold bind at 1. rewrite Hctx. cbv beta iota zeta.
  unfold bind at 1, emit at 1. cbv beta iota zeta. rewrite Hr.
  unfold query_cache_set, cache_set, Cache.set.
  unfold bind, time_time, get_cache, put_cache, ret. simpl.
  eexists. rewrite <- app_assoc. reflexivity.
Qed.

(** C8 (amended): two questions that differ only in letter case and in
    leading or trailing whitespace have the same fingerprint, hence the
    same answer-cache key; when the first one was answered (with a
    non-empty answer) and stored, asking the second before the ten
    minutes are over returns the stored answer from the cache, without a
    call to the reasoning layer. *)
Theorem repeated_question_hits_cache pre1 q1 post1 pre2 q2 post2 :
  Py.all_space pre1 = true -> Py.all_space post1 = true ->
  Py.all_space pre2 = true -> Py.all_space post2 = true ->
  Py.same_ignoring_case q1 q2 = true ->
  query_fingerprint (pre1 +:+ q1 +:+ post1)
    = query_fingerprint (pre2 +:+ q2 +:+ post2) /\
  (forall chat_id r w,
     cache w !! Cache.QueryCache.make_key chat_id
                  (query_fingerprint (pre1 +:+ q1 +:+ post1)) = None ->
     (forall ctx, reasoning C (pre1 +:+ q1 +:+ post1) ctx = Ok (Some r)) ->
     r <> "" ->
     0 <= clock E (ticks w) ->
     clock E (S (S (ticks w))) <= clock E (ticks w) + 600 ->
     exists w1 w2,
       send_message E C chat_id (pre1 +:+ q1 +:+ post1) w
         = (Ok {| message := PStr r; from_cache := false |}, w1) /\
       send_message E C chat_id (pre2 +:+ q2 +:+ post2) w1
         = (Ok {| message := PStr r; from_cache := true |}, w2) /\
       trace w2 = trace w1).
Proof.
  intros H1 H1' H2 H2' Hq.
  pose proof (fingerprint_normalized _ _ _ _ _ _ H1 H1' H2 H2' Hq) as Hfp.
  split; [done|]. intros chat_id r w Hmiss Hr Hne Hclock Hwindow.
  destruct (send_message_miss chat_id _ r w Hmiss Hr) as (tr & Hfirst).
  eexists _, _. split; [exact Hfirst|].
  unfold send_message, try_except, query_cache_get. rewrite <- Hfp.
  unfold bind at 1, cache_get. unfold bind at 1, get_cache at 1.
  cbv beta iota zeta. cbn [cache ticks calls trace].
  rewrite lookup_insert_eq.
  destruct (Z.eqb_spec (Float.add (clock E (ticks w)) 600) 0) as [Hz|_].
  { apply float_add_zero_iff in Hz. lia. }
  unfold bind at 1, time_time at 1. cbv beta iota zeta.
  cbn [cache ticks calls trace].
  pose proof (float_le_add _ _ _ (clock_representable E (S (S (ticks w))))
                Hwindow) as Hfresh.
  destruct (Z.gtb_spec (clock E (S (S (ticks w))))
              (Float.add (clock E (ticks w)) 600)); [lia|].
  unfold ret at 1. cbv beta iota zeta. cbn [truthy].
  destruct r as [|c r]; [done|]. cbn [Py.is_empty negb]. unfold ret.
  split; reflexivity.
Qed.

(** The truncation branch of the context builder is taken when the
    summarizer hands back nothing: a response without content, or an
    empty one. *)
Lemma empty_summary_truncates file_name content w :
  (max_context_chars < Py.len content)%nat ->
  (forall messages max_tokens,
     llm_create C messages max_tokens = LlmContent None \/
     llm_create C messages max_tokens = LlmContent (Some "")) ->
  exists w',
    build_context C file_name content w =
      (Ok (context_block file_name (Py.take max_context_chars content)
           +:+ truncated_note), w').
Proof.
  intros Hlen Hllm. unfold build_context, reduce_content.
  apply Nat.ltb_lt in Hlen. rewrite Hlen.
  unfold bind, emit, ret. cbv beta iota zeta.
  unfold summarize_text, chat_completion.
  match goal with |- context [llm_create C ?ms ?mt] =>
    destruct (Hllm ms mt) as [-> | ->] end; eexists; reflexivity.
Qed.

(** C9 at the failing input: when the completion client raises,
    [chat_completion] has already turned the exception into an apology,
    [summarize_text] hands it on without the error mark, and the context
    builder frames the apology as a summary of the file. *)
Theorem summarizer_error_passes_as_summary file_name content msg w :
  (max_context_chars < Py.len content)%nat ->
  (forall messages max_tokens, llm_create C messages max_tokens = LlmRaises msg) ->
  exists apology w',
    summarize_text C (Py.take 8000 content) 400 = Some apology /\
    Py.startswith apology "[SUMMARY ERROR" = false /\
    Py.startswith apology "I " = true /\
    build_context C file_name content w =
      (Ok (context_block file_name apology +:+ summarized_note), w').
Proof.
  intros Hlen Hllm.
  assert (exists apology,
            summarize_text C (Py.take 8000 content) 400 = Some apology /\
            Py.startswith apology "[SUMMARY ERROR" = false /\
            Py.startswith apology "I " = true) as (apology & Hs & Hmark & HI).
  { unfold summarize_text, chat_completion. rewrite Hllm.
    destruct (Py.contains "insufficient_quota" msg || Py.contains "429" msg).
    - unfold generate_fallback_response. cbn [List.rev List.find fst snd app].
      cbn [String.eqb Ascii.eqb Bool.eqb]. cbn [snd].
      match goal with |- context [Py.is_empty ?p] =>
        change (Py.is_empty p) with false end.
      cbv iota.
      match goal with |- context [existsb ?f ?ks] => destruct (existsb f ks) end;
        (eexists; split; [reflexivity | split; reflexivity]).
    - eexists. split; [reflexivity | split; reflexivity]. }
  exists apology. eexists. split; [done|]. split; [done|]. split; [done|].
  unfold build_context, reduce_content.
  apply Nat.ltb_lt in Hlen. rewrite Hlen.
  unfold bind, emit, ret. cbv beta iota zeta. rewrite Hs.
  assert (Py.is_empty apology = false) as ->.
  { destruct apology; [discriminate | done]. }
  rewrite Hmark. cbn [negb andb]. reflexivity.
Qed.

End ChatFacts.

Lemma repeated_question_hits_cache_witness :
  exists w1 w2,
    Chat.send_message Examples.idle_host Chat.offline "c1"
      ("  " +:+ "What is X?" +:+ " ") Processor.initial_world
      = (Processor.Ok {| Chat.message := PStr "42"; Chat.from_cache := false |},
         w1) /\
    Chat.send_message Examples.idle_host Chat.offline "c1"
      ("" +:+ "what IS x?" +:+ "") w1
      = (Processor.Ok {| Chat.message := PStr "42"; Chat.from_cache := true |},
         w2) /\
    Processor.trace w2 = Processor.trace w1.
Proof.
  apply (proj2 (repeated_question_hits_cache Examples.idle_host Chat.offline
                  "  " "What is X?" " " "" "what IS x?" ""
                  eq_refl eq_refl eq_refl eq_refl eq_refl)
               "c1" "42" Processor.initial_world).
  - apply lookup_empty.
  - intros ctx. reflexivity.
  - discriminate.
  - vm_compute. discriminate.
  - vm_compute. discriminate.
Defined.

Lemma summarizer_error_passes_as_summary_witness :
  exists apology w',
    Chat.summarize_text Chat.offline (Py.take 8000 Chat.long_document) 400
      = Some apology /\
    Py.startswith apology "[SUMMARY ERROR" = false /\
    Py.startswith apology "I " = true /\
    Chat.build_context Chat.offline "report.pdf" Chat.long_document
      Processor.initial_world =
      (Processor.Ok (Chat.context_block "report.pdf" apology
                     +:+ Chat.summarized_note), w').
Proof.
  apply (summarizer_error_passes_as_summary Chat.offline "report.pdf"
           Chat.long_document "Connection error." Processor.initial_world).
  - vm_compute. lia.
  - intros messages max_tokens. reflexivity.
Defined.

(* ===================================================================== *)
(** ** More properties of the cache *)
(* ===================================================================== *)

Section CacheLifetime.

Import Cache.

(** X1: An entry stored without a time to live ([ttl] of [None] or [0]) is
    returned by every later read, whatever the clock says, and no read
    removes it. *)
Theorem entry_without_ttl_never_expires (k : string) (v : pyval)
    (t0 t0' t : Z) (c : store) :
  get t k (set t0 t0' k v None c) = (v, set t0 t0' k v None c) /\
  get t k (set t0 t0' k v (Some 0) c) = (v, set t0 t0' k v (Some 0) c).
Proof.
  split; unfold get, set; simpl; rewrite lookup_insert_eq; reflexivity.
Qed.

(** X2: A read changes the store only when it finds its entry expired, that
    is, stored with a deadline other than 0 that the clock has passed:
    then it removes exactly that key and returns [None].  In every other
    case (no entry, no deadline, a deadline of 0, a clock not past the
    deadline) the store stays as it is.  Entries under other keys are
    never touched by a read, expired or not. *)
Theorem get_touches_only_its_key (t : Z) (k : string) (c : store) :
  (forall v cr e, c !! k = Some (v, cr, Some e) -> e <> 0 -> e < t ->
     get t k c = (PNone, delete k c)) /\
  (forall v cr e, c !! k = Some (v, cr, e) ->
     (e = None \/ e = Some 0 \/ exists d, e = Some d /\ t <= d) ->
     get t k c = (v, c)) /\
  (c !! k = None -> get t k c = (PNone, c)) /\
  (snd (get t k c) <> c ->
     exists v cr e, c !! k = Some (v, cr, Some e) /\ e <> 0 /\ e < t) /\
  (forall k', k' <> k -> snd (get t k c) !! k' = c !! k').
Proof.
  unfold get. split; [|split; [|split; [|split]]].
  - intros v cr e -> He Ht. unfold expired.
    destruct (Z.eqb_spec e 0); [done|].
    destruct (Z.gtb_spec t e); [done|lia].
  - intros v cr e -> [-> | [-> | (d & -> & Hd)]]; [done|done|].
    unfold expired. destruct (Z.gtb_spec t d); [lia|].
    by rewrite andb_false_r.
  - by intros ->.
  - destruct (c !! k) as [[[v cr] [e|]]|] eqn:Hk; [|done|done].
    unfold expired. destruct (Z.eqb_spec e 0); [done|].
    destruct (Z.gtb_spec t e); [|done].
    intros _. exists v, cr, e. split; [done|]. split; [done|lia].
  - intros k' Hne. destruct (c !! k) as [[[v cr] e]|] eqn:Hk; [|done].
    destruct (expired e t); [|done]. by apply lookup_delete_ne.
Qed.



Lemma invalidate_lookup (k k' : string) (c : store) :
  invalidate k c !! k' = if decide (k' = k) then None else c !! k'.
Proof.
  unfold invalidate. destruct (c !! k) eqn:Hk.
  - destruct (decide (k' = k)) as [->|Hne].
    + apply lookup_delete_eq.
    + by apply lookup_delete_ne.
  - destruct (decide (k' = k)) as [->|Hne]; done.
Qed.

(** [invalidate] removes its key and nothing else: the key reads as
    absent afterwards, the other keys read as before, and invalidating
    twice is invalidating once (a missing key is no error). *)
Lemma invalidate_removes_exactly (t : Z) (k : string) (c : store) :
  get t k (invalidate k c) = (PNone, invalidate k c) /\
  (forall k', k' <> k -> get t k' (invalidate k c)
                         = (fst (get t k' c), invalidate k (snd (get t k' c)))) /\
  invalidate k (invalidate k c) = invalidate k c.
Proof.
  split; [|split].
  - unfold get. rewrite invalidate_lookup. by destruct (decide (k = k)).
  - intros k' Hne. unfold get. rewrite invalidate_lookup.
    destruct (decide (k' = k)); [done|].
    destruct (c !! k') as [[[v cr] e]|] eqn:Hk; [|done].
    destruct (expired e t); simpl; [|done].
    f_equal. apply map_eq. intros i.
    rewrite invalidate_lookup.
    destruct (decide (i = k')) as [->|Hi].
    + rewrite !lookup_delete_eq. by destruct (decide (k' = k)).
    + rewrite !lookup_delete_ne by done. rewrite invalidate_lookup. done.
  - apply map_eq. intros i. rewrite !invalidate_lookup.
    by destruct (decide (i = k)).
Qed.

(** X4: The adaptive time to live lies between 300 and 1200 seconds; it
    never grows when the document gets more volatile and never shrinks
    when the query gets more frequent. *)
Theorem adaptive_ttl_monotone (v v' f f' : Q) :
  (300 <= get_adaptive_ttl v f /\ get_adaptive_ttl v f <= 1200)%Q /\
  ((v <= v')%Q -> (get_adaptive_ttl v' f <= get_adaptive_ttl v f)%Q) /\
  ((f <= f')%Q -> (get_adaptive_ttl v f <= get_adaptive_ttl v f')%Q).
Proof.
  assert (Hb : forall x y, Qle_bool x y = false -> (y < x)%Q).
  { intros x y H. apply Qnot_le_lt. intros Hle.
    apply Qle_bool_iff in Hle. congruence. }
  unfold get_adaptive_ttl.
  destruct (Qle_bool v (1 # 2)) eqn:Hv, (Qle_bool f 10) eqn:Hf,
           (Qle_bool v' (1 # 2)) eqn:Hv', (Qle_bool f' 10) eqn:Hf'; simpl;
    repeat match goal with
    | H : Qle_bool _ _ = true |- _ => apply Qle_bool_iff in H
    | H : Qle_bool _ _ = false |- _ => apply Hb in H
    end;
    (split; [split; vm_compute; congruence|]); split; intros Hle;
    first [ vm_compute; congruence | exfalso; lra ].
Qed.

End CacheLifetime.

(* ===================================================================== *)
(** ** Properties of the cache invalidation of an upload *)
(* ===================================================================== *)

Section InvalidationFacts.

Import Processor Cache Files.

Lemma invalidate_loop (pattern : string) (l : list string) (c : store)
    (k : string) :
  fold_left
    (fun acc key =>
       if Py.contains pattern key then invalidate key acc else acc) l c !! k
  = if Py.contains pattern k && bool_decide (k ∈ l) then None else c !! k.
Proof.
  revert c. induction l as [|a l IH]; intros c; simpl.
  - by rewrite andb_false_r.
  - rewrite IH. destruct (Py.contains pattern k) eqn:Hk; simpl.
    + destruct (decide (k = a)) as [->|Hne].
      * rewrite Hk, invalidate_lookup.
        destruct (decide (a = a)); [|done].
        rewrite (bool_decide_eq_true_2 (a ∈ a :: l)) by left.
        by destruct (bool_decide (a ∈ l)).
      * assert (Hin : bool_decide (k ∈ a :: l) = bool_decide (k ∈ l)).
        { apply bool_decide_ext. rewrite elem_of_cons. tauto. }
        rewrite Hin. destruct (bool_decide (k ∈ l)); [done|].
        destruct (Py.contains pattern a); [|done].
        rewrite invalidate_lookup. by destruct (decide (k = a)).
    + destruct (Py.contains pattern a) eqn:Ha; [|done].
      rewrite invalidate_lookup. destruct (decide (k = a)) as [->|]; [|done].
      congruence.
Qed.

(** X5: One invalidation loop of [upload_file] removes the entries whose key
    contains the pattern, and leaves every other entry as it was. *)
Theorem invalidate_matching_lookup (pattern k : string) (c : store) :
  invalidate_matching pattern c !! k
  = if Py.contains pattern k then None else c !! k.
Proof.
  unfold invalidate_matching. rewrite invalidate_loop.
  destruct (Py.contains pattern k); simpl; [|done].
  destruct (bool_decide (k ∈ keys c)) eqn:Hin; [done|].
  apply bool_decide_eq_false in Hin.
  destruct (c !! k) as [e|] eqn:He; [|done]. exfalso. apply Hin.
  unfold keys. apply list_elem_of_fmap. exists (k, e). split; [done|].
  by apply elem_of_map_to_list.
Qed.

Lemma append_nil (s : string) : "" +:+ s = s.
Proof. reflexivity. Qed.

Lemma append_cons (a : ascii) (p s : string) :
  String a p +:+ s = String a (p +:+ s).
Proof. reflexivity. Qed.

Lemma prefix_refl_app (p s : string) : String.prefix p (p +:+ s) = true.
Proof.
  induction p as [|a p IH]; [by destruct s|].
  rewrite append_cons. simpl. by destruct (ascii_dec a a).
Qed.

Lemma contains_prefix (p s : string) :
  String.prefix p s = true -> Py.contains p s = true.
Proof. intros H. destruct s; cbn [Py.contains]; by rewrite H. Qed.

Lemma append_assoc (a b c : string) : (a +:+ b) +:+ c = a +:+ (b +:+ c).
Proof.
  induction a; [done|]. rewrite !append_cons. congruence.
Qed.

Lemma contains_faq_key chat h :
  Py.contains (faq_pattern chat) (QueryCache.make_key chat h) = true.
Proof.
  apply contains_prefix. unfold faq_pattern, QueryCache.make_key.
  rewrite <- !append_assoc. apply prefix_refl_app.
Qed.

Lemma contains_partial_key name rt :
  Py.contains (partial_pattern name)
              (PartialResultCache.make_key (fmt name) rt) = true.
Proof.
  apply contains_prefix. unfold partial_pattern, PartialResultCache.make_key.
  rewrite <- !append_assoc. apply prefix_refl_app.
Qed.

Lemma invalidate_for_upload_lookup chat name k c :
  invalidate_for_upload chat name c !! k
  = if Py.contains (faq_pattern chat) k || Py.contains (partial_pattern name) k
    then None else c !! k.
Proof.
  unfold invalidate_for_upload. rewrite !invalidate_matching_lookup.
  destruct (Py.contains (partial_pattern name) k); [by rewrite orb_true_r|].
  by rewrite orb_false_r.
Qed.

(** X6: After the invalidation that closes an upload, the cache holds no
    answer for the chat and no extraction result for the file name,
    whatever the query hash or the result type; and what is left under
    the [partial:...:ocr] keys is still made of successful results. *)
Theorem upload_invalidation_clears chat name c :
  (forall h, invalidate_for_upload chat name c !! QueryCache.make_key chat h
             = None) /\
  (forall rt, invalidate_for_upload chat name c
                !! PartialResultCache.make_key (fmt name) rt = None) /\
  (partial_ok c -> partial_ok (invalidate_for_upload chat name c)).
Proof.
  split; [|split].
  - intros h. rewrite invalidate_for_upload_lookup.
    by rewrite contains_faq_key.
  - intros rt. rewrite invalidate_for_upload_lookup.
    by rewrite contains_partial_key, orb_true_r.
  - intros Hok file_id v t e. rewrite invalidate_for_upload_lookup.
    destruct (_ || _); [done|]. apply Hok.
Qed.

(** *** Invalidation is exact for colon-free names *)

Lemma colons_app (a b : string) :
  colons (a +:+ b) = (colons a + colons b)%nat.
Proof.
  induction a as [|x a IH]; [done|].
  rewrite append_cons. simpl. rewrite IH. lia.
Qed.

Lemma colon_free_colons (s : string) :
  colon_free s = true -> colons s = 0%nat.
Proof.
  induction s as [|x s IH]; simpl; [done|].
  destruct (Ascii.eqb x ":"); simpl; [done|]. exact IH.
Qed.

Lemma prefix_colons (p s : string) :
  String.prefix p s = true -> (colons p <= colons s)%nat.
Proof.
  revert s. induction p as [|a p IH]; intros s H; simpl; [lia|].
  destruct s as [|b s]; simpl in H; [done|].
  destruct (ascii_dec a b) as [->|]; [|done].
  apply IH in H. simpl. lia.
Qed.

Lemma contains_colons (p s : string) :
  Py.contains p s = true -> (colons p <= colons s)%nat.
Proof.
  induction s as [|b s IH]; cbn [Py.contains]; intros H.
  - rewrite orb_false_r in H. by apply prefix_colons in H.
  - apply orb_true_iff in H as [H|H].
    + by apply prefix_colons in H.
    + apply IH in H. cbn [colons]. lia.
Qed.

(** A pattern with two colons is not found in a string with one. *)
Lemma pattern_not_in_tail (pre x y z : string) :
  (1 <= colons pre)%nat ->
  colon_free y = true -> colon_free z = true ->
  Py.contains (pre +:+ x +:+ ":") (y +:+ ":" +:+ z) = false.
Proof.
  intros Hpre Hy Hz. apply not_true_is_false. intros H.
  apply contains_colons in H. rewrite !colons_app in H. simpl in H.
  rewrite (colon_free_colons y), (colon_free_colons z) in H by done. lia.
Qed.

Lemma prefix_colon_inj (x y z : string) :
  colon_free y = true -> colon_free z = true ->
  String.prefix (x +:+ ":") (y +:+ ":" +:+ z) = true -> x = y.
Proof.
  revert y. induction x as [|a x IH]; intros y Hy Hz H.
  - destruct y as [|b y]; [done|].
    rewrite append_nil, append_cons in H. cbn [String.prefix] in H.
    simpl in Hy.
    destruct (ascii_dec ":" b) as [<-|]; done.
  - destruct y as [|b y];
      repeat (rewrite append_nil in H || rewrite append_cons in H);
      cbn [String.prefix] in H.
    + destruct (ascii_dec a ":") as [->|]; [|done].
      apply prefix_colons in H. rewrite colons_app in H. simpl in H.
      rewrite (colon_free_colons z) in H by done. lia.
    + destruct (ascii_dec a b) as [->|]; [|done]. simpl in Hy.
      apply andb_true_iff in Hy as [_ Hy]. f_equal. by apply IH.
Qed.

Lemma faq_pattern_exact chat chat' h :
  colon_free chat' = true -> colon_free h = true ->
  Py.contains (faq_pattern chat) (QueryCache.make_key chat' h) = true ->
  chat = chat'.
Proof.
  intros Hc Hh. unfold faq_pattern, QueryCache.make_key.
  change ("faq:" +:+ chat' +:+ ":" +:+ h)
    with (String "f" (String "a" (String "q" (String ":"
            (chat' +:+ ":" +:+ h))))).
  change ("faq:" +:+ chat +:+ ":")
    with (String "f" (String "a" (String "q" (String ":" (chat +:+ ":"))))).
  simpl.
  intros H. apply orb_true_iff in H as [H|H].
  - by apply prefix_colon_inj in H.
  - exfalso.
    change (String "f" (String "a" (String "q" (String ":" (chat +:+ ":")))))
      with ("faq:" +:+ chat +:+ ":") in H.
    rewrite pattern_not_in_tail in H; [done| simpl; lia | done | done].
Qed.

Lemma faq_pattern_not_partial chat f rt :
  colon_free f = true -> colon_free rt = true ->
  Py.contains (faq_pattern chat) (PartialResultCache.make_key f rt) = false.
Proof.
  intros Hc Hh. unfold faq_pattern, PartialResultCache.make_key.
  change ("partial:" +:+ f +:+ ":" +:+ rt)
    with (String "p" (String "a" (String "r" (String "t" (String "i"
           (String "a" (String "l" (String ":" (f +:+ ":" +:+ rt))))))))).
  change ("faq:" +:+ chat +:+ ":")
    with (String "f" (String "a" (String "q" (String ":" (chat +:+ ":"))))).
  simpl.
  change (String "f" (String "a" (String "q" (String ":" (chat +:+ ":")))))
    with ("faq:" +:+ chat +:+ ":").
  apply pattern_not_in_tail; [simpl; lia | done | done].
Qed.

Lemma partial_pattern_exact name f rt :
  colon_free f = true -> colon_free rt = true ->
  Py.contains (partial_pattern name) (PartialResultCache.make_key f rt) = true ->
  fmt name = f.
Proof.
  intros Hc Hh. unfold partial_pattern, PartialResultCache.make_key.
  change ("partial:" +:+ f +:+ ":" +:+ rt)
    with (String "p" (String "a" (String "r" (String "t" (String "i"
           (String "a" (String "l" (String ":" (f +:+ ":" +:+ rt))))))))).
  change ("partial:" +:+ fmt name +:+ ":")
    with (String "p" (String "a" (String "r" (String "t" (String "i"
           (String "a" (String "l" (String ":" (fmt name +:+ ":"))))))))).
  simpl.
  intros H. apply orb_true_iff in H as [H|H].
  - by apply prefix_colon_inj in H.
  - exfalso.
    change (String "p" (String "a" (String "r" (String "t" (String "i"
           (String "a" (String "l" (String ":" (fmt name +:+ ":")))))))))
      with ("partial:" +:+ fmt name +:+ ":") in H.
    rewrite pattern_not_in_tail in H; [done| simpl; lia | done | done].
Qed.

Lemma partial_pattern_not_faq name chat h :
  colon_free chat = true -> colon_free h = true ->
  Py.contains (partial_pattern name) (QueryCache.make_key chat h) = false.
Proof.
  intros Hc Hh. unfold partial_pattern, QueryCache.make_key.
  change ("faq:" +:+ chat +:+ ":" +:+ h)
    with (String "f" (String "a" (String "q" (String ":"
            (chat +:+ ":" +:+ h))))).
  change ("partial:" +:+ fmt name +:+ ":")
    with (String "p" (String "a" (String "r" (String "t" (String "i"
           (String "a" (String "l" (String ":" (fmt name +:+ ":"))))))))).
  simpl.
  change (String "p" (String "a" (String "r" (String "t" (String "i"
           (String "a" (String "l" (String ":" (fmt name +:+ ":")))))))))
      with ("partial:" +:+ fmt name +:+ ":").
  apply pattern_not_in_tail; [simpl; lia | done | done].
Qed.

(** X7: Entries with colon-free names are hit by their own upload only: the
    invalidation for chat [chat] and file [name] leaves in place the
    answers of every other chat and the extraction results of every other
    file, when the chat identifier, the query hash, the file name and the
    result type of the entry contain no colon. *)
Theorem upload_invalidation_is_scoped chat name c :
  (forall chat' h,
     colon_free chat' = true -> colon_free h = true -> chat' <> chat ->
     invalidate_for_upload chat name c !! QueryCache.make_key chat' h
     = c !! QueryCache.make_key chat' h) /\
  (forall f rt,
     colon_free f = true -> colon_free rt = true -> f <> fmt name ->
     invalidate_for_upload chat name c !! PartialResultCache.make_key f rt
     = c !! PartialResultCache.make_key f rt).
Proof.
  split.
  - intros chat' h Hc Hh Hne. rewrite invalidate_for_upload_lookup.
    rewrite partial_pattern_not_faq by done. rewrite orb_false_r.
    destruct (Py.contains (faq_pattern chat) _) eqn:H; [|done].
    apply faq_pattern_exact in H; congruence.
  - intros f rt Hf Hrt Hne. rewrite invalidate_for_upload_lookup.
    rewrite faq_pattern_not_partial by done. cbn [orb].
    destruct (Py.contains (partial_pattern name) _) eqn:H; [|done].
    apply partial_pattern_exact in H; congruence.
Qed.

End InvalidationFacts.

(* ===================================================================== *)
(** ** Properties of the pipeline as a whole *)
(* ===================================================================== *)

Section PipelineFacts.

Import Processor.
Local Open Scope py_scope.

Context (E : Env) (self : FileProcessor).

(** *** What [process_file] returns *)

Lemma returns_ret {A} (Q : A -> Prop) (a : A) : Q a -> returns Q (ret a).
Proof. intros H w a' [= <-]. done. Qed.

Lemma returns_raise {A} (Q : A -> Prop) (e : exn) : returns Q (@raise A e).
Proof. intros w a [=]. Qed.

Lemma returns_bind {A B} (Q : B -> Prop) (m : M A) (k : A -> M B) :
  (forall a, returns Q (k a)) -> returns Q (bind m k).
Proof.
  intros Hk w b. unfold bind. destruct (m w) as [[a|e] w1]; [apply Hk|].
  intros [=].
Qed.

Lemma returns_bind_with {A B} (P : A -> Prop) (Q : B -> Prop) (m : M A)
    (k : A -> M B) :
  returns P m -> (forall a, P a -> returns Q (k a)) -> returns Q (bind m k).
Proof.
  intros Hm Hk w b. unfold bind. specialize (Hm w).
  destruct (m w) as [[a|e] w1]; [|intros [=]].
  apply Hk. by apply Hm.
Qed.

Lemma returns_bind_ret {A B} (Q : B -> Prop) (a : A) (k : A -> M B) :
  returns Q (k a) -> returns Q (bind (ret a) k).
Proof. intros H w b. exact (H w b). Qed.

Lemma returns_try {A} (Q : A -> Prop) (m : M A) (h : exn -> M A) :
  returns Q m -> (forall e, returns Q (h e)) -> returns Q (try_except m h).
Proof.
  intros Hm Hh w a. unfold try_except. specialize (Hm w).
  destruct (m w) as [[a'|e] w1]; [|apply Hh]. exact (Hm a).
Qed.

Lemma early_none : early_succeeded None.
Proof. intros d [=]. Qed.

Lemma early_some d : d_success d = true -> early_succeeded (Some d).
Proof. intros H d' [= <-]. done. Qed.

Ltac returns_step :=
  first
    [ apply returns_raise
    | apply returns_ret;
      lazymatch goal with
      | |- early_succeeded None => exact early_none
      | |- early_succeeded (Some _) => apply early_some; reflexivity
      | |- succeeded _ => reflexivity
      end
    | apply returns_try; [|intros ?]
    | apply returns_bind; intros ? ].

Lemma returns_fallback_pdf file content st :
  returns succeeded (fallback_pdf_processing E file content st).
Proof.
  unfold fallback_pdf_processing. repeat first [ returns_step | case_match ].
Qed.

Lemma returns_pdf_phase file content st :
  returns early_succeeded (pdf_fallback_phase E self file content st).
Proof.
  unfold pdf_fallback_phase.
  eapply returns_bind_with; [apply returns_fallback_pdf|].
  intros d Hd. repeat first [ returns_step | case_match ].
  apply returns_ret, early_some. exact Hd.
  apply returns_ret, early_some. exact Hd.
Qed.

Lemma returns_enhanced_phase file ext fo l content st :
  returns early_succeeded (enhanced_phase E self file ext fo l content st).
Proof.
  unfold enhanced_phase.
  repeat first [ apply returns_pdf_phase | returns_step | case_match ].
Qed.

Lemma returns_basic_image file ext content st :
  returns succeeded (basic_image E self file ext content st).
Proof.
  unfold basic_image. apply returns_try; [|intros e; apply returns_raise].
  eapply returns_bind_with.
  - instantiate (1 := early_succeeded).
    repeat first [ returns_step | case_match ].
  - intros [d|] Hd.
    + apply returns_ret. by apply Hd.
    + repeat returns_step.
Qed.

Lemma returns_basic file ext content st :
  returns succeeded (basic_processing E self file ext content st).
Proof.
  unfold basic_processing.
  repeat first [ apply returns_basic_image | returns_step | case_match ].
Qed.

(** X8: [process_file] has no failure value: every dict it returns carries
    [success] true, so a failure of the pipeline always reaches the
    caller as an exception. *)
Theorem process_file_returns_success file force_ocr l w d :
  fst (process_file E self file force_ocr l w) = Ok d -> d_success d = true.
Proof.
  revert w d. change (returns succeeded (process_file E self file force_ocr l)).
  unfold process_file, return_or_basic.
  apply returns_bind; intros st. apply returns_bind; intros _.
  eapply returns_bind_with.
  - instantiate (1 := early_succeeded).
    destruct (should_use_enhanced_processing _ _ _);
      [apply returns_enhanced_phase | apply returns_ret, early_none].
  - intros [d|] Hd.
    + apply returns_ret. by apply Hd.
    + apply returns_bind; intros _. apply returns_basic.
Qed.

(** *** The invariant of the partial-result cache, along the pipeline *)

Lemma keeps_ret I {A} (a : A) : keeps I (ret a).
Proof. by intros w. Qed.

Lemma keeps_raise I {A} (e : exn) : keeps I (@raise A e).
Proof. by intros w. Qed.

Lemma keeps_bind I {A B} (m : M A) (k : A -> M B) :
  keeps I m -> (forall a, keeps I (k a)) -> keeps I (bind m k).
Proof.
  intros Hm Hk w Hw. unfold bind. specialize (Hm w Hw).
  destruct (m w) as [[a|e] w1]; simpl in *; [by apply Hk | done].
Qed.

Lemma keeps_try I {A} (m : M A) (h : exn -> M A) :
  keeps I m -> (forall e, keeps I (h e)) -> keeps I (try_except m h).
Proof.
  intros Hm Hh w Hw. unfold try_except. specialize (Hm w Hw).
  destruct (m w) as [[a|e] w1]; simpl in *; [done | by apply Hh].
Qed.

Lemma keeps_same_cache {A} (m : M A) :
  (forall w, cache (snd (m w)) = cache w) -> keeps cache_ok m.
Proof. intros H w Hw. unfold cache_ok. by rewrite H. Qed.

Lemma keeps_as_result I v : keeps I (as_result v).
Proof. destruct v; [apply keeps_raise .. | apply keeps_ret]. Qed.

Ltac keeps_step :=
  first
    [ apply keeps_ret | apply keeps_raise | apply keeps_as_result
    | apply keeps_bind; [|intros ?]
    | apply keeps_try; [|intros ?]
    | apply keeps_same_cache; reflexivity ].

Lemma keeps_cache_get key : keeps cache_ok (cache_get E key).
Proof.
  intros w Hw. unfold cache_get, bind, get_cache, time_time, put_cache, ret.
  cbn [cache ticks calls trace].
  destruct (cache w !! key) as [[[v cr] [e|]]|]; [|done..].
  destruct (e =? 0); [done|]. cbn [cache ticks calls trace].
  destruct (clock E (ticks w) >? e); [|done].
  apply partial_ok_delete, Hw.
Qed.

Lemma keeps_cache_set key r ttl :
  success r = true -> keeps cache_ok (cache_set E key (PResult r) ttl).
Proof.
  intros Hr w Hw. unfold cache_set, bind, get_cache, time_time, put_cache, ret.
  destruct ttl as [d|]; [destruct (d =? 0)|]; cbn [cache ticks calls trace snd];
    unfold cache_ok, Cache.set; cbn [cache]; apply partial_ok_insert;
    done.
Qed.

Lemma keeps_enhanced file f l :
  keeps cache_ok (process_file_enhanced E self file f l).
Proof.
  unfold process_file_enhanced.
  repeat first
    [ apply keeps_cache_get
    | apply keeps_cache_set; reflexivity
    | keeps_step
    | case_match ].
Qed.

Ltac pipeline_keeps :=
  repeat first
    [ apply keeps_enhanced
    | keeps_step
    | case_match ].

(** X9: The whole pipeline keeps the partial-result cache free of failures:
    if every result cached under a [partial:...:ocr] key is a success
    before [process_file] runs, the same holds after it, whether it
    returns or raises and whichever fallback it takes. *)
Theorem process_file_keeps_cache_sound file force_ocr l w :
  partial_ok (cache w) ->
  partial_ok (cache (snd (process_file E self file force_ocr l w))).
Proof.
  revert w.
  change (keeps cache_ok (process_file E self file force_ocr l)).
  unfold process_file, return_or_basic, enhanced_phase, pdf_fallback_phase,
    fallback_pdf_processing, basic_processing, basic_image.
  pipeline_keeps.
Qed.

(** *** The basic route *)

Lemma keeps_frame c n {A} (m : M A) :
  (forall w, cache (snd (m w)) = cache w /\ calls (snd (m w)) = calls w) ->
  keeps (frame c n) m.
Proof.
  intros H w [Hc Hn]. unfold frame. destruct (H w) as [H1 H2].
  by rewrite H1, H2.
Qed.

Ltac frame_step :=
  first
    [ apply keeps_ret | apply keeps_raise
    | apply keeps_bind; [|intros ?]
    | apply keeps_try; [|intros ?]
    | apply keeps_frame; intros ?; split; reflexivity ].

Ltac trace_step :=
  first
    [ apply appends_ret | apply appends_raise | apply appends_time
    | apply appends_bind; [|intros ?]
    | apply appends_try; [|intros ?]
    | apply appends_emit; reflexivity ].

Ltac plain_step :=
  first
    [ apply returns_raise
    | lazymatch goal with
      | |- returns _ (bind (ret _) _) => apply returns_bind_ret
      end
    | apply returns_ret; reflexivity
    | apply returns_try; [|intros ?]
    | apply returns_bind; intros ? ].

Lemma basic_without_engine file ext content st :
  enhanced_processing_enabled self = false \/
  str_in ext image_formats = false ->
  (forall c n, keeps (frame c n) (basic_processing E self file ext content st)) /\
  appends is_basic (basic_processing E self file ext content st) /\
  returns plain (basic_processing E self file ext content st).
Proof.
  intros H. unfold basic_processing.
  change (str_in ext ["jpg"; "jpeg"; "png"; "gif"; "bmp"; "tiff"; "webp"])
    with (str_in ext image_formats).
  assert (Himg : str_in ext image_formats = true ->
                 enhanced_processing_enabled self = false).
  { intros Hi. destruct H as [H|H]; congruence. }
  clear H. unfold basic_image.
  split; [|split].
  - intros c n.
    repeat first
      [ frame_step
      | match goal with
        | |- context [if str_in ext image_formats then _ else _] =>
            destruct (str_in ext image_formats);
              [rewrite (Himg eq_refl)|]
        end
      | case_match ].
  - repeat first
      [ trace_step
      | match goal with
        | |- context [if str_in ext image_formats then _ else _] =>
            destruct (str_in ext image_formats);
              [rewrite (Himg eq_refl)|]
        end
      | case_match ].
  - repeat first
      [ plain_step
      | match goal with
        | |- context [if str_in ext image_formats then _ else _] =>
            destruct (str_in ext image_formats);
              [rewrite (Himg eq_refl)|]
        end
      | case_match ].
Qed.

Lemma basic_route file force_ocr l w :
  should_use_enhanced_processing self file (routed_force_ocr file force_ocr)
    = false ->
  process_file E self file force_ocr l w =
    basic_processing E self file (file_ext file) (data file)
      (clock E (ticks w))
      {| cache := cache w; ticks := S (ticks w); calls := calls w;
         trace := trace w ++ [EvRoute (routed_force_ocr file force_ocr) false;
                              EvBasicPath] |}.
Proof.
  intros Hs. unfold process_file, return_or_basic.
  unfold bind, time_time, emit, ret. cbn [cache ticks calls trace].
  rewrite Hs. cbn [cache ticks calls trace]. by rewrite <- app_assoc.
Qed.

(** X10: A file that is not routed to enhanced processing, and that is not an
    image (or any such file when Docling is not installed), is handled by
    a basic parser alone: [process_file] makes no enhanced attempt, leaves
    the cache as it was, and never returns an enhanced result. *)
Theorem basic_route_leaves_engine_alone file force_ocr l w :
  should_use_enhanced_processing self file (routed_force_ocr file force_ocr)
    = false ->
  enhanced_processing_enabled self = false \/
  str_in (file_ext file) image_formats = false ->
  cache (snd (process_file E self file force_ocr l w)) = cache w /\
  calls (snd (process_file E self file force_ocr l w)) = calls w /\
  (exists tr,
     trace (snd (process_file E self file force_ocr l w))
       = trace w ++ EvRoute (routed_force_ocr file force_ocr) false
                 :: EvBasicPath :: tr /\
     forallb is_basic tr = true) /\
  (forall d, fst (process_file E self file force_ocr l w) = Ok d ->
             d_enhanced_processing d = false).
Proof.
  intros Hs H. rewrite (basic_route _ _ _ _ Hs).
  destruct (basic_without_engine file (file_ext file) (data file)
              (clock E (ticks w)) H) as (Hf & Ht & Hr).
  match goal with |- context [basic_processing _ _ _ _ _ _ ?w1] =>
    set (w' := w1) end.
  destruct (Hf (cache w) (calls w) w') as [Hc Hn]; [done|].
  destruct (Ht w') as (tr & Htr & Hb).
  split; [done|]. split; [done|]. split.
  - exists tr. rewrite Htr. simpl. rewrite <- app_assoc. done.
  - intros d Hd. by apply (Hr w').
Qed.

(** *** Images outside the enhanced list *)

Lemma appends_anything file f l :
  appends (fun _ => true) (process_file_enhanced E self file f l).
Proof. by apply appends_enhanced. Qed.



End PipelineFacts.

(* ===================================================================== *)
(** ** Properties of the paths of the orchestrator *)
(* ===================================================================== *)

Section AttemptFacts.

Import Processor.
Local Open Scope py_scope.

Context (E : Env) (self : FileProcessor).

(** *** The cached extraction result *)

Lemma enhanced_hit file f l w r cr e :
  cache w !! ocr_key file = Some (PResult r, cr, Some e) ->
  e <> 0 -> clock E (S (ticks w)) <= e ->
  process_file_enhanced E self file f l w =
    (Ok (PResult r),
     {| cache := cache w; ticks := S (S (ticks w)); calls := S (calls w);
        trace := trace w ++ [EvEnhanced f l] |}).
Proof.
  intros Hk He Ht. unfold process_file_enhanced, cache_get.
  unfold bind, next_call, emit, time_time, get_cache, ret.
  cbn [cache ticks calls trace]. rewrite Hk.
  replace (e =? 0) with false by lia. cbn [cache ticks calls trace].
  replace (clock E (S (ticks w)) >? e) with false by lia.
  reflexivity.
Qed.

(** X12: The extraction result of a file is cached under its name alone. Once
    a conversion has succeeded, every call made for a file of the same
    name before the entry expires returns that first result, whatever the
    bytes of the file and the OCR settings of the call, without a resource
    check and without a conversion. *)
Theorem cached_result_is_keyed_by_name file1 file2 f l f' l' w name md ty :
  enhanced_processing_enabled self = true ->
  filename file1 = Some name -> filename file2 = Some name ->
  cache w !! ocr_key file1 = None ->
  check_system_resources self (probe_at E (calls w)) = true ->
  convert E (calls w) f (if lang_truthy l then l else None) (data file1)
    = Converted md ty ->
  clock E (2 + ticks w) + 3600 <> 0 ->
  clock E (5 + ticks w) <= clock E (2 + ticks w) + 3600 ->
  process_file_enhanced E self file2 f' l'
    (snd (process_file_enhanced E self file1 f l w))
  = (fst (process_file_enhanced E self file1 f l w),
     {| cache := cache (snd (process_file_enhanced E self file1 f l w));
        ticks := (6 + ticks w)%nat; calls := S (S (calls w));
        trace := trace (snd (process_file_enhanced E self file1 f l w))
                 ++ [EvEnhanced f' l'] |}).
Proof.
  intros He Hn1 Hn2 Hc Hres Hconv Hnz Hfresh.
  pose proof (enhanced_converts E self file1 f l w name md ty
                He Hn1 Hc Hres Hconv) as H1.
  cbv zeta in H1. rewrite H1. cbn [fst snd].
  assert (Hkey : ocr_key file2 = ocr_key file1).
  { unfold ocr_key. by rewrite Hn1, Hn2. }
  erewrite enhanced_hit;
    [ reflexivity
    | cbn [cache]; rewrite Hkey; unfold Cache.set; cbn [Z.eqb];
      apply lookup_insert_eq
    | | ].
  - intros Hz. by apply float_add_zero_iff in Hz.
  - apply float_le_add; [apply clock_representable | exact Hfresh].
Qed.

(** Past its hour the cached result is dropped by the call that finds it:
    that call goes on to the resource check like a first call. *)
Lemma stale_result_is_recomputed file f l w v cr e :
  enhanced_processing_enabled self = true ->
  cache w !! ocr_key file = Some (v, cr, Some e) ->
  e <> 0 -> e < clock E (S (ticks w)) ->
  exists b tr,
    trace (snd (process_file_enhanced E self file f l w))
      = trace w ++ EvEnhanced f l :: EvResources b :: tr.
Proof.
  intros He Hk Hnz Ht. unfold process_file_enhanced, cache_get.
  unfold bind at 1, next_call at 1. cbv beta iota zeta.
  unfold bind at 1, emit at 1. cbv beta iota zeta.
  unfold bind at 1, time_time at 1. cbv beta iota zeta.
  unfold bind at 1. unfold bind at 1, get_cache at 1. cbv beta iota zeta.
  cbn [cache ticks calls trace]. rewrite Hk.
  replace (e =? 0) with false by lia.
  unfold bind at 1, time_time at 1. cbv beta iota zeta.
  cbn [cache ticks calls trace].
  replace (clock E (S (ticks w)) >? e) with true by lia.
  unfold bind at 1, put_cache at 1. cbv beta iota zeta.
  unfold ret at 1. cbv beta iota zeta. cbn [truthy].
  rewrite He. cbn [negb].
  exists (check_system_resources self (probe_at E (calls w))).
  unfold bind at 1, emit at 1. cbv beta iota zeta.
  cbn [cache ticks calls trace].
  match goal with |- context [(if ?b then ?m1 else ?m2) ?w1] =>
    assert (Ha : appends (fun _ => true) (if b then m1 else m2));
      [|destruct (Ha w1) as (tr & Htr & _)]
  end.
  { repeat first
      [ apply appends_cache_set | apply appends_ret | apply appends_raise
      | apply appends_time | apply appends_bind; [|intros ?]
      | apply appends_emit; reflexivity | case_match ]. }
  exists tr. rewrite Htr. cbn [trace]. by rewrite <- !app_assoc.
Qed.

(** *** The successful paths of the orchestrator *)

Lemma routed_enabled file fo :
  should_use_enhanced_processing self file fo = true ->
  enhanced_processing_enabled self = true.
Proof.
  unfold should_use_enhanced_processing.
  by destruct (enhanced_processing_enabled self).
Qed.

(** X13: When the first enhanced attempt converts the document, [process_file]
    returns its result as an enhanced dict after that single attempt: no
    retry, no fallback, and the result is cached for an hour under the
    name of the file. The processing time reported is that of the attempt
    itself. *)
Theorem first_attempt_success file force_ocr l w name md ty :
  should_use_enhanced_processing self file (routed_force_ocr file force_ocr)
    = true ->
  filename file = Some name ->
  cache w !! ocr_key file = None ->
  check_system_resources self (probe_at E (calls w)) = true ->
  convert E (calls w) (routed_force_ocr file force_ocr)
    (if lang_truthy l then l else None) (data file) = Converted md ty ->
  process_file E self file force_ocr l w =
    (Ok (enhanced_dict
           (docling_result file (routed_force_ocr file force_ocr) l md ty
              (clock E (2 + ticks w) - clock E (1 + ticks w)))),
     {| cache :=
          Cache.set (clock E (3 + ticks w)) (clock E (4 + ticks w))
            (ocr_key file)
            (PResult
               (docling_result file (routed_force_ocr file force_ocr) l md ty
                  (clock E (2 + ticks w) - clock E (1 + ticks w))))
            (Some 3600) (cache w);
        ticks := (5 + ticks w)%nat; calls := S (calls w);
        trace := trace w ++
          [EvRoute (routed_force_ocr file force_ocr) true;
           EvEnhanced (routed_force_ocr file force_ocr) l;
           EvResources true;
           EvConvert (routed_force_ocr file force_ocr)
                     (if lang_truthy l then l else None)] |}).
Proof.
  intros Hs Hn Hc Hres Hconv.
  pose proof (routed_enabled _ _ Hs) as He.
  unfold process_file. rewrite Hs.
  unfold bind at 1, time_time at 1. cbv beta iota zeta.
  unfold bind at 1, emit at 1. cbv beta iota zeta.
  cbn [cache ticks calls trace].
  unfold bind at 1, enhanced_phase. unfold bind at 1 2.
  match goal with
  |- context [process_file_enhanced E self file ?f ?l0 ?w1] =>
    pose proof (enhanced_converts E self file f l0 w1 name md ty
                  He Hn Hc Hres Hconv) as H1
  end.
  cbv zeta in H1. rewrite H1. cbv beta iota zeta.
  unfold as_result at 1, ret at 1. cbv beta iota zeta.
  cbn [success docling_result negb]. unfold ret at 1. cbv beta iota zeta.
  unfold bind at 1, ret at 1. cbv beta iota zeta.
  unfold return_or_basic, ret. cbn [cache ticks calls trace].
  rewrite <- app_assoc. reflexivity.
Qed.

Lemma lang_or_truthy (l : option (list string)) (d : list string) :
  d <> [] -> lang_truthy (Some (lang_or l d)) = true.
Proof. intros Hd. destruct l as [[|x xs]|]; simpl; by destruct d. Qed.

(** X14: When the first enhanced attempt fails and the retry converts the
    document, [process_file] returns the result of the retry, which was
    made with OCR forced and with the caller's languages (English when
    there are none). Two attempts are made and no fallback is entered. *)
Theorem retry_with_forced_ocr_succeeds file force_ocr l w name md ty :
  should_use_enhanced_processing self file (routed_force_ocr file force_ocr)
    = true ->
  filename file = Some name ->
  cache w !! ocr_key file = None ->
  engine_fails E self (calls w) file ->
  check_system_resources self (probe_at E (S (calls w))) = true ->
  convert E (S (calls w)) true (Some (lang_or l ["en"])) (data file)
    = Converted md ty ->
  exists elapsed new,
    fst (process_file E self file force_ocr l w) =
      Ok (enhanced_dict
            (docling_result file true (Some (lang_or l ["en"])) md ty
                            elapsed)) /\
    trace (snd (process_file E self file force_ocr l w)) = trace w ++ new /\
    enhanced_calls new = [(routed_force_ocr file force_ocr, l);
                          (true, Some (lang_or l ["en"]))] /\
    forallb (fun ev => negb (is_switch ev)) new = true /\
    calls (snd (process_file E self file force_ocr l w)) = S (S (calls w)).
Proof.
  intros Hs Hn Hc Hf1 Hres Hconv.
  pose proof (routed_enabled _ _ Hs) as He.
  cut (exists res w' elapsed new,
         process_file E self file force_ocr l w = (res, w') /\
         res = Ok (enhanced_dict
                     (docling_result file true (Some (lang_or l ["en"]))
                                     md ty elapsed)) /\
         trace w' = trace w ++ new /\
         enhanced_calls new = [(routed_force_ocr file force_ocr, l);
                               (true, Some (lang_or l ["en"]))] /\
         forallb (fun ev => negb (is_switch ev)) new = true /\
         calls w' = S (S (calls w))).
  { intros (res & w' & elapsed & new & -> & H). simpl. eauto. }
  unfold process_file. rewrite Hs.
  unfold bind at 1, time_time at 1. cbv beta iota zeta.
  unfold bind at 1, emit at 1. cbv beta iota zeta.
  cbn [cache ticks calls trace].
  unfold bind at 1, enhanced_phase. unfold bind at 1 2.
  match goal with
  |- context [process_file_enhanced E self file ?f ?l0 ?w1] =>
    destruct (enhanced_fails E self file f l0 w1 name He Hn Hc Hf1)
      as (r1 & tr1 & H1 & Hs1 & _ & _ & Hi1)
  end.
  rewrite H1. cbv beta iota zeta.
  unfold as_result at 1, ret at 1. cbv beta iota zeta.
  rewrite Hs1. change (negb false) with true. cbv beta iota zeta.
  unfold bind at 1 2.
  assert (Hlang : (if lang_truthy (Some (lang_or l ["en"]))
                   then Some (lang_or l ["en"]) else None)
                  = Some (lang_or l ["en"])).
  { by rewrite lang_or_truthy. }
  match goal with
  |- context [process_file_enhanced E self file true ?l0 ?w1] =>
    pose proof (enhanced_converts E self file true l0 w1 name md ty
                  He Hn Hc Hres) as H2
  end.
  rewrite Hlang in H2. specialize (H2 Hconv). cbv zeta in H2.
  rewrite H2. cbv beta iota zeta.
  unfold as_result at 1, ret at 1. cbv beta iota zeta.
  cbn [success docling_result]. unfold ret at 1. cbv beta iota zeta.
  unfold return_or_basic, ret. cbn [cache ticks calls trace].
  eexists _, _, _, _. split; [reflexivity|]. split; [reflexivity|].
  split; [rewrite <- !app_assoc; reflexivity|].
  split; [|split; [|reflexivity]].
  - simpl. rewrite !enhanced_calls_app. simpl.
    by rewrite internal_no_calls.
  - simpl. rewrite forallb_app. simpl.
    by rewrite internal_not_switch.
Qed.

(** *** The failing paths of the orchestrator *)

Lemma unhandled_ext ext file content st w :
  str_in ext basic_formats = false ->
  basic_processing E self file ext content st w
  = (Raise (ValueError ("Unsupported file type: " +:+ ext)), w).
Proof.
  intros H2. unfold basic_formats, str_in in H2. simpl in H2.
  repeat (apply orb_false_iff in H2 as [? H2]).
  unfold basic_processing, str_in. simpl.
  repeat match goal with Hx : (_ =? _)%string = false |- _ =>
    rewrite Hx; clear Hx end.
  reflexivity.
Qed.

(** X15: Some formats are eligible for enhanced processing but have no basic
    handler (PowerPoint, [tif], [htm]). When both enhanced attempts fail
    on such a file, [process_file] reports an unsupported file type, and
    the cache is left as it was. *)
Theorem failed_conversion_reported_as_unsupported file force_ocr l w :
  str_in (file_ext file) enhanced_formats = true ->
  str_in (file_ext file) basic_formats = false ->
  enhanced_processing_enabled self = true ->
  cache w !! ocr_key file = None ->
  engine_fails E self (calls w) file ->
  engine_fails E self (S (calls w)) file ->
  fst (process_file E self file force_ocr l w)
    = Raise (ValueError ("Unsupported file type: " +:+ file_ext file)) /\
  cache (snd (process_file E self file force_ocr l w)) = cache w.
Proof.
  intros Henh Hbasic He Hc Hf1 Hf2.
  assert (Hpdf : String.eqb (file_ext file) "pdf" = false).
  { destruct (String.eqb_spec (file_ext file) "pdf") as [Heq|]; [|done].
    rewrite Heq in Hbasic. discriminate. }
  destruct (file_ext_named file) as [name Hn].
  { intros Heq. rewrite Heq in Henh. discriminate. }
  cut (exists w',
         process_file E self file force_ocr l w
         = (Raise (ValueError ("Unsupported file type: " +:+ file_ext file)),
            w') /\ cache w' = cache w).
  { intros (w' & -> & H). done. }
  unfold process_file, routed_force_ocr. rewrite Hpdf.
  assert (should_use_enhanced_processing self file force_ocr = true) as ->.
  { unfold should_use_enhanced_processing. rewrite He, Henh.
    by destruct force_ocr. }
  unfold bind at 1, time_time at 1. cbv beta iota zeta.
  unfold bind at 1, emit at 1. cbv beta iota zeta.
  cbn [cache ticks calls trace].
  match goal with
  |- context [bind (enhanced_phase E self file ?ext ?fo l ?content ?st) _ ?w1] =>
    destruct (two_failed_attempts E self file ext fo l content st w1 name
                He Hn Hc Hf1 Hf2) as (tr1 & tr2 & Hphase & _ & _)
  end.
  rewrite (bind_eq _ _ _ _ _ Hphase). rewrite Hpdf.
  unfold bind at 1, ret at 1. cbv beta iota zeta.
  unfold return_or_basic. unfold bind at 1, emit at 1. cbv beta iota zeta.
  rewrite unhandled_ext by done. eexists. split; reflexivity.
Qed.

(** *** The PDF fallback *)

Lemma pdf_fallback_text file content texts elapsed :
  fallback_text_of (pdf_fallback_dict file content texts elapsed)
  = pdf_text_content texts.
Proof. reflexivity. Qed.

Lemma pdf_after_two_failures file force_ocr l w name :
  file_ext file = "pdf" ->
  enhanced_processing_enabled self = true ->
  filename file = Some name ->
  cache w !! ocr_key file = None ->
  engine_fails E self (calls w) file ->
  engine_fails E self (S (calls w)) file ->
  exists tr1 tr2,
    process_file E self file force_ocr l w =
      bind (try_except
              (pdf_fallback_phase E self file (data file) (clock E (ticks w)))
              (fun _ => ret None))
           (fun early => return_or_basic E self file "pdf" (data file)
                           (clock E (ticks w)) early)
        {| cache := cache w; ticks := (5 + ticks w)%nat;
           calls := S (S (calls w));
           trace := trace w ++
             EvRoute true true :: EvEnhanced true l :: tr1 ++
             EvEnhanced true (Some (lang_or l ["en"])) :: tr2 |} /\
    forallb internal tr1 = true /\ forallb internal tr2 = true.
Proof.
  intros Hext He Hn Hc Hf1 Hf2.
  unfold process_file, routed_force_ocr. rewrite Hext. simpl String.eqb.
  cbv iota.
  assert (should_use_enhanced_processing self file true = true) as ->.
  { unfold should_use_enhanced_processing. by rewrite He. }
  unfold bind at 1, time_time at 1. cbv beta iota zeta.
  unfold bind at 1, emit at 1. cbv beta iota zeta.
  cbn [cache ticks calls trace].
  match goal with
  |- context [bind (enhanced_phase E self file ?ext ?fo l ?content ?st) _ ?w1] =>
    destruct (two_failed_attempts E self file ext fo l content st w1 name
                He Hn Hc Hf1 Hf2) as (tr1 & tr2 & Hphase & Hi1 & Hi2)
  end.
  exists tr1, tr2. split; [|done].
  rewrite (bind_eq _ _ _ _ _ Hphase). simpl String.eqb. cbv iota.
  cbn [cache ticks calls trace]. rewrite <- app_assoc. reflexivity.
Qed.

(** X16: When both enhanced attempts fail on a PDF from which PyPDF2 extracts
    text, [process_file] returns that text as the fallback result: the
    result is not marked as enhanced, no third enhanced attempt is made
    and nothing is cached. *)
Theorem pdf_text_fallback file force_ocr l w texts :
  file_ext file = "pdf" ->
  enhanced_processing_enabled self = true ->
  cache w !! ocr_key file = None ->
  engine_fails E self (calls w) file ->
  engine_fails E self (S (calls w)) file ->
  pypdf2 E (data file) = PdfPages texts ->
  Py.startswith (Py.strip (pdf_text_content texts))
                "This appears to be a scanned PDF" = false ->
  exists new,
    process_file E self file force_ocr l w =
      (Ok (pdf_fallback_dict file (data file) texts
             (clock E (5 + ticks w) - clock E (ticks w))),
       {| cache := cache w; ticks := (6 + ticks w)%nat;
          calls := S (S (calls w)); trace := trace w ++ new |}) /\
    enhanced_calls (after_switch new) = [] /\
    after_switch new = [].
Proof.
  intros Hext He Hc Hf1 Hf2 Hpdf Hmark.
  destruct (file_ext_named file) as [name Hn]; [by rewrite Hext|].
  destruct (pdf_after_two_failures file force_ocr l w name
              Hext He Hn Hc Hf1 Hf2) as (tr1 & tr2 & -> & Hi1 & Hi2).
  unfold bind at 1, try_except at 1, pdf_fallback_phase.
  unfold bind at 1, fallback_pdf_processing.
  unfold bind at 1. unfold emit at 1. cbv beta iota zeta. rewrite Hpdf.
  unfold bind at 1. unfold time_time at 1. cbv beta iota zeta.
  unfold ret at 1. cbv beta iota zeta.
  rewrite pdf_fallback_text.
  cbn [cache ticks calls trace]. rewrite Hmark. cbn [andb].
  unfold ret at 1. cbv beta iota zeta. unfold return_or_basic, ret.
  eexists. split.
  - rewrite <- app_assoc. reflexivity.
  - match goal with |- context [after_switch ?t] =>
      assert (Ha : after_switch t = [])
    end.
    { change (EvRoute true true :: EvEnhanced true l :: tr1 ++
              EvEnhanced true (Some (lang_or l ["en"])) :: tr2)
        with ([EvRoute true true] ++ EvEnhanced true l :: tr1 ++
              EvEnhanced true (Some (lang_or l ["en"])) :: tr2).
      rewrite after_switch_app; [done| |done].
      simpl. rewrite forallb_app. simpl. by rewrite !internal_not_switch. }
    by rewrite Ha.
Qed.

(** X17: When both enhanced attempts fail on a PDF and PyPDF2 raises as well,
    the error is swallowed and the file is handed to the basic document
    handler, which returns its bytes in base64 without any text. *)
Theorem pdf_last_resort file force_ocr l w e :
  file_ext file = "pdf" ->
  enhanced_processing_enabled self = true ->
  cache w !! ocr_key file = None ->
  engine_fails E self (calls w) file ->
  engine_fails E self (S (calls w)) file ->
  pypdf2 E (data file) = PdfRaises e ->
  exists d new,
    process_file E self file force_ocr l w =
      (Ok d, {| cache := cache w; ticks := (6 + ticks w)%nat;
                calls := S (S (calls w)); trace := trace w ++ new |}) /\
    d_enhanced_processing d = false /\
    d_content d = Some (ODict
      [("document_data", MStr (b64encode E (data file)));
       ("document_type", MStr "pdf");
       ("file_size", MInt (zlen (data file)));
       ("note", MStr "PDF document uploaded. Enhanced processing (Docling) is recommended for better text extraction.")]) /\
    after_switch new = [EvBasicPath; EvBasic "document"].
Proof.
  intros Hext He Hc Hf1 Hf2 Hpdf.
  destruct (file_ext_named file) as [name Hn]; [by rewrite Hext|].
  destruct (pdf_after_two_failures file force_ocr l w name
              Hext He Hn Hc Hf1 Hf2) as (tr1 & tr2 & -> & Hi1 & Hi2).
  unfold bind at 1, try_except at 1, pdf_fallback_phase.
  unfold bind at 1, fallback_pdf_processing.
  unfold bind at 1. unfold emit at 1. cbv beta iota zeta. rewrite Hpdf.
  unfold raise at 1. cbv beta iota zeta.
  unfold ret at 1. cbv beta iota zeta.
  unfold return_or_basic. unfold bind at 1, emit at 1. cbv beta iota zeta.
  cbn [cache ticks calls trace].
  unfold basic_processing, str_in.
  cbn [String.eqb Ascii.eqb Bool.eqb existsb orb andb].
  unfold bind, emit, time_time, ret. cbn [cache ticks calls trace].
  eexists _, _. split.
  { rewrite <- !app_assoc. reflexivity. }
  split; [reflexivity|]. split; [reflexivity|].
  - change ([EvPdfFallback] ++ [EvBasicPath] ++ [EvBasic "document"])
      with (EvPdfFallback :: [EvBasicPath; EvBasic "document"]).
    rewrite after_switch_app; [done| |done].
    simpl. rewrite forallb_app. simpl. by rewrite !internal_not_switch.
Qed.

End AttemptFacts.

(* ===================================================================== *)
(** ** Properties of the usage quota and of the login lock *)
(* ===================================================================== *)

Section UserFacts.

Import Users.

Lemma usage_after (n : nat) (u : User) :
  usage_count (Nat.iter n increment_usage u) = usage_count u + Z.of_nat n /\
  role (Nat.iter n increment_usage u) = role u /\
  status (Nat.iter n increment_usage u) = status u /\
  subscription_level (Nat.iter n increment_usage u) = subscription_level u /\
  subscription_status (Nat.iter n increment_usage u) = subscription_status u /\
  subscription_expires_at (Nat.iter n increment_usage u)
    = subscription_expires_at u /\
  monthly_limit (Nat.iter n increment_usage u) = monthly_limit u.
Proof.
  induction n as [|n IH]; [simpl; repeat split; lia|].
  destruct IH as (H1 & H2 & H3 & H4 & H5 & H6 & H7).
  rewrite Nat.iter_succ. cbn [increment_usage usage_count role status
    subscription_level subscription_status subscription_expires_at
    monthly_limit].
  repeat split; try assumption. lia.
Qed.

(** X18: The free tier is a plain counter: an active, non-admin account on the
    "Free" level that has used [usage_count] requests may make a request
    after [n] more recorded requests exactly when
    [usage_count + n < monthly_limit], whatever its subscription fields
    and the date. From zero, the first [monthly_limit] requests pass and
    every later one is refused. *)
Theorem free_tier_quota (now : Z) (u : User) (n : nat) :
  status u = "active" -> role u <> "admin" -> subscription_level u = "Free" ->
  can_make_request now (Nat.iter n increment_usage u)
  = (usage_count u + Z.of_nat n <? monthly_limit u).
Proof.
  intros Hs Hr Hl. destruct (usage_after n u) as (H1 & H2 & H3 & H4 & _ & _ & H7).
  unfold can_make_request, is_active. rewrite H1, H2, H3, H4, H7, Hs, Hl.
  simpl. destruct (String.eqb_spec (role u) "admin"); [done|]. reflexivity.
Qed.

Lemma free_tier_quota_witness :
  can_make_request 0 (Nat.iter 19 increment_usage free_user) = true /\
  can_make_request 0 (Nat.iter 20 increment_usage free_user) = false.
Proof.
  split.
  - rewrite (free_tier_quota 0 free_user 19); [reflexivity..|discriminate|reflexivity].
  - rewrite (free_tier_quota 0 free_user 20); [reflexivity..|discriminate|reflexivity].
Defined.

(** X19: A paid account is served only while its subscription lasts: once the
    date has reached [subscription_expires_at] (or when no expiry is
    recorded), every request of an active, non-admin account above the
    free tier is refused, whatever its usage and its limit, the unlimited
    plans included. Before the expiry an unlimited plan
    ([monthly_limit <= 0]) is never refused, whatever its usage. *)
Theorem paid_access_ends_at_expiry (now : Z) (u : User) (n : nat) :
  status u = "active" -> role u <> "admin" -> subscription_level u <> "Free" ->
  ((forall e, subscription_expires_at u = Some e -> e <= now) ->
   can_make_request now (Nat.iter n increment_usage u) = false) /\
  (forall e, subscription_status u = Some "active" ->
             subscription_expires_at u = Some e -> now < e ->
             monthly_limit u <= 0 ->
             can_make_request now (Nat.iter n increment_usage u) = true).
Proof.
  intros Hs Hr Hl.
  destruct (usage_after n u) as (H1 & H2 & H3 & H4 & H5 & H6 & H7).
  unfold can_make_request, is_active, has_active_subscription.
  rewrite H1, H2, H3, H4, H5, H6, H7, Hs.
  simpl. destruct (String.eqb_spec (role u) "admin"); [done|].
  destruct (String.eqb_spec (subscription_level u) "Free"); [done|].
  split.
  - intros He. destruct (subscription_status u) as [s|]; [|done].
    destruct (Py.is_empty s || negb (s =? "active")%string); [done|].
    destruct (subscription_expires_at u) as [e|]; [|done].
    specialize (He e eq_refl). simpl.
    replace (e >? now) with false by lia. reflexivity.
  - intros e -> -> Hlt Hlim. simpl.
    replace (e >? now) with true by lia. simpl.
    replace (monthly_limit u <=? 0) with true by lia. reflexivity.
Qed.

Lemma paid_access_ends_at_expiry_witness :
  can_make_request 100 (Nat.iter 3 increment_usage pro_user) = false /\
  can_make_request 99 (Nat.iter 3 increment_usage pro_user) = true.
Proof.
  split.
  - apply (paid_access_ends_at_expiry 100 pro_user 3);
      [reflexivity | discriminate | discriminate |].
    intros e [= <-]. lia.
  - destruct (paid_access_ends_at_expiry 99 pro_user 3) as [_ H];
      [reflexivity | discriminate | discriminate |].
    apply (H 100); [reflexivity | reflexivity | lia | simpl; lia].
Defined.

Lemma failures_after (n : nat) (u : User) :
  failed_login_attempts (Nat.iter n increment_failed_login u)
  = failed_login_attempts u + Z.of_nat n.
Proof.
  induction n as [|n IH]; [simpl; lia|].
  rewrite Nat.iter_succ. cbn [increment_failed_login failed_login_attempts].
  lia.
Qed.

(** After a reset of the failed logins the account locks at the fifteenth
    consecutive failure and not before; a reset unlocks it. *)
Lemma lock_after_fifteen_failures (u : User) (n : nat) :
  is_locked (Nat.iter n increment_failed_login (reset_failed_logins u))
    = (15 <=? Z.of_nat n) /\
  is_locked (reset_failed_logins
               (Nat.iter n increment_failed_login u)) = false.
Proof.
  split.
  - unfold is_locked. rewrite failures_after. simpl.
    destruct (Z.leb_spec 15 (Z.of_nat n)); lia.
  - reflexivity.
Qed.

End UserFacts.

(* ===================================================================== *)
(** ** Properties of the reasoning layer *)
(* ===================================================================== *)

Section ReasoningFacts.

Import Processor Chat Reasoning.
Local Open Scope py_scope.

Context (E : Env) (C : ChatEnv).

Lemma strip_keeps_head (c : ascii) (s : string) :
  Py.is_space c = false -> exists s', Py.strip (String c s) = String c s'.
Proof.
  intros Hc. unfold Py.strip. cbn [Py.lstrip]. rewrite Hc.
  cbn [Py.rstrip]. rewrite Hc. cbn [andb]. eauto.
Qed.

Lemma not_a_yes (s : string) :
  Py.startswith (Py.lower (Py.strip (String "I" s))) "y" = false.
Proof.
  destruct (strip_keeps_head "I" s eq_refl) as [s' ->]. reflexivity.
Qed.

(** What the fallback for a refused quota says to a non-empty last user
    message: one of two apologies, both of which say "I cannot provide". *)
Lemma fallback_says_cannot_provide (messages : list chat_msg) role text :
  List.find (fun m => String.eqb (fst m) "user") (List.rev messages)
    = Some (role, text) ->
  text <> "" ->
  existsb (fun pattern =>
             Py.contains pattern
               (Py.lower (generate_fallback_response messages)))
          no_info_patterns = true.
Proof.
  intros Hfind Hne. unfold generate_fallback_response. rewrite Hfind.
  cbn [snd]. destruct text as [|c text]; [done|]. cbn [Py.is_empty].
  match goal with |- context [existsb ?f ["author"; _; _; _; _]] =>
    destruct (existsb f ["author"; "content"; "document"; "file"; "article"])
  end; vm_compute; reflexivity.
Qed.

Lemma fallback_starts_with_I (messages : list chat_msg) :
  exists s, generate_fallback_response messages = String "I" s.
Proof.
  unfold generate_fallback_response.
  repeat match goal with
         | |- context [if ?b then _ else _] => destruct b
         end; eexists; reflexivity.
Qed.

Lemma failed_completion_starts_with_I messages max_tokens msg :
  llm_create C messages max_tokens = LlmRaises msg ->
  exists s, chat_completion C messages max_tokens = Ok (Some (String "I" s)).
Proof.
  intros H. unfold chat_completion. rewrite H.
  destruct (Py.contains "insufficient_quota" msg || Py.contains "429" msg).
  - destruct (fallback_starts_with_I messages) as [s ->]. eauto.
  - eexists. reflexivity.
Qed.

(** X20: The second opinion on an answer can only turn it into a "no
    information" answer by saying so: when no pattern matches and the
    classifying call does not come back with a text (it raises, for quota
    or otherwise, or returns no choice or no content), the answer is not
    taken for a "no information" answer. *)
Theorem failed_classifier_keeps_answer (r : string) :
  existsb (fun pattern => Py.contains pattern (Py.lower r)) no_info_patterns
    = false ->
  (forall content,
     llm_create C [("user", no_info_prompt r)] 3
       <> LlmContent (Some content)) ->
  is_no_info_response_llm C (Some r) = Ok false.
Proof.
  intros Hpat Hllm. unfold is_no_info_response_llm. rewrite Hpat.
  destruct (llm_create C [("user", no_info_prompt r)] 3)
    as [[content|]| |msg] eqn:Hc.
  - by destruct (Hllm content).
  - unfold chat_completion. by rewrite Hc.
  - unfold chat_completion. by rewrite Hc.
  - destruct (failed_completion_starts_with_I _ _ _ Hc) as [s ->].
    by rewrite not_a_yes.
Qed.

(** X21: When the completion call is refused for quota and the recent history
    holds a non-empty user message, what the answer block replies depends
    on the search agent and on the route that the message takes.  With an
    agent available the reply is the agent's answer (or the note that the
    search failed), on both routes.  Without one, the route decides: off
    the direct route the apology that [chat_with_context] produces is
    itself read as a "no information" answer and replaced by the note that
    no web access is available; on the direct route (a live-data keyword
    or a ticker in the message) nothing reads the apology, and it is the
    reply. *)
Theorem quota_apology_triggers_web_search (T : TavilyAgent)
    (messages_orm : list chat_msg) (profile : option string)
    (user_message : string) (ctx : option string) (msg role text : string) :
  (forall messages, llm_create C messages 1500 = LlmRaises msg) ->
  Py.contains "insufficient_quota" msg || Py.contains "429" msg = true ->
  List.find (fun m => String.eqb (fst m) "user")
            (List.rev (last_n 5 messages_orm)) = Some (role, text) ->
  text <> "" ->
  answer_block C T messages_orm profile user_message ctx
  = if is_available T
    then match answer T user_message profile ctx with
         | Ok response => Ok (Some response)
         | Raise _ => Ok (Some tavily_failed_message)
         end
    else if should_trigger_tavily_directly user_message
         then Ok (Some (generate_fallback_response (last_n 5 messages_orm)))
         else Ok (Some no_web_access_message).
Proof.
  intros Hllm Hquota Hfind Hne.
  unfold answer_block, reasoning_layer, chat_with_context.
  rewrite Hllm. rewrite Hquota.
  destruct (should_trigger_tavily_directly user_message).
  - by destruct (is_available T).
  - unfold is_no_info_response_llm.
    by rewrite (fallback_says_cannot_provide _ role text Hfind Hne).
Qed.

(** *** Apologies are answers, for the cache *)

Lemma send_message_hit (C' : ChatEnv) chat_id msg r cr e w :
  cache w !! Cache.QueryCache.make_key chat_id (query_fingerprint msg)
    = Some (PStr r, cr, Some e) ->
  r <> "" -> e <> 0 -> clock E (ticks w) <= e ->
  send_message E C' chat_id msg w =
    (Ok {| message := PStr r; from_cache := true |},
     {| cache := cache w; ticks := S (ticks w); calls := calls w;
        trace := trace w |}).
Proof.
  intros Hk Hr He Ht.
  unfold send_message, try_except, query_cache_get.
  unfold bind at 1, cache_get. unfold bind at 1, get_cache at 1.
  cbv beta iota zeta. rewrite Hk.
  replace (e =? 0) with false by lia.
  unfold bind at 1, time_time at 1. cbv beta iota zeta.
  cbn [cache ticks calls trace].
  replace (clock E (ticks w) >? e) with false by lia.
  unfold ret at 1. cbv beta iota zeta. cbn [truthy].
  destruct r as [|c r]; [done|]. reflexivity.
Qed.

(** X22: An apology is cached like an answer.  When the completion client
    fails (not for quota), the apology of [chat_with_context] is the reply
    of [send_message] in two cases: on the direct route when no search
    agent is available, and off the direct route when the apology matches
    none of the "no information" patterns (the classifying call fails like
    every other call of the client).  In both, [send_message] answers with
    the apology and stores it for ten minutes; the same question asked
    again within that time gets the apology from the cache, without a call
    to the reasoning layer, whatever the client would answer by then. *)
Theorem apology_is_cached (C2 : ChatEnv) (T : TavilyAgent)
    (messages_orm : list chat_msg) (profile : option string)
    (chat_id user_message msg : string) (w : World) :
  (forall messages max_tokens,
     llm_create C messages max_tokens = LlmRaises msg) ->
  Py.contains "insufficient_quota" msg || Py.contains "429" msg = false ->
  (if should_trigger_tavily_directly user_message
   then is_available T = false
   else existsb (fun pattern =>
                   Py.contains pattern (Py.lower (difficulties msg)))
                no_info_patterns = false) ->
  cache w !! Cache.QueryCache.make_key chat_id
               (query_fingerprint user_message) = None ->
  0 <= clock E (ticks w) ->
  clock E (S (S (ticks w))) <= clock E (ticks w) + 600 ->
  exists w1 w2,
    send_message E (with_layer C T messages_orm profile)
                 chat_id user_message w
      = (Ok {| message := PStr (difficulties msg); from_cache := false |}, w1) /\
    send_message E C2 chat_id user_message w1
      = (Ok {| message := PStr (difficulties msg); from_cache := true |}, w2) /\
    trace w2 = trace w1.
Proof.
  intros Hllm Hquota Hroute Hmiss Hclock Hwindow.
  assert (Hr : forall ctx,
            reasoning (with_layer C T messages_orm profile)
                      user_message ctx = Ok (Some (difficulties msg))).
  { intros ctx. cbn [reasoning with_layer].
    unfold answer_block, reasoning_layer, chat_with_context.
    rewrite Hllm, Hquota. fold (difficulties msg).
    destruct (should_trigger_tavily_directly user_message).
    - by rewrite Hroute.
    - unfold is_no_info_response_llm. rewrite Hroute.
      destruct (failed_completion_starts_with_I
                  [("user", no_info_prompt (difficulties msg))] 3 msg
                  (Hllm _ _)) as [s ->].
      by rewrite not_a_yes. }
  destruct (send_message_miss E _ chat_id user_message _ w Hmiss Hr)
    as (tr & Hfirst).
  eexists _, _. split; [exact Hfirst|].
  erewrite send_message_hit;
    [split; reflexivity | apply lookup_insert_eq | discriminate | | ];
    cbn [cache ticks calls trace].
  - intros Hz. apply float_add_zero_iff in Hz. lia.
  - apply float_le_add; [apply clock_representable | exact Hwindow].
Qed.

End ReasoningFacts.

(* ===================================================================== *)
(** ** Properties of the upload route *)
(* ===================================================================== *)

Section UploadFacts.

Import Processor Cache Files.
Local Open Scope py_scope.

Context (E : Env) (U : UploadEnv).

(** X23: The two checks on the file come first: an upload above 50 MB is
    answered with 413, and an upload whose extension is not in
    [SUPPORTED_FILE_TYPES] with 415, whatever the other fields of the
    form ([force_ocr] included) and before any chat is looked up or
    created; the cache, the clock and the engine are left untouched. *)
Theorem upload_rejects_before_processing file analysis_type force_ocr
    ocr_language chat_id external_id w :
  (max_size < zlen (data file) ->
   upload_file E U file analysis_type force_ocr ocr_language chat_id
               external_id w
   = (Raise (HTTPException 413 "File size exceeds 50MB"), w)) /\
  (forall name,
     zlen (data file) <= max_size -> filename file = Some name ->
     str_in (upload_ext name) SUPPORTED_FILE_TYPES = false ->
     upload_file E U file analysis_type force_ocr ocr_language chat_id
                 external_id w
     = (Raise (HTTPException 415
                 ("Unsupported file type: ." +:+ upload_ext name)), w)).
Proof.
  split.
  - intros Hsize. unfold upload_file, try_except.
    replace (zlen (data file) >? max_size) with true by lia. reflexivity.
  - intros name Hsize Hname Hext. unfold upload_file, try_except.
    replace (zlen (data file) >? max_size) with false by lia.
    rewrite Hname, Hext. reflexivity.
Qed.

(** X24: Whatever goes wrong, the route fails with an [HTTPException]: the
    ones it raises itself pass, every other exception becomes a 500 whose
    detail quotes it. A file without a name, for one, is a 500. *)
Theorem upload_failures_are_http_errors file analysis_type force_ocr
    ocr_language chat_id external_id w :
  (forall e,
     fst (upload_file E U file analysis_type force_ocr ocr_language chat_id
                      external_id w) = Raise e ->
     exists status detail, e = HTTPException status detail) /\
  (zlen (data file) <= max_size -> filename file = None ->
   upload_file E U file analysis_type force_ocr ocr_language chat_id
               external_id w
   = (Raise (HTTPException 500
        "An unexpected error occurred: 'NoneType' object has no attribute 'split'"),
      w)).
Proof.
  split.
  - intros e. unfold upload_file, try_except.
    match goal with |- context [match ?m w with _ => _ end] =>
      destruct (m w) as [[r|e0] w1] end; [discriminate|].
    destruct e0; cbn [fst raise]; intros [= <-]; eauto.
  - intros Hsize Hname. unfold upload_file, try_except.
    replace (zlen (data file) >? max_size) with false by lia.
    rewrite Hname. reflexivity.
Qed.

(** *** What an upload leaves in the cache *)

Lemma ensures_bind {A B} (Q : B -> World -> Prop) (m : M A) (k : A -> M B) :
  (forall a, ensures Q (k a)) -> ensures Q (bind m k).
Proof.
  intros Hk w b w'. unfold bind. destruct (m w) as [[a|e] w1]; [apply Hk|].
  intros [=].
Qed.

Lemma ensures_raise {A} (Q : A -> World -> Prop) e : ensures Q (@raise A e).
Proof. intros w a w' [=]. Qed.

Lemma store_upload_invalidates file name ext analysis_type force_ocr
    ocr_language chat_id uid :
  ensures (invalidated name)
    (store_upload E U file name ext analysis_type force_ocr ocr_language
                  chat_id uid).
Proof.
  unfold store_upload.
  apply ensures_bind; intros chat.
  apply ensures_bind; intros target.
  apply ensures_bind; intros [[content preview] meta].
  destruct content as [content|].
  - intros w a w'. unfold bind.
    destruct (log_markdown_length U content w) as [[u|e] w0]; [|intros [=]].
    unfold lift, get_cache, put_cache, ret.
    match goal with |- context [add_file_data U ?a1 ?a2 ?a3 ?a4 ?a5] =>
      destruct (add_file_data U a1 a2 a3 a4 a5) end; [|intros [=]].
    unfold ret.
    match goal with |- context [add_message U ?a1 ?a2 ?a3] =>
      destruct (add_message U a1 a2 a3) end; [|intros [=]].
    unfold ret. intros [= <- <-]. intros _. cbn [r_chat_id cache]. eauto.
  - intros w a w'. unfold bind, ret. intros [= <- <-]. intros H. by destruct H.
Qed.

(** X25: The invalidation that closes an upload also drops what the upload
    itself has just cached: when [upload_file] returns with a content,
    the cache holds no extraction result for the name of the file (the
    OCR result that [process_file_enhanced] stored a moment before is
    gone) and no answer for the chat of the upload. *)
Theorem upload_drops_what_it_cached file analysis_type force_ocr
    ocr_language chat_id external_id w r :
  fst (upload_file E U file analysis_type force_ocr ocr_language chat_id
                   external_id w) = Ok r ->
  r_content r <> None ->
  (forall h,
     cache (snd (upload_file E U file analysis_type force_ocr ocr_language
                             chat_id external_id w))
       !! QueryCache.make_key (r_chat_id r) h = None) /\
  (forall rt,
     cache (snd (upload_file E U file analysis_type force_ocr ocr_language
                             chat_id external_id w))
       !! PartialResultCache.make_key (fmt (filename file)) rt = None).
Proof.
  cut (forall res w',
         upload_file E U file analysis_type force_ocr ocr_language chat_id
                     external_id w = (res, w') ->
         res = Ok r -> r_content r <> None ->
         exists c name,
           filename file = Some name /\
           cache w' = invalidate_for_upload (r_chat_id r) (Some name) c).
  { intros Hcut Hr Hc.
    destruct (upload_file E U file analysis_type force_ocr ocr_language
                          chat_id external_id w) as [res w'] eqn:Hu.
    cbn [fst snd] in *.
    destruct (Hcut res w' eq_refl Hr Hc) as (c & name & Hn & ->). rewrite Hn.
    split.
    - intros h. rewrite invalidate_for_upload_lookup.
      by rewrite contains_faq_key.
    - intros rt. rewrite invalidate_for_upload_lookup.
      by rewrite (contains_partial_key (Some name)), orb_true_r. }
  intros res w'. unfold upload_file, try_except.
  destruct (zlen (data file) >? max_size); [intros [= <- <-]; discriminate|].
  destruct (filename file) as [name|]; [|intros [= <- <-]; discriminate].
  destruct (negb (str_in (upload_ext name) SUPPORTED_FILE_TYPES));
    [intros [= <- <-]; discriminate|].
  destruct (negb (opt_truthy external_id)); [intros [= <- <-]; discriminate|].
  destruct (store_upload E U file name (upload_ext name) analysis_type
              force_ocr ocr_language chat_id (fmt external_id) w)
    as [[a|e] w1] eqn:Hs.
  - intros [= <- <-] [= ->] Hc.
    destruct (store_upload_invalidates _ _ _ _ _ _ _ _ _ _ _ Hs Hc) as [c Hcache].
    eauto.
  - destruct e; intros [= <- <-]; discriminate.
Qed.

Lemma tabular_is_supported x :
  str_in x ["csv"; "json"; "xlsx"; "xls"] = true ->
  str_in x SUPPORTED_FILE_TYPES = true.
Proof.
  unfold str_in, SUPPORTED_FILE_TYPES. cbn [existsb]. intros Hx.
  destruct (String.eqb x "csv"); [reflexivity|].
  destruct (String.eqb x "json"); [reflexivity|].
  destruct (String.eqb x "xlsx"); [reflexivity|].
  destruct (String.eqb x "xls"); [reflexivity|].
  discriminate.
Qed.

(** X26: With an [analysis_type], a CSV, JSON or Excel upload is stored
    without being read: no parser and no engine runs (an invalid file is
    accepted like a valid one), the content recorded for the chat is the
    empty list, and the cached answers of the chat are dropped all the
    same. *)
Theorem tabular_analysis_skips_extraction file name analysis_type force_ocr
    ocr_language chat_id external_id target w :
  zlen (data file) <= max_size ->
  filename file = Some name ->
  str_in (upload_ext name) ["csv"; "json"; "xlsx"; "xls"] = true ->
  opt_truthy analysis_type = true ->
  opt_truthy external_id = true ->
  opt_truthy chat_id = true ->
  get_chat_by_id U (fmt chat_id) (fmt external_id) = Ok (Some target) ->
  (forall a b c d e, add_file_data U a b c d e = Ok tt) ->
  (forall a b c, add_message U a b c = Ok tt) ->
  upload_file E U file analysis_type force_ocr ocr_language chat_id
              external_id w
  = (Ok {| r_chat_id := target; r_filename := Some name;
           r_analysis_type := fmt analysis_type;
           r_preview := PvEmptyList; r_content := Some UEmptyList;
           r_processing_metadata := Some [] |},
     {| cache := invalidate_for_upload target (Some name) (cache w);
        ticks := ticks w; calls := calls w; trace := trace w |}).
Proof.
  intros Hsize Hname Hext Hat Huid Hcid Hchat Hfile Hmsg.
  assert (Hsup : str_in (upload_ext name) SUPPORTED_FILE_TYPES = true).
  { by apply tabular_is_supported. }
  unfold upload_file, try_except.
  replace (zlen (data file) >? max_size) with false by lia.
  rewrite Hname, Hsup, Huid. cbn [negb].
  unfold store_upload. rewrite Hcid, Hchat, Hat, Hext. cbn [andb].
  unfold log_markdown_length, bind, lift, ret, get_cache, put_cache.
  rewrite Hfile, Hmsg. reflexivity.
Qed.

(** *** The OCR languages *)

Lemma lstrip_head (s : string) :
  Py.lstrip s = "" \/
  exists c u, Py.lstrip s = String c u /\ Py.is_space c = false.
Proof.
  induction s as [|c s IH]; [by left|]. cbn [Py.lstrip].
  destruct (Py.is_space c) eqn:Hc; [exact IH|]. right. eauto.
Qed.

Lemma rstrip_idempotent (s : string) : Py.rstrip (Py.rstrip s) = Py.rstrip s.
Proof.
  induction s as [|c s IH]; [done|]. cbn [Py.rstrip].
  destruct (Py.is_space c && Py.is_empty (Py.rstrip s)) eqn:Hc; [done|].
  cbn [Py.rstrip]. by rewrite IH, Hc.
Qed.

Lemma strip_idempotent (s : string) : Py.strip (Py.strip s) = Py.strip s.
Proof.
  unfold Py.strip. destruct (lstrip_head s) as [->|(c & u & -> & Hc)]; [done|].
  cbn [Py.rstrip]. rewrite Hc. cbn [andb Py.lstrip]. rewrite Hc.
  cbn [Py.rstrip]. rewrite Hc. cbn [andb]. by rewrite rstrip_idempotent.
Qed.

(** X27: However the [ocr_language] field of the form is filled in, the
    processor is handed at least one language, and every language it is
    handed is non-empty, carries no surrounding whitespace and is not the
    placeholder "string" (in any case); so the default of the processor,
    [['en']], is never used for an upload. *)
Theorem ocr_languages_are_sanitized (ocr_language : option string) :
  parse_ocr_language ocr_language <> [] /\
  Forall clean_language (parse_ocr_language ocr_language) /\
  lang_truthy (Some (parse_ocr_language ocr_language)) = true /\
  lang_or (Some (parse_ocr_language ocr_language)) ["en"]
    = parse_ocr_language ocr_language.
Proof.
  assert (Hdefault : Forall clean_language ["eng"]).
  { constructor; [|constructor]. by repeat split. }
  assert (Hshape : forall l : list string,
            l <> [] -> lang_truthy (Some l) = true /\
                       lang_or (Some l) ["en"] = l).
  { intros [|x l] H; [done|]. by split. }
  cut (parse_ocr_language ocr_language <> [] /\
       Forall clean_language (parse_ocr_language ocr_language)).
  { intros [H1 H2]. destruct (Hshape _ H1). done. }
  unfold parse_ocr_language. destruct ocr_language as [s|]; [|by split].
  destruct (negb (Py.is_empty s) && negb (Py.lower s =? "string")%string);
    [|by split].
  set (l := List.map Py.strip
              (List.filter (fun lang => negb (Py.is_empty (Py.strip lang)))
                           (Py.split "," s))).
  destruct (match l with [] => true | _ => false end
            || existsb (fun x => (Py.lower x =? "string")%string) l) eqn:Hbad;
    [by split|].
  apply orb_false_iff in Hbad as [Hnil Hstr]. split.
  - by destruct l.
  - apply Forall_forall. intros x Hx.
    assert (Hx' := Hx). subst l.
    apply list_elem_of_fmap in Hx' as (y & -> & Hy).
    apply list_elem_of_In, filter_In in Hy as [_ Hy].
    repeat split.
    + intros Heq. rewrite Heq in Hy. discriminate.
    + apply strip_idempotent.
    + intros Heq.
      assert (existsb (fun x => (Py.lower x =? "string")%string)
                (List.map Py.strip
                   (List.filter
                      (fun lang => negb (Py.is_empty (Py.strip lang)))
                      (Py.split "," s))) = true); [|congruence].
      apply existsb_exists. exists (Py.strip y). split.
      * by apply list_elem_of_In.
      * rewrite Heq. reflexivity.
Qed.

End UploadFacts.

(* ===================================================================== *)
(** ** Properties of the routing to the web search *)
(* ===================================================================== *)

Section TriggerFacts.

Import Processor Chat Reasoning.

(** The ticker pattern on small inputs (code points 223, 181 and 233 are
    the sharp s, the micro sign and e with acute accent). *)
Example tickers_in_a_sentence :
  find_tickers "buy GOOG now" = ["BUY"; "GOOG"; "NOW"].
Proof. vm_compute. reflexivity. Qed.

Example tickers_in_lower_case :
  find_tickers "msft,aapl;nvda" = ["MSFT"; "AAPL"; "NVDA"].
Proof. vm_compute. reflexivity. Qed.

Example ticker_with_a_dot : find_tickers "BRK.A" = ["BRK"].
Proof. vm_compute. reflexivity. Qed.

Example underscore_joins_words : find_tickers "a_b cd" = ["CD"].
Proof. vm_compute. reflexivity. Qed.

Example digit_joins_words : find_tickers "NFLX2 nflx" = ["NFLX"].
Proof. vm_compute. reflexivity. Qed.

Example six_letters_are_too_many : find_tickers "abcdef" = [].
Proof. vm_compute. reflexivity. Qed.

Example sharp_s_becomes_two_capitals :
  find_tickers (String "a" (String "223" EmptyString)) = ["ASS"].
Proof. vm_compute. reflexivity. Qed.

Example micro_sign_is_no_capital :
  find_tickers (String "181" "m ab") = ["AB"].
Proof. vm_compute. reflexivity. Qed.

Example accented_letter_is_a_word :
  find_tickers (String "233" " ab") = ["AB"].
Proof. vm_compute. reflexivity. Qed.

Lemma upper_classes_good (c : ascii) :
  forallb good_class (upper_classes c) = true.
Proof.
  destruct c as [b0 b1 b2 b3 b4 b5 b6 b7].
  destruct b0, b1, b2, b3, b4, b5, b6, b7; vm_compute; reflexivity.
Qed.

Lemma capitals_only_snoc (s : string) (c : ascii) :
  capitals_only s = true -> is_capital c = true ->
  capitals_only (s +:+ String c EmptyString) = true.
Proof.
  intros Hs Hc. induction s as [|a s IH]; cbn [capitals_only] in *.
  - change ("" +:+ String c "") with (String c ""). cbn [capitals_only].
    by rewrite Hc.
  - change (String a s +:+ String c "") with (String a (s +:+ String c "")).
    cbn [capitals_only]. apply andb_true_iff in Hs as [-> Hs]. by apply IH.
Qed.

Lemma close_word_good cur :
  good_state cur = true -> forallb good_word (close_word cur) = true.
Proof.
  destruct cur as [[s|]|]; [|done..]. cbn [good_state close_word]. intros Hs.
  destruct ((2 <=? Py.len s)%nat && (Py.len s <=? 5)%nat) eqn:Hlen; [|done].
  cbn [forallb]. unfold good_word. rewrite Hs.
  apply andb_true_iff in Hlen as [-> ->]. done.
Qed.

Lemma scan_words_good (l : list uclass) cur :
  forallb good_class l = true -> good_state cur = true ->
  forallb good_word (scan_words l cur) = true.
Proof.
  revert cur. induction l as [|k l IH]; intros cur Hl Hcur.
  - by apply close_word_good.
  - cbn [forallb] in Hl. apply andb_true_iff in Hl as [Hk Hl].
    destruct k as [c| |]; cbn [scan_words].
    + cbn [good_class] in Hk. apply IH; [done|].
      destruct cur as [[s|]|]; cbn [good_state] in *.
      * by apply capitals_only_snoc.
      * done.
      * cbn [capitals_only]. by rewrite Hk.
    + by apply IH.
    + rewrite forallb_app, close_word_good by done. by apply IH.
Qed.

Lemma find_tickers_good (q : string) :
  forallb good_word (find_tickers q) = true.
Proof.
  unfold find_tickers. apply scan_words_good; [|done].
  induction (list_ascii_of_string q) as [|c l IH]; [done|].
  cbn [flat_map]. by rewrite forallb_app, upper_classes_good, IH.
Qed.

(** X28: What the ticker pattern finds is made of two to five capitals: whole
    words only, in any letter case of the question. The two dotted entries
    of [common_tickers], BRK.A and BRK.B, can therefore never be found:
    the check is the check against the nine tickers without a dot. *)
Theorem dotted_tickers_are_never_detected (q : string) :
  (forall t, In t (find_tickers q) ->
             capitals_only t = true /\ (2 <= Py.len t <= 5)%nat) /\
  has_ticker q
  = existsb (fun ticker => str_in ticker plain_tickers) (find_tickers q).
Proof.
  pose proof (find_tickers_good q) as Hgood.
  rewrite forallb_forall in Hgood. split.
  - intros t Ht. specialize (Hgood t Ht). unfold good_word in Hgood.
    apply andb_true_iff in Hgood as [Hgood H5].
    apply andb_true_iff in Hgood as [Hcap H2].
    apply Nat.leb_le in H2, H5. done.
  - unfold has_ticker.
    induction (find_tickers q) as [|t l IH]; [done|]. cbn [existsb].
    rewrite IH by (intros x Hx; apply Hgood; by right). f_equal.
    assert (Hcap : capitals_only t = true).
    { specialize (Hgood t (or_introl eq_refl)). unfold good_word in Hgood.
      apply andb_true_iff in Hgood as [Hgood _].
      by apply andb_true_iff in Hgood as [Hcap _]. }
    unfold str_in, common_tickers, plain_tickers. cbn [existsb].
    destruct (String.eqb_spec t "BRK.A") as [->|_]; [discriminate|].
    destruct (String.eqb_spec t "BRK.B") as [->|_]; [discriminate|].
    by rewrite !orb_false_r.
Qed.

Lemma dotted_tickers_are_never_detected_witness :
  capitals_only "BRK" = true /\ (2 <= Py.len "BRK" <= 5)%nat.
Proof.
  apply (dotted_tickers_are_never_detected "BRK.A"). vm_compute. by left.
Defined.

Context (C : ChatEnv).

(** X29: A question that holds one of the live-data keywords anywhere, inside
    a longer word as well ("now" in "know"), is answered by the web
    search alone when the agent is available: the completion client is
    not consulted, whatever file is attached to the chat. *)
Theorem live_data_keyword_bypasses_the_model (T : TavilyAgent)
    (messages_orm : list chat_msg) (profile : option string)
    (user_message : string) (ctx : option string) (keyword : string) :
  In keyword tavily_keywords ->
  Py.contains keyword (Py.lower user_message) = true ->
  user_message <> "" ->
  is_available T = true ->
  answer_block C T messages_orm profile user_message ctx
  = match answer T user_message profile ctx with
    | Ok response => Ok (Some response)
    | Raise _ => Ok (Some tavily_failed_message)
    end.
Proof.
  intros Hin Hk Hne Hav. unfold answer_block.
  assert (should_trigger_tavily_directly user_message = true) as ->.
  { unfold should_trigger_tavily_directly.
    destruct user_message as [|c s]; [done|]. cbn [Py.is_empty].
    apply orb_true_iff. right. unfold has_tavily_keyword.
    apply existsb_exists. eauto. }
  unfold reasoning_layer. by rewrite Hav.
Qed.

End TriggerFacts.

(* ===================================================================== *)
(** ** Properties of the quota check of [send_message] *)
(* ===================================================================== *)

Section GuardFacts.

Import Processor Chat Users Guard.
Local Open Scope py_scope.

Context (E : Env) (C : ChatEnv).

(** X30: The quota is checked before the answer cache and charged after it: a
    user who may not make a request is answered with 429 even when the
    answer to the question is cached (the cache is not read), and a user
    who gets an answer from the cache is charged one request for it, like
    for a computed answer. *)
Theorem cached_answers_are_charged (external_id : option string)
    (user : User) (now : Z) (chat_id user_message r : string) (cr e : Z)
    (w : World) :
  Files.opt_truthy external_id = true ->
  cache w !! Cache.QueryCache.make_key chat_id
               (query_fingerprint user_message)
    = Some (PStr r, cr, Some e) ->
  r <> "" -> e <> 0 -> clock E (ticks w) <= e ->
  (can_make_request now user = false ->
   guarded_send_message E C external_id (Some user) true now chat_id
                        user_message w
   = (Raise (HTTPException 429
        "Usage limit exceeded. Please upgrade your plan to continue."), w)) /\
  (can_make_request now user = true ->
   guarded_send_message E C external_id (Some user) true now chat_id
                        user_message w
   = (Ok ({| message := PStr r; from_cache := true |}, increment_usage user),
      {| cache := cache w; ticks := S (ticks w); calls := calls w;
         trace := trace w |})).
Proof.
  intros Hext Hk Hr He Ht. unfold guarded_send_message. rewrite Hext.
  cbn [negb]. split; intros Hcan; rewrite Hcan; cbn [negb].
  - reflexivity.
  - unfold bind. by rewrite (send_message_hit E C chat_id user_message r cr e w).
Qed.

End GuardFacts.

(* ===================================================================== *)
(** ** The cache and the pipeline on further concrete inputs *)
(* ===================================================================== *)

Section MoreExamples.

Import Processor Cache Files Examples.

Lemma get_touches_only_its_key_witness :
  get 11 "k" (<["k" := (PStr "v", 0, Some 10)]> ∅)
  = (PNone, delete "k" (<["k" := (PStr "v", 0, Some 10)]> ∅)) /\
  get 10 "k" (<["k" := (PStr "v", 0, Some 10)]> ∅)
  = (PStr "v", <["k" := (PStr "v", 0, Some 10)]> ∅).
Proof.
  split.
  - apply (proj1 (get_touches_only_its_key 11 "k"
                    (<["k" := (PStr "v", 0, Some 10)]> ∅))
                 (PStr "v") 0 10);
      [apply lookup_insert_eq | lia | lia].
  - apply (proj1 (proj2 (get_touches_only_its_key 10 "k"
                           (<["k" := (PStr "v", 0, Some 10)]> ∅)))
                 (PStr "v") 0 (Some 10));
      [apply lookup_insert_eq|].
    right. right. exists 10. split; [reflexivity | lia].
Defined.

Lemma adaptive_ttl_monotone_witness :
  (get_adaptive_ttl 1 20 <= get_adaptive_ttl 0 20)%Q /\
  (get_adaptive_ttl 0 5 <= get_adaptive_ttl 0 20)%Q.
Proof.
  split.
  - apply (adaptive_ttl_monotone 0 1 20 20). vm_compute. discriminate.
  - apply (adaptive_ttl_monotone 0 0 5 20). vm_compute. discriminate.
Defined.

Lemma upload_invalidation_clears_witness :
  partial_ok (invalidate_for_upload "c1" (Some "scan.png") ∅).
Proof.
  apply (upload_invalidation_clears "c1" (Some "scan.png") ∅).
  intros file_id v t e H. by rewrite lookup_empty in H.
Defined.

Lemma upload_invalidation_is_scoped_witness :
  invalidate_for_upload "c1" (Some "scan.png")
    (set 0 0 (QueryCache.make_key "c2" "ab") (PStr "42") (Some 600) ∅)
    !! QueryCache.make_key "c2" "ab"
  = set 0 0 (QueryCache.make_key "c2" "ab") (PStr "42") (Some 600) ∅
    !! QueryCache.make_key "c2" "ab" /\
  invalidate_for_upload "c1" (Some "scan.png")
    (set 0 0 (QueryCache.make_key "c2" "ab") (PStr "42") (Some 600) ∅)
    !! PartialResultCache.make_key "scan.pdf" "ocr"
  = set 0 0 (QueryCache.make_key "c2" "ab") (PStr "42") (Some 600) ∅
    !! PartialResultCache.make_key "scan.pdf" "ocr".
Proof.
  split.
  - apply (upload_invalidation_is_scoped "c1" (Some "scan.png")
             (set 0 0 (QueryCache.make_key "c2" "ab") (PStr "42") (Some 600) ∅));
      [reflexivity | reflexivity | discriminate].
  - apply (upload_invalidation_is_scoped "c1" (Some "scan.png")
             (set 0 0 (QueryCache.make_key "c2" "ab") (PStr "42") (Some 600) ∅));
      [reflexivity | reflexivity | discriminate].
Defined.

Lemma process_file_returns_success_witness :
  exists d,
    fst (process_file idle_host fp scan_png false None initial_world) = Ok d /\
    d_success d = true.
Proof.
  eexists. split; [vm_compute; reflexivity|].
  apply (process_file_returns_success idle_host fp scan_png false None
           initial_world).
  vm_compute. reflexivity.
Defined.

Lemma process_file_keeps_cache_sound_witness :
  partial_ok (cache (snd (process_file idle_host fp scan_png false None
                            initial_world))).
Proof.
  apply (process_file_keeps_cache_sound idle_host fp scan_png false None
           initial_world).
  intros file_id v t e H. simpl in H. by rewrite lookup_empty in H.
Defined.

Lemma basic_route_leaves_engine_alone_witness :
  cache (snd (process_file idle_host fp table_csv false None initial_world))
    = cache initial_world /\
  calls (snd (process_file idle_host fp table_csv false None initial_world))
    = calls initial_world /\
  (exists tr,
     trace (snd (process_file idle_host fp table_csv false None initial_world))
       = trace initial_world
         ++ EvRoute (routed_force_ocr table_csv false) false
            :: EvBasicPath :: tr /\
     forallb is_basic tr = true) /\
  (forall d,
     fst (process_file idle_host fp table_csv false None initial_world) = Ok d ->
     d_enhanced_processing d = false).
Proof.
  apply (basic_route_leaves_engine_alone idle_host fp table_csv false None
           initial_world).
  - reflexivity.
  - right. reflexivity.
Defined.


Lemma cached_result_is_keyed_by_name_witness :
  process_file_enhanced idle_host fp other_png true (Some ["deu"])
    (snd (process_file_enhanced idle_host fp scan_png false None
            initial_world))
  = (fst (process_file_enhanced idle_host fp scan_png false None
            initial_world),
     {| cache := cache (snd (process_file_enhanced idle_host fp scan_png
                               false None initial_world));
        ticks := (6 + ticks initial_world)%nat;
        calls := S (S (calls initial_world));
        trace := trace (snd (process_file_enhanced idle_host fp scan_png
                               false None initial_world))
                 ++ [EvEnhanced true (Some ["deu"])] |}).
Proof.
  apply (cached_result_is_keyed_by_name idle_host fp scan_png other_png
           false None true (Some ["deu"]) initial_world "scan.png"
           "# Title" "pdf").
  - reflexivity.
  - reflexivity.
  - reflexivity.
  - apply lookup_empty.
  - reflexivity.
  - reflexivity.
  - vm_compute. discriminate.
  - vm_compute. discriminate.
Defined.

Lemma first_attempt_success_witness :
  process_file idle_host fp scan_png false None initial_world =
    (Ok (enhanced_dict
           (docling_result scan_png (routed_force_ocr scan_png false) None
              "# Title" "pdf"
              (clock idle_host (2 + ticks initial_world)
               - clock idle_host (1 + ticks initial_world)))),
     {| cache :=
          Cache.set (clock idle_host (3 + ticks initial_world))
            (clock idle_host (4 + ticks initial_world))
            (ocr_key scan_png)
            (PResult
               (docling_result scan_png (routed_force_ocr scan_png false) None
                  "# Title" "pdf"
                  (clock idle_host (2 + ticks initial_world)
                   - clock idle_host (1 + ticks initial_world))))
            (Some 3600) (cache initial_world);
        ticks := (5 + ticks initial_world)%nat;
        calls := S (calls initial_world);
        trace := trace initial_world ++
          [EvRoute (routed_force_ocr scan_png false) true;
           EvEnhanced (routed_force_ocr scan_png false) None;
           EvResources true;
           EvConvert (routed_force_ocr scan_png false)
                     (if lang_truthy None then None else None)] |}).
Proof.
  apply (first_attempt_success idle_host fp scan_png false None initial_world
           "scan.png" "# Title" "pdf").
  - reflexivity.
  - reflexivity.
  - apply lookup_empty.
  - reflexivity.
  - reflexivity.
Defined.

Lemma retry_with_forced_ocr_succeeds_witness :
  exists elapsed new,
    fst (process_file flaky_engine fp scan_png false None initial_world) =
      Ok (enhanced_dict
            (docling_result scan_png true (Some (lang_or None ["en"]))
               "# Title" "pdf" elapsed)) /\
    trace (snd (process_file flaky_engine fp scan_png false None
                  initial_world)) = trace initial_world ++ new /\
    enhanced_calls new = [(routed_force_ocr scan_png false, None);
                          (true, Some (lang_or None ["en"]))] /\
    forallb (fun ev => negb (is_switch ev)) new = true /\
    calls (snd (process_file flaky_engine fp scan_png false None
                  initial_world)) = S (S (calls initial_world)).
Proof.
  apply (retry_with_forced_ocr_succeeds flaky_engine fp scan_png false None
           initial_world "scan.png" "# Title" "pdf").
  - reflexivity.
  - reflexivity.
  - apply lookup_empty.
  - right. intros f lang. eexists. reflexivity.
  - reflexivity.
  - reflexivity.
Defined.

Lemma failed_conversion_reported_as_unsupported_witness :
  fst (process_file broken_engine fp slides_pptx false None initial_world)
    = Raise (ValueError ("Unsupported file type: " +:+ file_ext slides_pptx)) /\
  cache (snd (process_file broken_engine fp slides_pptx false None
                initial_world)) = cache initial_world.
Proof.
  apply (failed_conversion_reported_as_unsupported broken_engine fp
           slides_pptx false None initial_world).
  - reflexivity.
  - reflexivity.
  - reflexivity.
  - apply lookup_empty.
  - right. intros f lang. eexists. reflexivity.
  - right. intros f lang. eexists. reflexivity.
Defined.

Lemma pdf_text_fallback_witness :
  exists new,
    process_file text_pdf_host fp scan_pdf false None initial_world =
      (Ok (pdf_fallback_dict scan_pdf (data scan_pdf) ["Quarterly report"]
             (clock text_pdf_host (5 + ticks initial_world)
              - clock text_pdf_host (ticks initial_world))),
       {| cache := cache initial_world;
          ticks := (6 + ticks initial_world)%nat;
          calls := S (S (calls initial_world));
          trace := trace initial_world ++ new |}) /\
    enhanced_calls (after_switch new) = [] /\
    after_switch new = [].
Proof.
  apply (pdf_text_fallback text_pdf_host fp scan_pdf false None initial_world
           ["Quarterly report"]).
  - reflexivity.
  - reflexivity.
  - apply lookup_empty.
  - right. intros f lang. eexists. reflexivity.
  - right. intros f lang. eexists. reflexivity.
  - reflexivity.
  - reflexivity.
Defined.

Lemma pdf_last_resort_witness :
  exists d new,
    process_file unreadable_pdf_host fp scan_pdf false None initial_world =
      (Ok d, {| cache := cache initial_world;
                ticks := (6 + ticks initial_world)%nat;
                calls := S (S (calls initial_world));
                trace := trace initial_world ++ new |}) /\
    d_enhanced_processing d = false /\
    d_content d = Some (ODict
      [("document_data", MStr (b64encode unreadable_pdf_host (data scan_pdf)));
       ("document_type", MStr "pdf");
       ("file_size", MInt (zlen (data scan_pdf)));
       ("note", MStr "PDF document uploaded. Enhanced processing (Docling) is recommended for better text extraction.")]) /\
    after_switch new = [EvBasicPath; EvBasic "document"].
Proof.
  apply (pdf_last_resort unreadable_pdf_host fp scan_pdf false None
           initial_world (OtherError "EOF marker not found")).
  - reflexivity.
  - reflexivity.
  - apply lookup_empty.
  - right. intros f lang. eexists. reflexivity.
  - right. intros f lang. eexists. reflexivity.
  - reflexivity.
Defined.

End MoreExamples.

(* ===================================================================== *)
(** ** The route and the reasoning layer on concrete inputs *)
(* ===================================================================== *)

Section RouteExamples.

Import Processor Cache Files Chat Reasoning Users Guard Examples.

Lemma failed_classifier_keeps_answer_witness :
  is_no_info_response_llm out_of_quota (Some "The total is 42.") = Ok false.
Proof.
  apply (failed_classifier_keeps_answer out_of_quota "The total is 42.").
  - vm_compute. reflexivity.
  - intros content. discriminate.
Defined.

Lemma quota_apology_triggers_web_search_witness :
  answer_block out_of_quota web_search
    [("user", "Who wrote the report?")] None "And when?" None
  = Ok (Some "Based on current web information: 42") /\
  answer_block out_of_quota no_web_search
    [("user", "Who wrote the report?")] None "And when?" None
  = Ok (Some no_web_access_message) /\
  answer_block out_of_quota no_web_search
    [("user", "Who wrote the report?")] None "What is the current price?" None
  = Ok (Some (generate_fallback_response [("user", "Who wrote the report?")])).
Proof.
  split; [|split].
  - apply (quota_apology_triggers_web_search out_of_quota web_search
             [("user", "Who wrote the report?")] None "And when?" None
             "Error code: 429 - insufficient_quota" "user"
             "Who wrote the report?");
      [intros messages; reflexivity | vm_compute; reflexivity
      | reflexivity | discriminate].
  - apply (quota_apology_triggers_web_search out_of_quota no_web_search
             [("user", "Who wrote the report?")] None "And when?" None
             "Error code: 429 - insufficient_quota" "user"
             "Who wrote the report?");
      [intros messages; reflexivity | vm_compute; reflexivity
      | reflexivity | discriminate].
  - apply (quota_apology_triggers_web_search out_of_quota no_web_search
             [("user", "Who wrote the report?")] None
             "What is the current price?" None
             "Error code: 429 - insufficient_quota" "user"
             "Who wrote the report?");
      [intros messages; reflexivity | vm_compute; reflexivity
      | reflexivity | discriminate].
Defined.

Lemma apology_is_cached_witness :
  exists w1 w2,
    send_message idle_host (with_layer offline no_web_search [] None)
                 "c-1" "What is the total?" initial_world
      = (Ok {| message := PStr (difficulties "Connection error.");
               from_cache := false |}, w1) /\
    send_message idle_host healthy "c-1" "What is the total?" w1
      = (Ok {| message := PStr (difficulties "Connection error.");
               from_cache := true |}, w2) /\
    trace w2 = trace w1.
Proof.
  apply (apology_is_cached idle_host offline healthy no_web_search [] None
           "c-1" "What is the total?" "Connection error." initial_world).
  - intros messages max_tokens. reflexivity.
  - vm_compute. reflexivity.
  - vm_compute. reflexivity.
  - apply lookup_empty.
  - vm_compute. discriminate.
  - vm_compute. discriminate.
Defined.

Lemma upload_rejects_before_processing_witness :
  upload_file idle_host repo file_xyz None true None None (Some "u-1")
              initial_world
  = (Raise (HTTPException 415
              ("Unsupported file type: ." +:+ upload_ext "file.xyz")),
     initial_world).
Proof.
  apply (upload_rejects_before_processing idle_host repo file_xyz None true
           None None (Some "u-1") initial_world).
  - vm_compute. discriminate.
  - reflexivity.
  - reflexivity.
Defined.

Lemma upload_failures_are_http_errors_witness :
  upload_file idle_host repo {| filename := None; data := [] |} None false
              None None (Some "u-1") initial_world
  = (Raise (HTTPException 500
       "An unexpected error occurred: 'NoneType' object has no attribute 'split'"),
     initial_world).
Proof.
  apply (upload_failures_are_http_errors idle_host repo
           {| filename := None; data := [] |} None false None None
           (Some "u-1") initial_world).
  - vm_compute. discriminate.
  - reflexivity.
Defined.

Lemma upload_drops_what_it_cached_witness :
  cache (snd (upload_file idle_host repo scan_png None false None
                          (Some "c-1") (Some "u-1") initial_world))
    !! PartialResultCache.make_key (fmt (filename scan_png)) "ocr" = None.
Proof.
  refine (proj2 (upload_drops_what_it_cached idle_host repo scan_png None
                   false None (Some "c-1") (Some "u-1") initial_world
                   _ _ _) "ocr").
  - vm_compute. reflexivity.
  - discriminate.
Defined.

Lemma tabular_analysis_skips_extraction_witness :
  upload_file idle_host repo table_csv (Some "summary") false None
              (Some "c-1") (Some "u-1") initial_world
  = (Ok {| r_chat_id := "c-1"; r_filename := Some "table.csv";
           r_analysis_type := fmt (Some "summary");
           r_preview := PvEmptyList; r_content := Some UEmptyList;
           r_processing_metadata := Some [] |},
     {| cache := invalidate_for_upload "c-1" (Some "table.csv")
                   (cache initial_world);
        ticks := ticks initial_world; calls := calls initial_world;
        trace := trace initial_world |}).
Proof.
  apply (tabular_analysis_skips_extraction idle_host repo table_csv
           "table.csv" (Some "summary") false None (Some "c-1") (Some "u-1")
           "c-1" initial_world); try reflexivity.
  vm_compute. discriminate.
Defined.

Lemma live_data_keyword_bypasses_the_model_witness :
  answer_block healthy web_search [] None
               "What do you know about this file?" None
  = match answer web_search "What do you know about this file?" None None with
    | Ok response => Ok (Some response)
    | Raise _ => Ok (Some tavily_failed_message)
    end.
Proof.
  apply (live_data_keyword_bypasses_the_model healthy web_search [] None
           "What do you know about this file?" None "now").
  - vm_compute. tauto.
  - vm_compute. reflexivity.
  - discriminate.
  - reflexivity.
Defined.

Lemma cached_answers_are_charged_witness :
  guarded_send_message idle_host healthy (Some "u-1") (Some spent_user)
    true 0 "c-1" "What is the total?" answered_world
  = (Raise (HTTPException 429
       "Usage limit exceeded. Please upgrade your plan to continue."),
     answered_world) /\
  guarded_send_message idle_host healthy (Some "u-1") (Some free_user)
    true 0 "c-1" "What is the total?" answered_world
  = (Ok ({| message := PStr "42"; from_cache := true |},
         increment_usage free_user),
     {| cache := cache answered_world; ticks := S (ticks answered_world);
        calls := calls answered_world; trace := trace answered_world |}).
Proof.
  split.
  - apply (cached_answers_are_charged idle_host healthy (Some "u-1")
             spent_user 0 "c-1" "What is the total?" "42" 1000 1600
             answered_world);
      [reflexivity | apply lookup_insert_eq | discriminate | discriminate
      | vm_compute; discriminate | reflexivity].
  - apply (cached_answers_are_charged idle_host healthy (Some "u-1")
             free_user 0 "c-1" "What is the total?" "42" 1000 1600
             answered_world);
      [reflexivity | apply lookup_insert_eq | discriminate | discriminate
      | vm_compute; discriminate | reflexivity].
Defined.

End RouteExamples.
